(** * Rooms router of the Compensation API: a shallow embedding

    The development follows [routers/rooms.js] (the [/api/rooms] surface):
    the two permission middlewares [canViewRoom] and [requiresRoomPermission],
    the audit helper [roomAuditLog], every route handler that writes to the
    [rooms] collection, to the audit trail or to the bucket, and the read
    routes [info], [download], [my-permissions], [verify-subroom-link] and
    the two bundle stubs.  Of the other read routes, [search], [versions] and
    [permissions] are embedded as well (module [Reads]); [subrooms/list] and
    [all-permissions] write nothing and are left out, and so are the rate
    limiters and the text sink of [auditLog].

    The helpers of [helpers.js] the routers share (the account documents,
    the lists of friends, notifications, bans, the look-up by user name, the
    profanity check) are embedded over a world of their own (module
    [Helpers]), with the routes of [routers/social.js] and [routers/auth.js]
    that go through them: [make-acquaintance], [make-friend],
    [make-favorite-friend], [remove-friend] and [refresh] (module [Social]).

    Conventions of the embedding.
    - A request body is a [jsval], the tree [JSON.parse] builds.  An object
      lists its own enumerable properties in the order [for (k in o)] visits
      them.
    - A stored room is a record; its three dictionaries ([subrooms],
      [rolePermissions], [userPermissions]) are finite maps.
    - The handlers run one after the other (no interleaving of two requests).
    - What the surrounding world decides (the clock, the uuid generator,
      whether the audit collection accepts a write, what [Buffer.from]
      decodes) is read from an [env] record handed to each request.
    - Strings are sequences of code units below 256. *)

From stdpp Require Import gmap strings list fin_maps.
From Stdlib Require Import ZArith QArith Ascii.
Close Scope Q_scope.
Set Warnings "-register-all".

(** ** JavaScript values and the few primitives the router uses *)
Module JS.

Inductive jsval : Type :=
| JUndefined
| JNull
| JBool (b : bool)
| JNum (q : Q)
| JStr (s : string)
| JArr (items : list jsval)
| JObj (props : list (string * jsval)).

Inductive jstype : Type :=
| TUndefined | TObject | TBoolean | TNumber | TString.

(** [typeof v] *)
Definition typeof (v : jsval) : jstype :=
  match v with
  | JUndefined => TUndefined
  | JNull => TObject
  | JBool _ => TBoolean
  | JNum _ => TNumber
  | JStr _ => TString
  | JArr _ => TObject
  | JObj _ => TObject
  end.

Definition jstype_eqb (a b : jstype) : bool :=
  match a, b with
  | TUndefined, TUndefined | TObject, TObject | TBoolean, TBoolean
  | TNumber, TNumber | TString, TString => true
  | _, _ => false
  end.

Definition isArray (v : jsval) : bool :=
  match v with JArr _ => true | _ => false end.

(** ToBoolean, as [if (v)] and [v && ...] apply it. *)
Definition truthy (v : jsval) : bool :=
  match v with
  | JUndefined | JNull => false
  | JBool b => b
  | JNum q => negb (Qeq_bool q (inject_Z 0))
  | JStr s => negb (String.eqb s EmptyString)
  | JArr _ | JObj _ => true
  end.

Fixpoint assoc (k : string) (l : list (string * jsval)) : option jsval :=
  match l with
  | [] => None
  | (k', v) :: rest => if String.eqb k k' then Some v else assoc k rest
  end.

(** [v.k] for one of the fixed field names the router reads from a request
    (none of them is a property of a prototype): [None] is the TypeError a
    read from [undefined] or [null] raises. *)
Definition get (v : jsval) (k : string) : option jsval :=
  match v with
  | JUndefined | JNull => None
  | JObj l => Some (default JUndefined (assoc k l))
  | _ => Some JUndefined
  end.

(** [v?.k] *)
Definition get_opt (v : jsval) (k : string) : jsval :=
  default JUndefined (get v k).

(** The names every plain object inherits from [Object.prototype]; a read
    [o[k]] with one of them finds a function (or, for [__proto__], the
    prototype itself) when [o] has no own property [k]. *)
Definition Object_prototype_keys : list string :=
  [ "constructor"; "hasOwnProperty"; "isPrototypeOf"; "propertyIsEnumerable";
    "toLocaleString"; "toString"; "valueOf"; "__defineGetter__";
    "__defineSetter__"; "__lookupGetter__"; "__lookupSetter__"; "__proto__" ].

Definition inherited (k : string) : bool :=
  existsb (String.eqb k) Object_prototype_keys.

(** *** Integers as strings *)

Definition digit_char (d : nat) : ascii := ascii_of_nat (48 + d).

Fixpoint digits_of (fuel n : nat) (acc : string) : string :=
  match fuel with
  | O => acc
  | S fuel' =>
      let acc' := String (digit_char (n mod 10)) acc in
      if n <? 10 then acc' else digits_of fuel' (n / 10) acc'
  end.

(** [n.toString()] for an array length or index. *)
Definition toString (n : nat) : string := digits_of (S n) n EmptyString.

(** StrWhiteSpaceChar below 256: TAB, LF, VT, FF, CR, SP, NBSP. *)
Definition is_space (c : ascii) : bool :=
  let n := nat_of_ascii c in
  (n =? 9) || (n =? 10) || (n =? 11) || (n =? 12) || (n =? 13) || (n =? 32)
  || (n =? 160).

Fixpoint trim_start (s : string) : string :=
  match s with
  | String c rest => if is_space c then trim_start rest else s
  | EmptyString => s
  end.

(** The value of [c] as a digit (letters count from ten, either case). *)
Definition digit_value (c : ascii) : option Z :=
  let n := nat_of_ascii c in
  if (48 <=? n) && (n <=? 57) then Some (Z.of_nat (n - 48))
  else if (97 <=? n) && (n <=? 122) then Some (Z.of_nat (n - 87))
  else if (65 <=? n) && (n <=? 90) then Some (Z.of_nat (n - 55))
  else None.

Definition digit_in (radix : Z) (c : ascii) : option Z :=
  match digit_value c with
  | Some d => if (d <? radix)%Z then Some d else None
  | None => None
  end.

(** Reads the longest prefix of digits of [radix]; [acc] is [None] until the
    first digit is seen. *)
Fixpoint read_digits (radix : Z) (s : string) (acc : option Z) : option Z :=
  match s with
  | String c rest =>
      match digit_in radix c with
      | Some d => read_digits radix rest (Some (default 0%Z acc * radix + d)%Z)
      | None => acc
      end
  | EmptyString => acc
  end.

Definition strip_sign (s : string) : bool * string :=
  match s with
  | String "-" rest => (true, rest)
  | String "+" rest => (false, rest)
  | _ => (false, s)
  end.

Definition strip_hex (s : string) : Z * string :=
  match s with
  | String "0" (String "x" rest) => (16%Z, rest)
  | String "0" (String "X" rest) => (16%Z, rest)
  | _ => (10%Z, s)
  end.

(** [parseInt(s)] with no radix argument; [None] is NaN.  The result is the
    exact integer: beyond 2^53 JavaScript rounds it, which no comparison with
    an array length can tell apart. *)
Definition parseInt (s : string) : option Z :=
  let '(negative, s1) := strip_sign (trim_start s) in
  let '(radix, s2) := strip_hex s1 in
  match read_digits radix s2 None with
  | Some v => Some (if negative then (- v)%Z else v)
  | None => None
  end.

(** [a <= b] where [b] may be NaN: every comparison with NaN is false. *)
Definition le_num (a : Z) (b : option Z) : bool :=
  match b with Some z => (a <=? z)%Z | None => false end.

Definition lt_num (a : Z) (b : option Z) : bool :=
  match b with Some z => (a <? z)%Z | None => false end.

Fixpoint indexed_from (i : nat) (l : list jsval) : list (string * jsval) :=
  match l with
  | [] => []
  | v :: rest => (toString i, v) :: indexed_from (S i) rest
  end.

Fixpoint chars_from (i : nat) (s : string) : list (string * jsval) :=
  match s with
  | EmptyString => []
  | String c rest =>
      (toString i, JStr (String c EmptyString)) :: chars_from (S i) rest
  end.

(** The pairs [(key, v[key])] a loop
    [for (const key in v) if (Object.hasOwnProperty.call(v, key))] visits. *)
Definition own_entries (v : jsval) : list (string * jsval) :=
  match v with
  | JObj l => l
  | JArr l => indexed_from 0 l
  | JStr s => chars_from 0 s
  | _ => []
  end.

(** [s.includes(sub)] *)
Fixpoint prefix_of (p s : string) : bool :=
  match p, s with
  | EmptyString, _ => true
  | String a p', String b s' => if Ascii.eqb a b then prefix_of p' s' else false
  | String _ _, EmptyString => false
  end.

Fixpoint includes (s sub : string) : bool :=
  prefix_of sub s ||
  match s with
  | EmptyString => false
  | String _ rest => includes rest sub
  end.

(** [xs[v]] for an array [xs] and a property key [v]: a string key selects
    an element only when it is the canonical spelling of an index; a number
    key when it is a non-negative integer. *)
Definition array_index (len : nat) (v : jsval) : option nat :=
  match v with
  | JStr s =>
      match parseInt s with
      | Some z =>
          if (0 <=? z)%Z && String.eqb (toString (Z.to_nat z)) s
             && (Z.to_nat z <? len)
          then Some (Z.to_nat z) else None
      | None => None
      end
  | JNum q =>
      if (Zpos (Qden q) =? 1)%Z && (0 <=? Qnum q)%Z && (Z.to_nat (Qnum q) <? len)
      then Some (Z.to_nat (Qnum q)) else None
  | _ => None
  end.


End JS.

(** ** The document store, the blob bucket and the audit trail *)
Module Store.
Import JS.

Record Spawn : Type := {
  position : Q * Q * Q;
  rotation : Q * Q * Q * Q }.

Record Version : Type := {
  baseSceneIndex : Q;
  spawn : Spawn;
  shortHandCommitMessage : string;
  longHandCommitMessage : string;
  author : string;
  collaborators : list string;
  associated_file : bool }.

Record Subroom : Type := {
  publicVersionId : jsval;
  maxPlayers : Z;
  versions : list Version }.

Record Report : Type := {
  reason : string;
  alleges_illegal_content : bool;
  alleges_danger_of_harm : bool;
  reporting_user_id : string;
  time : Z }.

(** A document of the [rooms] collection; its [_id] is the key under which
    the collection holds it. *)
Record Room : Type := {
  name : string;
  description : string;
  creator_id : string;
  tags : list string;
  created_at : Z;
  visits : Z;
  subrooms : gmap string Subroom;
  homeSubroomId : string;
  rolePermissions : gmap string (gmap string bool);
  userPermissions : gmap string string;
  cover_image_id : string;
  contentFlags : list (string * string);
  reports : list Report }.

Inductive AuditEventType : Type :=
| RoomCreate | SubroomCreate | SubroomDelete | SubroomMaxPlayerUpdate
| HomeSubroomSet | UserRoleUpdate | RoleCreated | RolePermissionsUpdate
| RoleDeleted | TagUpdate | DescriptionUpdate | ChangesetCreation
| PublicVersionUpdate | ContentFlagsUpdate | RoomSuspendedByDeveloper
| RoomTerminatedByDeveloper | RoomTerminatedByDeveloperForIllegalContent.

(** The string each member of the enumeration stands for. *)
Definition event_code (t : AuditEventType) : string :=
  match t with
  | RoomCreate => "room_created"
  | SubroomCreate => "subroom_created"
  | SubroomDelete => "subroom_deleted"
  | SubroomMaxPlayerUpdate => "subroom_max_players_updated"
  | HomeSubroomSet => "home_subroom_updated"
  | UserRoleUpdate => "user_roles_updated"
  | RoleCreated => "role_created"
  | RolePermissionsUpdate => "role_permissions_updated"
  | RoleDeleted => "role_deleted"
  | TagUpdate => "tags_updated"
  | DescriptionUpdate => "description_updated"
  | ChangesetCreation => "changeset_created"
  | PublicVersionUpdate => "public_version_updated"
  | ContentFlagsUpdate => "content_flags_updated"
  | RoomSuspendedByDeveloper => "room_suspended"
  | RoomTerminatedByDeveloper => "room_terminated"
  | RoomTerminatedByDeveloperForIllegalContent =>
      "room_terminated_for_illegal_content"
  end.

(** What [o[k]] finds in a dictionary of the room: an own entry, or one of
    the members every object inherits. *)
Inductive found (A : Type) : Type :=
| Own (a : A)
| Inherited.
Arguments Own {A} a.
Arguments Inherited {A}.

Definition js_lookup {A : Type} (m : gmap string A) (k : string)
  : option (found A) :=
  match m !! k with
  | Some a => Some (Own a)
  | None => if inherited k then Some Inherited else None
  end.

(** [Object.keys(m).includes(k)] *)
Definition has_key {A : Type} (m : gmap string A) (k : string) : bool :=
  match m !! k with Some _ => true | None => false end.

(** The values an audit event records as previous or new value. *)
Inductive audit_value : Type :=
| AVJs (v : jsval)
| AVRole (r : option (found (gmap string bool)))
| AVRoleName (r : found string)
| AVSubroom (s : option Subroom).

Record AuditEvent : Type := {
  type : AuditEventType;
  previous_value : option audit_value;
  new_value : option audit_value;
  note : option jsval }.

Record AuditRecord : Type := {
  room_id : string;
  user_id : string;
  event_time : Z;
  event_data : AuditEvent }.

Definition buffer : Type := list Byte.byte.

(** What leaves the process besides the HTTP response: events on a live
    socket and notifications pushed to an account document. *)
Inductive notice : Type :=
| SocketEmit (uid : string) (event : string)
| SocketSend (uid : string) (code : string)
| AccountNotification (uid : string) (template : string).

Record store : Type := {
  rooms : gmap string Room;
  room_audit : list AuditRecord;
  bucket : gmap string buffer;
  images : gmap Z string;
  outbox : list notice }.

(** What the world outside the handler decides during one request. *)
Record env : Type := {
  now : Z;
  uuid : string;
  audit_up : bool;
  Buffer_from : jsval -> option buffer }.

End Store.

(** ** The handlers of the router *)
Module Rooms.
Import JS Store.

(** [req.user], as the token middleware attaches it ([uid] is its [id]). *)
Record user : Type := {
  uid : string;
  developer : bool }.

(** How a request ends.  [Hung]: an exception left an [async] middleware
    that has no [try], so no response is ever written.  [Refused]: the token
    middleware ended the request.  [OutsideModel]: the request makes the
    handler build a dotted update path from a string that is not a single
    field name, which this embedding of the store does not follow. *)
Inductive reply : Type :=
| Reply (status : nat) (body : jsval)
| ReplyBuffer (status : nat) (data : buffer)
| Refused
| Hung
| OutsideModel.

(** One statement of a handler either goes on with a value, ends the handler
    with a response ([return res.status(..).json(..)]), or throws. *)
Inductive step (A : Type) : Type :=
| Next (a : A)
| Return (r : reply)
| Throw.
Arguments Next {A} a.
Arguments Return {A} r.
Arguments Throw {A}.

Definition M (A : Type) : Type := store -> store * step A.

#[global] Instance M_ret : MRet M := fun A a s => (s, Next a).

#[global] Instance M_bind : MBind M := fun A B f m s =>
  match m s with
  | (s', Next a) => f a s'
  | (s', Return r) => (s', Return r)
  | (s', Throw) => (s', Throw)
  end.

Definition respond {A : Type} (status : nat) (body : jsval) : M A :=
  fun s => (s, Return (Reply status body)).

Definition finish {A : Type} (r : reply) : M A :=
  fun s => (s, Return r).

Definition throw {A : Type} : M A := fun s => (s, Throw).

(** [if (c) return ...] *)
Definition when (c : bool) (m : M unit) : M unit :=
  if c then m else mret tt.

(** A read that raises a TypeError when there is nothing to read from. *)
Definition attempt {A : Type} (o : option A) : M A :=
  match o with Some a => mret a | None => throw end.

(** A call whose promise is not awaited: a rejection does not reach the
    handler (it, too, ends as an unhandled rejection). *)
Definition unawaited (m : M unit) : M unit := fun s =>
  match m s with
  | (s', Throw) => (s', Next tt)
  | r => r
  end.

(** [try { h } catch (ex) { res.status(500)...; throw ex }] around a whole
    handler.  What the process does with the exception thrown again (an
    unhandled rejection) is not followed. *)
Definition try_catch (on_error : reply) (h : M unit) : store -> store * reply :=
  fun s =>
  match h s with
  | (s', Return r) => (s', r)
  | (s', Throw) => (s', on_error)
  | (s', Next _) => (s', Hung)
  end.

(** A middleware followed by the handler it guards. *)
Definition guarded {C : Type} (gate : M C) (on_error : reply)
  (h : C -> M unit) : store -> store * reply :=
  fun s =>
  match gate s with
  | (s', Next c) => try_catch on_error (h c) s'
  | (s', Return r) => (s', r)
  | (s', Throw) => (s', Hung)
  end.

(** *** The collections *)

Definition with_rooms (f : gmap string Room -> gmap string Room) (s : store)
  : store :=
  {| rooms := f (rooms s); room_audit := room_audit s; bucket := bucket s;
     images := images s; outbox := outbox s |}.

(** [collection.findOne({_id: {$eq: id, $exists: true}})] *)
Definition findOne (id : string) : M (option Room) :=
  fun s => (s, Next (rooms s !! id)).

(** [collection.updateOne({_id: ...}, update)]: the update document is the
    function it applies to the matched room; nothing happens without a
    match. *)
Definition updateOne (id : string) (update : Room -> Room) : M unit :=
  fun s => (with_rooms (alter update id) s, Next tt).

Definition deleteOne (id : string) : M unit :=
  fun s => (with_rooms (delete id) s, Next tt).

(** [collection.insertOne(room)]; a taken [_id] is a duplicate-key error. *)
Definition insertOne (id : string) (r : Room) : M unit :=
  fun s =>
  match rooms s !! id with
  | Some _ => (s, Throw)
  | None => (with_rooms (insert id r) s, Next tt)
  end.

(** A string that names one field when it is spliced into a dotted update
    path: not empty, no dot, no NUL, and not an operator (leading dollar). *)
Definition plain (name : string) : bool :=
  match name with
  | EmptyString => false
  | String c _ =>
      negb (Ascii.eqb c "$") && negb (includes name ".")
      && negb (includes name (String (ascii_of_nat 0) EmptyString))
  end.

(** Where a handler splices [name] into the path of an update.  The source
    has no test at this place: with a name that is not a single field the
    database writes below another field, creates one, or refuses the update,
    and the handler goes on.  The embedding does not follow such a write:
    the request ends as [OutsideModel]. *)
Definition segment (name : string) : M unit :=
  if plain name then mret tt else finish OutsideModel.

(** [roomAuditLog(room_id, user_id, event)] *)
Definition roomAuditLog (e : env) (room_id user_id : string) (event : AuditEvent)
  : M unit :=
  fun s =>
  if audit_up e then
    ({| rooms := rooms s;
        room_audit := room_audit s ++
          [ {| Store.room_id := room_id; Store.user_id := user_id;
               event_time := now e; event_data := event |} ];
        bucket := bucket s; images := images s; outbox := outbox s |},
     Next tt)
  else (s, Throw).

Definition post (n : notice) : M unit :=
  fun s =>
  ({| rooms := rooms s; room_audit := room_audit s; bucket := bucket s;
      images := images s; outbox := outbox s ++ [n] |}, Next tt).

Definition upload (path : string) (data : buffer) : M unit :=
  fun s =>
  ({| rooms := rooms s; room_audit := room_audit s;
      bucket := <[path := data]> (bucket s);
      images := images s; outbox := outbox s |}, Next tt).

(** [file.download()]; a missing object is an error. *)
Definition fetch (path : string) : M buffer :=
  fun s =>
  match bucket s !! path with
  | Some data => (s, Next data)
  | None => (s, Throw)
  end.

Definition code_message (code message : string) : jsval :=
  JObj [("code", JStr code); ("message", JStr message)].

Definition event (t : AuditEventType) (previous new : option audit_value)
  (note : option jsval) : AuditEvent :=
  {| type := t; previous_value := previous; new_value := new; note := note |}.

(** *** Update documents, as functions on the stored room *)

Definition set_subrooms (f : gmap string Subroom -> gmap string Subroom)
  (r : Room) : Room :=
  {| name := name r; description := description r; creator_id := creator_id r;
     tags := tags r; created_at := created_at r; visits := visits r;
     subrooms := f (subrooms r); homeSubroomId := homeSubroomId r;
     rolePermissions := rolePermissions r;
     userPermissions := userPermissions r;
     cover_image_id := cover_image_id r; contentFlags := contentFlags r;
     reports := reports r |}.

Definition set_homeSubroomId (h : string) (r : Room) : Room :=
  {| name := name r; description := description r; creator_id := creator_id r;
     tags := tags r; created_at := created_at r; visits := visits r;
     subrooms := subrooms r; homeSubroomId := h;
     rolePermissions := rolePermissions r;
     userPermissions := userPermissions r;
     cover_image_id := cover_image_id r; contentFlags := contentFlags r;
     reports := reports r |}.

Definition set_rolePermissions
  (f : gmap string (gmap string bool) -> gmap string (gmap string bool))
  (r : Room) : Room :=
  {| name := name r; description := description r; creator_id := creator_id r;
     tags := tags r; created_at := created_at r; visits := visits r;
     subrooms := subrooms r; homeSubroomId := homeSubroomId r;
     rolePermissions := f (rolePermissions r);
     userPermissions := userPermissions r;
     cover_image_id := cover_image_id r; contentFlags := contentFlags r;
     reports := reports r |}.

Definition set_userPermissions
  (f : gmap string string -> gmap string string) (r : Room) : Room :=
  {| name := name r; description := description r; creator_id := creator_id r;
     tags := tags r; created_at := created_at r; visits := visits r;
     subrooms := subrooms r; homeSubroomId := homeSubroomId r;
     rolePermissions := rolePermissions r;
     userPermissions := f (userPermissions r);
     cover_image_id := cover_image_id r; contentFlags := contentFlags r;
     reports := reports r |}.

Definition set_description (d : string) (r : Room) : Room :=
  {| name := name r; description := d; creator_id := creator_id r;
     tags := tags r; created_at := created_at r; visits := visits r;
     subrooms := subrooms r; homeSubroomId := homeSubroomId r;
     rolePermissions := rolePermissions r;
     userPermissions := userPermissions r;
     cover_image_id := cover_image_id r; contentFlags := contentFlags r;
     reports := reports r |}.

Definition set_tags (t : list string) (r : Room) : Room :=
  {| name := name r; description := description r; creator_id := creator_id r;
     tags := t; created_at := created_at r; visits := visits r;
     subrooms := subrooms r; homeSubroomId := homeSubroomId r;
     rolePermissions := rolePermissions r;
     userPermissions := userPermissions r;
     cover_image_id := cover_image_id r; contentFlags := contentFlags r;
     reports := reports r |}.

Definition set_contentFlags (f : list (string * string)) (r : Room) : Room :=
  {| name := name r; description := description r; creator_id := creator_id r;
     tags := tags r; created_at := created_at r; visits := visits r;
     subrooms := subrooms r; homeSubroomId := homeSubroomId r;
     rolePermissions := rolePermissions r;
     userPermissions := userPermissions r;
     cover_image_id := cover_image_id r; contentFlags := f;
     reports := reports r |}.

Definition set_cover_image_id (c : string) (r : Room) : Room :=
  {| name := name r; description := description r; creator_id := creator_id r;
     tags := tags r; created_at := created_at r; visits := visits r;
     subrooms := subrooms r; homeSubroomId := homeSubroomId r;
     rolePermissions := rolePermissions r;
     userPermissions := userPermissions r;
     cover_image_id := c; contentFlags := contentFlags r;
     reports := reports r |}.

Definition push_report (p : Report) (r : Room) : Room :=
  {| name := name r; description := description r; creator_id := creator_id r;
     tags := tags r; created_at := created_at r; visits := visits r;
     subrooms := subrooms r; homeSubroomId := homeSubroomId r;
     rolePermissions := rolePermissions r;
     userPermissions := userPermissions r;
     cover_image_id := cover_image_id r; contentFlags := contentFlags r;
     reports := reports r ++ [p] |}.

(** [{$push: {"subrooms.<sub>.versions": v}}] *)
Definition push_version (v : Version) (sr : Subroom) : Subroom :=
  {| publicVersionId := publicVersionId sr; maxPlayers := maxPlayers sr;
     versions := versions sr ++ [v] |}.

(** [{$set: {"subrooms.<sub>.versions.<n>.associated_file": true}}] *)
Definition mark_associated (v : Version) : Version :=
  {| baseSceneIndex := baseSceneIndex v; spawn := spawn v;
     shortHandCommitMessage := shortHandCommitMessage v;
     longHandCommitMessage := longHandCommitMessage v;
     author := author v; collaborators := collaborators v;
     associated_file := true |}.

Definition associate_at (n : nat) (sr : Subroom) : Subroom :=
  {| publicVersionId := publicVersionId sr; maxPlayers := maxPlayers sr;
     versions := alter mark_associated n (versions sr) |}.

(** [{$set: {"subrooms.<sub>.publicVersionId": v}}] *)
Definition set_publicVersionId (v : jsval) (sr : Subroom) : Subroom :=
  {| publicVersionId := v; maxPlayers := maxPlayers sr;
     versions := versions sr |}.

(** [{$set: {"subrooms.<sub>.maxPlayers": n}}] *)
Definition set_maxPlayers (n : Z) (sr : Subroom) : Subroom :=
  {| publicVersionId := publicVersionId sr; maxPlayers := n;
     versions := versions sr |}.

(** *** The two permission middlewares *)

(** What a middleware leaves on [req] for the handler. *)
Record access : Type := {
  room : Room;
  userRoomRole : gmap string string;
  userRoomPermissions : option (found (gmap string bool)) }.

(** [Object.keys(userPermissions).includes(id) ? userPermissions[id]
     : "everyone"] *)
Definition role_of (r : Room) (u : string) : string :=
  match userPermissions r !! u with
  | Some role => role
  | None => "everyone"
  end.

(** Truthiness of [permissions[key]] for a role's permission object.  An
    inherited role object (a function of [Object.prototype]) carries none of
    the permission names. *)
Definition flag (permissions : found (gmap string bool)) (key : string) : bool :=
  match permissions with
  | Own p =>
      match p !! key with
      | Some b => b
      | None => inherited key
      end
  | Inherited => false
  end.

Definition not_found_unspecified : jsval :=
  code_message "room_not_found" "You did not specify a room.".

(** [canViewRoom] *)
Definition canViewRoom (u : user) (id : string) : M access :=
  r ← findOne id;
  match r with
  | None => respond 404 not_found_unspecified
  | Some room =>
      let role := role_of room (uid u) in
      permissions ← attempt (js_lookup (rolePermissions room) role);
      let canView := flag permissions "viewAndJoin" || developer u in
      if negb canView then respond 404 not_found_unspecified
      else mret {| room := room; userRoomRole := userPermissions room;
                   userRoomPermissions := Some permissions |}
  end.

(** [requiresRoomPermission(permission)]; the route parameter [id] is
    always a string, so the first test of the source never fires. *)
Definition requiresRoomPermission (permission : string) (u : user)
  (id : string) : M access :=
  r ← findOne id;
  match r with
  | None => respond 404 (code_message "room_not_found" "Room not found.")
  | Some room =>
      let role := role_of room (uid u) in
      let found_role := js_lookup (rolePermissions room) role in
      let pass := mret {| room := room; userRoomRole := userPermissions room;
                          userRoomPermissions := found_role |} in
      if developer u then pass
      else
        permissions ← attempt found_role;
        if negb (flag permissions permission) && negb (String.eqb role "owner")
        then respond 404 (code_message "room_not_found" "Access denied.")
        else pass
  end.

(** [req.userRoomRole != "owner"]: the middlewares store the whole
    [userPermissions] dictionary under that name, and an object compared with
    a string is first turned into the string [[object Object]]. *)
Definition object_differs_from (o : gmap string string) (s : string) : bool :=
  negb (String.eqb "[object Object]" s).

(** *** Reading a room *)

Definition json_number (z : Z) : jsval := JNum (inject_Z z).

(** The projection [GET /room/:room_id/info] answers with. *)
Definition room_visible (id : string) (r : option Room) : jsval :=
  match r with
  | None => JNull
  | Some r =>
      JObj [ ("_id", JStr id); ("name", JStr (name r));
             ("description", JStr (description r));
             ("creator_id", JStr (creator_id r));
             ("tags", JArr (JStr <$> tags r));
             ("created_at", json_number (created_at r));
             ("visits", json_number (visits r));
             ("homeSubroomId", JStr (homeSubroomId r));
             ("cover_image_id", JStr (cover_image_id r));
             ("contentFlags",
               JObj ((fun kv => (kv.1, JStr kv.2)) <$> contentFlags r)) ]
  end.

(** [res.sendStatus(500)] *)
Definition status_500 : reply := Reply 500 (JStr "Internal Server Error").

Definition message_only (message : string) : jsval :=
  JObj [("message", JStr message)].

(** [GET /room/:room_id/info], behind [authenticateToken_optional]. *)
Definition room_info (u : option user) (room_id : string)
  : store -> store * reply :=
  try_catch status_500 (
    r ← findOne room_id;
    match r with
    | None => respond 404 (message_only "room_not_found")
    | Some room =>
        match u with
        | Some usr =>
            let role := role_of room (uid usr) in
            permissions ← attempt (js_lookup (rolePermissions room) role);
            when (negb (flag permissions "viewAndJoin")
                  && negb (String.eqb (uid usr) (creator_id room)))
              (respond 403 (message_only "invalid_permissions"))
        | None =>
            permissions ← attempt (js_lookup (rolePermissions room) "everyone");
            when (negb (flag permissions "viewAndJoin"))
              (respond 403 (message_only "invalid_permissions"))
        end ;;
        visible ← findOne room_id;
        respond 200 (room_visible room_id visible)
    end).

Definition version_path (room_id subroom_id : string) (n : nat) : string :=
  "rooms/" +:+ room_id +:+ "/subrooms/" +:+ subroom_id +:+ "/versions/"
  +:+ toString n +:+ ".bin".

(** [GET /room/:room_id/subrooms/:subroom_id/versions/:version_id/download] *)
Definition download (u : user) (room_id subroom_id version_id : string)
  : store -> store * reply :=
  try_catch status_500 (
    r ← findOne room_id;
    match r with
    | None => respond 404 (message_only "room_not_found")
    | Some room =>
        match subrooms room !! subroom_id with
        | None => respond 404 (message_only "subroom_not_found")
        | Some subroom =>
            let selector :=
              if String.eqb version_id "latest" then publicVersionId subroom
              else JStr version_id in
            let nothing : M unit :=
              respond 204 (code_message "no_file_associated_with_version"
                "There is no file associated with this version, so loading the room objects is unnecessary.") in
            match array_index (length (versions subroom)) selector with
            | None => nothing
            | Some n =>
                match versions subroom !! n with
                | Some v =>
                    if associated_file v then
                      data ← fetch (version_path room_id subroom_id n);
                      finish (ReplyBuffer 200 data)
                    else nothing
                | None => nothing
                end
            end
        end
    end).

(** *** The version ledger *)

Definition is_number (v : jsval) : bool := jstype_eqb (typeof v) TNumber.
Definition is_object (v : jsval) : bool := jstype_eqb (typeof v) TObject.
Definition is_string (v : jsval) : bool := jstype_eqb (typeof v) TString.

(** The condition on [input_metadata.spawn] of [versions/new]. *)
Definition valid_spawn (input_metadata : jsval) : bool :=
  let spawn := get_opt input_metadata "spawn" in
  let position := get_opt spawn "position" in
  let rotation := get_opt spawn "rotation" in
  is_object spawn && is_object position && is_object rotation
  && is_number (get_opt position "x") && is_number (get_opt position "y")
  && is_number (get_opt position "z")
  && is_number (get_opt rotation "x") && is_number (get_opt rotation "y")
  && is_number (get_opt rotation "z") && is_number (get_opt rotation "w").

(** [decoupled_metadata] as it stands when it is pushed: only the scene
    index and the two messages are taken from the request. *)
Definition decoupled_metadata (u : user) (input_metadata : jsval) : Version :=
  {| baseSceneIndex :=
       match get_opt input_metadata "baseSceneIndex" with
       | JNum q => q
       | _ => inject_Z 9
       end;
     spawn := {| position := (inject_Z 0, inject_Z 0, inject_Z 0);
                 rotation := (inject_Z 0, inject_Z 0, inject_Z 0, inject_Z 1) |};
     shortHandCommitMessage :=
       match get_opt input_metadata "shortHandCommitMessage" with
       | JStr m => m
       | _ => "No Message"
       end;
     longHandCommitMessage :=
       match get_opt input_metadata "longHandCommitMessage" with
       | JStr m => m
       | _ => "No Description"
       end;
     author := uid u;
     collaborators := [];
     associated_file := false |}.

Definition invalid_spawn : jsval :=
  code_message "invalid_metadata"
    "The `spawn` parameter of your version metadata is not specified or is invalid.".

Definition invalid_collaborators : jsval :=
  code_message "invalid_metadata"
    "The `collaborators` parameter of your version metadata is not specified or is invalid.".

(** [PUT /room/:id/subrooms/:subroom_id/versions/new] *)
Definition version_new (e : env) (u : user) (id subroom_id : string)
  (body : jsval) : store -> store * reply :=
  guarded (requiresRoomPermission "createVersions" u id)
    (Reply 500 (code_message "internal_error"
       "An internal server error occured, and the operation failed. Please contact Support if the issue persists."))
    (fun _ =>
      _ ← attempt (get body "baseSceneIndex");
      when (negb (valid_spawn body)) (respond 400 invalid_spawn) ;;
      when (negb (isArray (get_opt body "collaborators")))
        (respond 400 invalid_collaborators) ;;
      r ← findOne id;
      room ← attempt r;
      when (negb (has_key (subrooms room) subroom_id))
        (respond 404 (code_message "nonexistent_subroom"
           "No subroom found with specified ID.")) ;;
      segment subroom_id ;;
      updateOne id
        (set_subrooms (alter (push_version (decoupled_metadata u body))
           subroom_id)) ;;
      roomAuditLog e id (uid u) (event ChangesetCreation None None None) ;;
      subroom ← attempt (subrooms room !! subroom_id);
      respond 200
        (JObj [ ("code", JStr "success");
                ("message", JStr "Operation succeeded.");
                ("id", JStr (toString (length (versions subroom)))) ])).

(** [POST /room/:id/subrooms/:subroom_id/versions/:version_id/associate-data] *)
Definition associate_data (e : env) (u : user) (id subroom_id version_id : string)
  (body : jsval) : store -> store * reply :=
  guarded (requiresRoomPermission "createVersions" u id)
    (Reply 500 (code_message "internal_error"
       "An internal server error occured and the operation failed. If the issue persists, contact Support."))
    (fun _ =>
      match parseInt version_id with
      | None =>
          respond 400 (code_message "invalid_parameter"
            "Parameter `version` is invalid, must be parsable as Integer.")
      | Some version =>
          r ← findOne id;
          room ← attempt r;
          match subrooms room !! subroom_id with
          | None =>
              respond 403 (code_message "nonexistent_subroom"
                "That subroom does not exist.")
          | Some subroom =>
              when (Z.of_nat (length (versions subroom)) - 1 <? version)%Z
                (respond 404 (code_message "version_not_found"
                   "No version of this room exists with that ID.")) ;;
              (* [subroom.versions[version_id].associated_file]: a negative
                 index reads [undefined] *)
              v ← attempt (if (version <? 0)%Z then None
                           else versions subroom !! Z.to_nat version);
              when (associated_file v)
                (respond 400 (code_message "file_already_associated"
                   "There is already a file associated with this version. Try making a new one.")) ;;
              match Buffer_from e body with
              | None =>
                  respond 400 (code_message "binary_data_invalid"
                    "Your byte array could not be parsed into a valid ArrayBuffer.")
              | Some data =>
                  upload (version_path id subroom_id (Z.to_nat version)) data ;;
                  segment subroom_id ;;
                  updateOne id
                    (set_subrooms
                       (alter (associate_at (Z.to_nat version)) subroom_id)) ;;
                  respond 200 (code_message "success" "Operation successful.")
              end
          end
      end).

(** [POST /room/:id/subrooms/:subroom_id/versions/public] *)
Definition set_public_version (e : env) (u : user) (id subroom_id : string)
  (body : jsval) : store -> store * reply :=
  guarded (requiresRoomPermission "setPublicVersion" u id)
    (Reply 500 (code_message "internal_error"
       "An internal error occured while processing your request. If the issue persists, please contact the server admin."))
    (fun _ =>
      version_id ← attempt (get body "id");
      match version_id with
      | JStr raw =>
          r ← findOne id;
          match r with
          | None =>
              respond 404 (code_message "room_not_found"
                "That room does not exist.")
          | Some room =>
              match subrooms room !! subroom_id with
              | None =>
                  respond 404 (code_message "nonexistent_subroom"
                    "That subroom does not exist.")
              | Some subroom =>
                  when (le_num (Z.of_nat (length (versions subroom)))
                          (parseInt raw))
                    (respond 400 (code_message "nonexistent_version"
                       "There is no version of this room associated with that ID.")) ;;
                  segment subroom_id ;;
                  updateOne id
                    (set_subrooms
                       (alter (set_publicVersionId (JStr raw)) subroom_id)) ;;
                  roomAuditLog e id (uid u)
                    (event PublicVersionUpdate
                       (Some (AVJs (publicVersionId subroom)))
                       (Some (AVJs (JStr raw))) None) ;;
                  respond 200 (code_message "success" "Operation successful")
              end
          end
      | _ =>
          respond 400 (code_message "invalid_input"
            "Parameter `new_id` is unset. Please specify a new publicVersionId.")
      end).

(** *** Descriptive metadata *)

Fixpoint all_strings (l : list jsval) : option (list string) :=
  match l with
  | [] => Some []
  | JStr s :: rest => cons s <$> all_strings rest
  | _ :: _ => None
  end.

Fixpoint all_string_values (l : list (string * jsval))
  : option (list (string * string)) :=
  match l with
  | [] => Some []
  | (k, JStr s) :: rest => cons (k, s) <$> all_string_values rest
  | _ :: _ => None
  end.

Definition request_failed : reply :=
  Reply 500 (code_message "internal_error"
    "An internal error occurred and we could not process your request.").

Definition operation_successful : jsval :=
  code_message "success" "The operation was successful.".

(** [POST /room/:id/tags] *)
Definition set_room_tags (u : user) (id : string) (body : jsval)
  : store -> store * reply :=
  guarded (requiresRoomPermission "manageTags" u id) request_failed
    (fun _ =>
      tags ← attempt (get body "tags");
      let invalid : M unit :=
        respond 400 (code_message "invalid_input"
          "Cannot set tags of room to anything other than a string[].") in
      match tags with
      | JArr items =>
          match all_strings items with
          | Some strings =>
              updateOne id (set_tags strings) ;;
              respond 200 operation_successful
          | None => invalid
          end
      | _ => invalid
      end).

(** [POST /room/:id/content_flags]; the audit record is written first, and
    its previous value is read off a promise, hence [undefined]. *)
Definition set_content_flags (e : env) (u : user) (id : string) (body : jsval)
  : store -> store * reply :=
  guarded (requiresRoomPermission "manageContentFlags" u id) request_failed
    (fun _ =>
      flags ← attempt (get body "flags");
      let invalid : M unit :=
        respond 400 (code_message "invalid_input"
          "Cannot set flags of room to anything other than a Dictionary<string, string>.") in
      match flags with
      | JNull => throw
      | JObj props =>
          match all_string_values props with
          | Some dictionary =>
              roomAuditLog e id (uid u)
                (event ContentFlagsUpdate (Some (AVJs JUndefined))
                   (Some (AVJs flags)) None) ;;
              updateOne id (set_contentFlags dictionary) ;;
              respond 200 operation_successful
          | None => invalid
          end
      | _ => invalid
      end).

(** [POST /room/:id/description] *)
Definition set_room_description (e : env) (u : user) (id : string)
  (body : jsval) : store -> store * reply :=
  guarded (requiresRoomPermission "editDescription" u id) request_failed
    (fun _ =>
      description ← attempt (get body "description");
      match description with
      | JStr text =>
          updateOne id (set_description text) ;;
          roomAuditLog e id (uid u)
            (event DescriptionUpdate (Some (AVJs JUndefined))
               (Some (AVJs (JStr text))) None) ;;
          respond 200 operation_successful
      | _ =>
          respond 400 (code_message "invalid_input"
            "Cannot set description of room to anything other than a string.")
      end).

(** *** Moderation *)

Definition post_all (l : list notice) : M unit :=
  fun s =>
  ({| rooms := rooms s; room_audit := room_audit s; bucket := bucket s;
      images := images s; outbox := outbox s ++ l |}, Next tt).

(** [note && typeof note != 'string'] *)
Definition bad_note (note : jsval) : bool :=
  truthy note && negb (is_string note).

Definition note_rejected : jsval :=
  code_message "invalid_input" "Note must be either unspecified or a string.".

Definition room_not_located : jsval :=
  code_message "room_not_found"
    "Could not locate that room. Has another developer already terminated it?".

Definition moderation_failed : reply :=
  Reply 500 (code_message "internal_error"
    "An internal error occurred and we could not suspend that room.").

(** The [$set] of [moderation-suspend]. *)
Definition suspension (r : Room) : Room :=
  set_description
    "This room has been suspended by the Compensation server moderation team for possible violations of our community standards."
    (set_rolePermissions
       (fun rp =>
          <["everyone" :=
              <["managePermissions" := false]>
                (<["viewAndJoin" := false]> (default ∅ (rp !! "everyone")))]>
            rp)
       (set_userPermissions (fun _ => ∅) r)).

(** The [$set] of [moderation-terminate] when the room is kept. *)
Definition termination (r : Room) : Room :=
  set_description
    "This room has been terminated by the Compensation server moderation team for repeated violations of our community standards."
    (set_rolePermissions (fun _ => {["everyone" := ∅]})
       (set_userPermissions (fun _ => ∅) r)).

(** [POST /room/:id/moderation-suspend], behind
    [authenticateDeveloperToken]. *)
Definition moderation_suspend (e : env) (u : user) (room_id : string)
  (body : jsval) : store -> store * reply :=
  try_catch moderation_failed (
    note ← attempt (get body "note");
    when (bad_note note) (respond 400 note_rejected) ;;
    r ← findOne room_id;
    match r with
    | None => respond 404 room_not_located
    | Some room =>
        updateOne room_id suspension ;;
        unawaited (roomAuditLog e room_id (uid u)
          (event RoomSuspendedByDeveloper (Some (AVJs JNull))
             (Some (AVJs JNull)) (Some note))) ;;
        post_all [ AccountNotification (creator_id room) "room_suspension_notice";
                   SocketSend (creator_id room) "urgent_notification_recieved" ] ;;
        respond 200 operation_successful
    end).

(** [POST /room/:id/moderation-terminate?permanent=...], behind
    [authenticateDeveloperToken]; [permanent] is the query parameter when it
    is given as one string. *)
Definition moderation_terminate (e : env) (u : user) (room_id : string)
  (permanent : option string) (body : jsval) : store -> store * reply :=
  try_catch moderation_failed (
    note ← attempt (get body "note");
    when (bad_note note) (respond 400 note_rejected) ;;
    r ← findOne room_id;
    match r with
    | None => respond 404 room_not_located
    | Some room =>
        if bool_decide (permanent = Some "true") then
          deleteOne room_id ;;
          unawaited (roomAuditLog e room_id (uid u)
            (event RoomTerminatedByDeveloperForIllegalContent
               (Some (AVJs JNull)) (Some (AVJs JNull)) (Some note))) ;;
          respond 200 (code_message "success"
            "Room wiped entirely from database.")
        else
          updateOne room_id termination ;;
          unawaited (roomAuditLog e room_id (uid u)
            (event RoomTerminatedByDeveloper (Some (AVJs JNull))
               (Some (AVJs JNull)) (Some note))) ;;
          post_all [ AccountNotification (creator_id room) "room_termination_notice";
                     SocketSend (creator_id room) "urgent_notification_recieved" ] ;;
          respond 200 operation_successful
    end).

(** [POST /room/:id/report] *)
Definition report_room (e : env) (u : user) (id : string) (body : jsval)
  : store -> store * reply :=
  try_catch
    (Reply 500 (code_message "internal_error"
       "An internal error occurred and we could not perform that operation."))
    (reason ← attempt (get body "reason");
     match reason, get_opt body "illegal_content", get_opt body "danger_of_harm"
     with
     | JStr reason, JBool illegal_content, JBool danger_of_harm =>
         updateOne id
           (push_report {| Store.reason := reason;
                           alleges_illegal_content := illegal_content;
                           alleges_danger_of_harm := danger_of_harm;
                           reporting_user_id := uid u;
                           time := now e |}) ;;
         data ← findOne id;
         _ ← attempt data;
         respond 200 (code_message "success" "Successfully reported room.")
     | _, _, _ =>
         respond 400 (code_message "invalid_input"
           "One or more parameters of your request are invalid.")
     end).

(** *** Creating a room *)

Definition initial_version (author : string) : Version :=
  {| baseSceneIndex := inject_Z 15;
     spawn := {| position := (inject_Z 0, inject_Z 0, inject_Z 0);
                 rotation := (inject_Z 0, inject_Z 0, inject_Z 0, inject_Z 0) |};
     shortHandCommitMessage := "Initial Commit";
     longHandCommitMessage :=
       "Initial Commit - Auto-Generated for your convenience.";
     author := author;
     collaborators := [];
     associated_file := false |}.

Definition initial_subroom (author : string) : Subroom :=
  {| publicVersionId := json_number 0; maxPlayers := 20;
     versions := [initial_version author] |}.

Definition basic_permissions (granted : bool) : gmap string bool :=
  list_to_map
    [ ("viewAndJoin", granted); ("createVersions", granted);
      ("setPublicVersion", granted); ("viewSettings", granted);
      ("viewPermissions", granted); ("managePermissions", granted);
      ("useCreationTool", granted) ].

Definition new_room (e : env) (u : user) (name : string) : Room :=
  {| Store.name := name;
     description := "An empty room.";
     creator_id := uid u;
     tags := ["community"; "custom room"];
     created_at := now e;
     visits := 0;
     subrooms := {["home" := initial_subroom (uid u)]};
     homeSubroomId := "home";
     rolePermissions :=
       <["owner" := basic_permissions true]>
         {["everyone" := basic_permissions false]};
     userPermissions := {[uid u := "owner"]};
     cover_image_id := "2";
     contentFlags := [];
     reports := [] |}.

(** [findOne({creator_id: user, name: name})] is not null. *)
Definition has_predecessor (creator name : string) (rs : gmap string Room)
  : bool :=
  existsb
    (fun kv => String.eqb (creator_id kv.2) creator
               && String.eqb (Store.name kv.2) name)
    (map_to_list rs).

(** [POST /new]; [uuid e] is what [v1()] returns. *)
Definition create_room (e : env) (u : user) (body : jsval)
  : store -> store * reply :=
  try_catch
    (Reply 500 (code_message "internal_server_error"
       "An internal server error occurred and we were unable to process your request."))
    (name ← attempt (get body "name");
     match name with
     | JStr name =>
         taken ← (fun s => (s, Next (has_predecessor (uid u) name (rooms s))));
         when taken
           (respond 400 (code_message "room_already_exists"
              "You have already created a room with that name.")) ;;
         insertOne (uuid e) (new_room e u name) ;;
         roomAuditLog e (uuid e) (uid u)
           (event RoomCreate None (Some (AVJs (JStr name))) None) ;;
         respond 200 operation_successful
     | _ =>
         respond 400 (code_message "unspecified_parameter"
           "You did not specify the parameter 'name' in your request body.")
     end).

(** *** Roles *)

Definition reserved (role_name : string) : bool :=
  String.eqb role_name "owner" || String.eqb role_name "everyone".

Definition not_served : reply :=
  Reply 500 (code_message "internal_error"
    "An internal error occurred and we could not serve your request.").

Definition could_not_serve : reply :=
  Reply 500 (code_message "internal_error"
    "An internal error occurred and we couldn't serve your request.").

(** [PUT /room/:id/roles/new] *)
Definition role_new (e : env) (u : user) (id : string) (body : jsval)
  : store -> store * reply :=
  guarded (requiresRoomPermission "managePermissions" u id) not_served
    (fun _ =>
      name ← attempt (get body "name");
      match name with
      | JStr name =>
          when (reserved name)
            (respond 400 (code_message "invalid_input"
               "Cannot create a role with a reserved name like 'owner' or 'everyone'.")) ;;
          r ← findOne id;
          room ← attempt r;
          when (has_key (rolePermissions room) name)
            (respond 400 (code_message "invalid_input"
               "Cannot create a role with the same name as one that already exists.")) ;;
          segment name ;;
          updateOne id (set_rolePermissions (insert name ∅)) ;;
          roomAuditLog e id (uid u)
            (event RoleCreated (Some (AVJs JNull)) (Some (AVJs (JStr name)))
               (Some JNull)) ;;
          respond 200 (code_message "success" "Successfully created role.")
      | _ =>
          respond 400 (code_message "invalid_input"
            "Body field 'name' must be a string.")
      end).

Definition pollution_detected : jsval :=
  code_message "invalid_input" "Possible prototype pollution attack detected.".

(** [target[key] = element] on the role object being edited; writing to an
    inherited member leaves the room's dictionary as it is. *)
Definition assign (target : found (gmap string bool)) (key : string)
  (element : bool) : found (gmap string bool) :=
  match target with
  | Own p => Own (<[key := element]> p)
  | Inherited => Inherited
  end.

(** The loop over the keys of [permissions] in [roles/:role_name/update]. *)
Fixpoint update_loop (a : access) (u : user)
  (entries : list (string * jsval)) (target : found (gmap string bool))
  : M (found (gmap string bool)) :=
  match entries with
  | [] => mret target
  | (key, element) :: rest =>
      mine ← attempt (userRoomPermissions a);
      when (negb (flag mine key)
            && object_differs_from (userRoomRole a) "owner"
            && negb (developer u))
        (respond 400 (code_message "access_denied"
           "You cannot manage permissions you don't have.")) ;;
      when (includes key "__proto__") (respond 400 pollution_detected) ;;
      match element with
      | JBool b => update_loop a u rest (assign target key b)
      | _ =>
          respond 400 (code_message "invalid_input"
            ("All values must be booleans. (permission `" +:+ key +:+ "`)"))
      end
  end.

(** The users a permission change of [role_name] is announced to. *)
Definition holders (role_name : string) (up : gmap string string)
  : list string :=
  (filter (fun kv => kv.2 = role_name) (map_to_list up)).*1.

(** [POST /room/:id/roles/:role_name/update] *)
Definition role_update (e : env) (u : user) (id role_name : string)
  (body : jsval) : store -> store * reply :=
  guarded (requiresRoomPermission "managePermissions" u id) not_served
    (fun a =>
      when (includes role_name "__proto__") (respond 400 pollution_detected) ;;
      permissions ← attempt (get body "permissions");
      when (String.eqb role_name "owner")
        (respond 400 (code_message "access_denied"
           "You cannot edit the permissions of the 'owner' role.")) ;;
      r ← findOne id;
      room ← attempt r;
      match js_lookup (rolePermissions room) role_name with
      | None =>
          respond 404 (code_message "not_found" "No role with that name exists.")
      | Some target =>
          edited ← update_loop a u (own_entries permissions) target;
          let role_permissions :=
            match edited with
            | Own p => <[role_name := p]> (rolePermissions room)
            | Inherited => rolePermissions room
            end in
          updateOne id (set_rolePermissions (fun _ => role_permissions)) ;;
          roomAuditLog e id (uid u)
            (event RolePermissionsUpdate
               (Some (AVRole (js_lookup (rolePermissions (Rooms.room a)) role_name)))
               (Some (AVRole (Some edited))) (Some JNull)) ;;
          post_all ((fun k => SocketEmit k "permission-update")
                      <$> holders role_name (userPermissions room)) ;;
          respond 200 operation_successful
      end).

(** The loop of [roles/:role_name/delete] that collects who is to be moved
    to [everyone]: it walks [Object.keys(room.userPermissions)] and keeps
    the entries for which [keys[i]], the account id, equals the role name. *)
Definition users_to_reset (role_name : string) (up : gmap string string)
  : list string :=
  filter (fun role => role = role_name) (map_to_list up).*1.

(** [{$set: {"userPermissions.<uid>": "everyone", ...}}] *)
Definition reset_users (users : list string) (up : gmap string string)
  : gmap string string :=
  foldr (fun k acc => <[k := "everyone"]> acc) up users.

(** [POST /room/:id/roles/:role_name/delete].  An update whose [$set] is
    empty is taken to be accepted (as the store does since version 5). *)
Definition role_delete (e : env) (u : user) (id role_name : string)
  : store -> store * reply :=
  guarded (requiresRoomPermission "managePermissions" u id)
    (Reply 500 (code_message "internal_error"
       "An internal server error occurred and we couldn't serve your request."))
    (fun _ =>
      when (reserved role_name)
        (respond 400 (code_message "invalid_input"
           "You cannot delete a reserved role. (i.e 'owner' or 'everyone')")) ;;
      r ← findOne id;
      room ← attempt r;
      let users := users_to_reset role_name (userPermissions room) in
      segment role_name ;;
      updateOne id
        (fun r => set_userPermissions (reset_users users)
                    (set_rolePermissions (delete role_name) r)) ;;
      roomAuditLog e id (uid u)
        (event RoleDeleted
           (Some (AVRole (js_lookup (rolePermissions room) role_name)))
           (Some (AVJs JNull)) (Some JNull)) ;;
      post_all ((fun k => SocketEmit k "permission-update") <$> users) ;;
      respond 200 operation_successful).

(** [POST /room/:id/user/:user_id/set-role/:role_name] *)
Definition set_user_role (e : env) (u : user) (id user_id role_name : string)
  : store -> store * reply :=
  guarded (requiresRoomPermission "managePermissions" u id) could_not_serve
    (fun _ =>
      when (String.eqb role_name "owner")
        (respond 403 (code_message "access_denied"
           "The 'owner' role cannot be manually assigned. Contact support if you're trying to transfer a room.")) ;;
      when (String.eqb user_id (uid u))
        (respond 403 (code_message "access_denied"
           "You cannot set your own role.")) ;;
      r ← findOne id;
      room ← attempt r;
      when (String.eqb user_id (creator_id room))
        (respond 403 (code_message "access_denied"
           "You cannot set the role of the Room Creator.")) ;;
      let current_role :=
        default (Own "everyone") (js_lookup (userPermissions room) user_id) in
      when (match current_role with
            | Own role => String.eqb role "owner"
            | Inherited => false
            end)
        (respond 403 (code_message "access_denied"
           "You cannot set the role of the Room Owner.")) ;;
      segment user_id ;;
      updateOne id
        (set_userPermissions
           (if String.eqb role_name "everyone" then delete user_id
            else insert user_id role_name)) ;;
      post (SocketEmit user_id "permission-update") ;;
      roomAuditLog e id (uid u)
        (event UserRoleUpdate (Some (AVRoleName current_role))
           (Some (AVJs (JStr role_name))) (Some JNull)) ;;
      respond 200 operation_successful).

(** [POST /room/:id/cover-image/set/:image_id] *)
Definition set_cover_image (u : user) (id image_id : string)
  : store -> store * reply :=
  guarded (requiresRoomPermission "setRoomPhoto" u id)
    (Reply 500 (code_message "internal_error"
       "An internal error occurred and we couldn't process your request."))
    (fun _ =>
      image ← (fun s => (s, Next (parseInt image_id ≫= fun n => images s !! n)));
      match image with
      | None => respond 404 (code_message "not_found" "No image exists with that ID!")
      | Some takenInRoomId =>
          when (negb (String.eqb takenInRoomId id))
            (respond 400 (code_message "invalid_input"
               "That image was not taken in this room!")) ;;
          updateOne id (set_cover_image_id image_id) ;;
          respond 200 (code_message "success" "Successfully set room image!")
      end).

(** *** Routes behind [canViewRoom] *)

(** The [permissions] member of the reply of [my-permissions], with its
    keys in the order of the finite map.  An inherited function has no JSON
    form and is left out; the prototype itself is an empty object. *)
Definition permissions_json (role : string)
  (p : option (found (gmap string bool))) : list (string * jsval) :=
  match p with
  | Some (Own flags) =>
      [("permissions", JObj ((fun kv => (kv.1, JBool kv.2)) <$> map_to_list flags))]
  | Some Inherited =>
      if String.eqb role "__proto__" then [("permissions", JObj [])] else []
  | None => []
  end.

(** [GET /room/:id/my-permissions] *)
Definition my_permissions (u : user) (id : string) : store -> store * reply :=
  guarded (canViewRoom u id)
    (Reply 500 (code_message "internal_error"
       "An internal server error occurred, preventing the operation from succeeding."))
    (fun a =>
      respond 200
        (JObj ([ ("code", JStr "success");
                 ("message", JStr "The operation succeeded.") ]
               ++ permissions_json (role_of (room a) (uid u))
                    (userRoomPermissions a)))).

(** [GET /room/:id/verify-subroom-link/:to] *)
Definition verify_subroom_link (u : user) (id to : string)
  : store -> store * reply :=
  guarded (canViewRoom u id)
    (Reply 500
       (JObj [ ("code", JStr "internal_error");
               ("message", JStr "An internal server error occurred while processing your request.");
               ("valid", JBool false) ]))
    (fun _ =>
      r ← findOne id;
      room ← attempt r;
      match js_lookup (subrooms room) to with
      | None =>
          respond 404
            (JObj [ ("code", JStr "not_found");
                    ("message", JStr "No subroom with that ID exists!");
                    ("valid", JBool false) ])
      | Some _ =>
          respond 200
            (JObj [ ("code", JStr "success");
                    ("message", JStr "This subroom link is valid.");
                    ("valid", JBool true) ])
      end).

(** *** Subrooms *)

(** [POST /room/:id/subrooms/:name/create] *)
Definition subroom_create (e : env) (u : user) (id name : string) (body : jsval)
  : store -> store * reply :=
  guarded (requiresRoomPermission "manageSubrooms" u id) could_not_serve
    (fun a =>
      note ← attempt (get body "note");
      when (negb (jstype_eqb (typeof note) TUndefined) && negb (is_string note))
        (respond 400 (code_message "invalid_input"
           "Invalid note. Note must be either a String or undefined.")) ;;
      when (has_key (subrooms (room a)) name)
        (respond 400 (code_message "invalid_input"
           "A subroom with that name already exists.")) ;;
      segment name ;;
      updateOne id (set_subrooms (insert name (initial_subroom (uid u)))) ;;
      roomAuditLog e id (uid u)
        (event SubroomCreate (Some (AVJs JNull)) (Some (AVJs JNull))
           (Some (if truthy note then note else JNull))) ;;
      respond 200 operation_successful).

(** [POST /room/:id/subrooms/:name/delete] *)
Definition subroom_delete (e : env) (u : user) (id name : string)
  : store -> store * reply :=
  guarded (requiresRoomPermission "deleteSubrooms" u id) could_not_serve
    (fun a =>
      when (negb (has_key (subrooms (room a)) name))
        (respond 404 (code_message "not_found"
           "No role with that name exists on this room.")) ;;
      when (String.eqb name (homeSubroomId (room a)))
        (respond 400 (code_message "invalid_input"
           "You cannot delete the home subroom of a room.")) ;;
      segment name ;;
      updateOne id (set_subrooms (delete name)) ;;
      roomAuditLog e id (uid u)
        (event SubroomDelete (Some (AVSubroom (subrooms (room a) !! name)))
           (Some (AVJs JNull)) (Some JNull)) ;;
      respond 200 operation_successful).

(** [POST /room/:id/subrooms/:name/set-max-players/:count] *)
Definition subroom_set_max_players (e : env) (u : user)
  (id name count : string) : store -> store * reply :=
  guarded (requiresRoomPermission "manageSubrooms" u id)
    (Reply 500 (code_message "internal_error"
       "An internal error occurred and we couldn't process your request."))
    (fun a =>
      match subrooms (room a) !! name with
      | None =>
          respond 404 (code_message "not_found"
            "No subroom with that name exists on this room.")
      | Some subroom =>
          match parseInt count with
          | None =>
              respond 400 (code_message "invalid_input"
                "Could not parse URL parameter `count` as integer.")
          | Some n =>
              segment name ;;
              updateOne id (set_subrooms (alter (set_maxPlayers n) name)) ;;
              roomAuditLog e id (uid u)
                (event SubroomMaxPlayerUpdate
                   (Some (AVJs (json_number (maxPlayers subroom))))
                   (Some (AVJs (json_number n))) (Some JNull)) ;;
              respond 200 operation_successful
          end
      end).

(** [POST /room/:id/set-home-subroom/:name] *)
Definition set_home_subroom (e : env) (u : user) (id name : string)
  : store -> store * reply :=
  guarded (requiresRoomPermission "setHomeSubroom" u id)
    (Reply 500 (code_message "internal_error"
       "An internal server error occurred and we couldn't serve your request."))
    (fun a =>
      when (negb (has_key (subrooms (room a)) name))
        (respond 404 (code_message "not_found"
           "No subroom with that name exists on this room.")) ;;
      updateOne id (set_homeSubroomId name) ;;
      roomAuditLog e id (uid u)
        (event HomeSubroomSet (Some (AVJs (JStr (homeSubroomId (room a)))))
           (Some (AVJs (JStr name))) (Some JNull)) ;;
      respond 200 operation_successful).

Definition not_implemented : jsval :=
  code_message "not_implemented" "This feature is not yet implemented.".

(** [PUT /room/:id/subroom/:name/upload-bundle] *)
Definition upload_bundle (u : user) (id : string) : store -> store * reply :=
  guarded (requiresRoomPermission "manageSubrooms" u id) Hung
    (fun _ => respond 501 not_implemented).

(** [GET /room/:id/subroom/:name/download-bundle] *)
Definition download_bundle (u : user) (id : string) : store -> store * reply :=
  guarded (requiresRoomPermission "viewAndJoin" u id) Hung
    (fun _ => respond 501 not_implemented).

(** *** The router *)

Inductive request : Type :=
| GetInfo (u : option user) (room_id : string)
| GetDownload (u : user) (room_id subroom_id version_id : string)
| PutVersion (u : user) (id subroom_id : string) (body : jsval)
| PostAssociateData (u : user) (id subroom_id version_id : string) (body : jsval)
| PostPublicVersion (u : user) (id subroom_id : string) (body : jsval)
| PostTags (u : user) (id : string) (body : jsval)
| PostContentFlags (u : user) (id : string) (body : jsval)
| PostSuspend (u : user) (id : string) (body : jsval)
| PostTerminate (u : user) (id : string) (permanent : option string) (body : jsval)
| PostDescription (u : user) (id : string) (body : jsval)
| GetMyPermissions (u : user) (id : string)
| PostReport (u : user) (id : string) (body : jsval)
| PostNew (u : user) (body : jsval)
| PutRole (u : user) (id : string) (body : jsval)
| PostRoleUpdate (u : user) (id role_name : string) (body : jsval)
| PostRoleDelete (u : user) (id role_name : string)
| PostSetRole (u : user) (id user_id role_name : string)
| PostCoverImage (u : user) (id image_id : string)
| GetVerifySubroomLink (u : user) (id to : string)
| PostSubroomCreate (u : user) (id name : string) (body : jsval)
| PostSubroomDelete (u : user) (id name : string)
| PostSetMaxPlayers (u : user) (id name count : string)
| PostSetHomeSubroom (u : user) (id name : string)
| PutUploadBundle (u : user) (id : string)
| GetDownloadBundle (u : user) (id : string).

(** Modelled from the spec: [authenticateDeveloperToken] (in the middleware
    module, which is not among the sources) lets a request through only when
    its token carries the developer authority; the moderation routes are
    developer-only. *)
Definition authenticateDeveloperToken (u : user)
  (h : store -> store * reply) : store -> store * reply :=
  if developer u then h else fun s => (s, Refused).

Definition serve (e : env) (q : request) : store -> store * reply :=
  match q with
  | GetInfo u room_id => room_info u room_id
  | GetDownload u room_id subroom_id version_id =>
      download u room_id subroom_id version_id
  | PutVersion u id subroom_id body => version_new e u id subroom_id body
  | PostAssociateData u id subroom_id version_id body =>
      associate_data e u id subroom_id version_id body
  | PostPublicVersion u id subroom_id body =>
      set_public_version e u id subroom_id body
  | PostTags u id body => set_room_tags u id body
  | PostContentFlags u id body => set_content_flags e u id body
  | PostSuspend u id body =>
      authenticateDeveloperToken u (moderation_suspend e u id body)
  | PostTerminate u id permanent body =>
      authenticateDeveloperToken u (moderation_terminate e u id permanent body)
  | PostDescription u id body => set_room_description e u id body
  | GetMyPermissions u id => my_permissions u id
  | PostReport u id body => report_room e u id body
  | PostNew u body => create_room e u body
  | PutRole u id body => role_new e u id body
  | PostRoleUpdate u id role_name body => role_update e u id role_name body
  | PostRoleDelete u id role_name => role_delete e u id role_name
  | PostSetRole u id user_id role_name =>
      set_user_role e u id user_id role_name
  | PostCoverImage u id image_id => set_cover_image u id image_id
  | GetVerifySubroomLink u id to => verify_subroom_link u id to
  | PostSubroomCreate u id name body => subroom_create e u id name body
  | PostSubroomDelete u id name => subroom_delete e u id name
  | PostSetMaxPlayers u id name count =>
      subroom_set_max_players e u id name count
  | PostSetHomeSubroom u id name => set_home_subroom e u id name
  | PutUploadBundle u id => upload_bundle u id
  | GetDownloadBundle u id => download_bundle u id
  end.

(** The store after a sequence of requests, served one after the other.  The
    run ends before the first request the embedding does not follow. *)
Fixpoint run (requests : list (env * request)) (s : store) : store :=
  match requests with
  | [] => s
  | (e, q) :: rest =>
      match serve e q s with
      | (_, OutsideModel) => s
      | (s', _) => run rest s'
      end
  end.

(** The replies of the same run. *)
Fixpoint replies (requests : list (env * request)) (s : store) : list reply :=
  match requests with
  | [] => []
  | (e, q) :: rest =>
      match serve e q s with
      | (_, OutsideModel) => [OutsideModel]
      | (s', r) => r :: replies rest s'
      end
  end.

(** *** Requests the handlers answer themselves *)

(** The strings a request splices into a dotted update path
    ([`subrooms.${name}`], [`rolePermissions.${role_name}`],
    [`userPermissions.${user_id}`]) when its handler comes to write. *)
Definition spliced (q : request) : list string :=
  match q with
  | PutVersion _ _ subroom_id _ | PostAssociateData _ _ subroom_id _ _
  | PostPublicVersion _ _ subroom_id _ => [subroom_id]
  | PutRole _ _ body =>
      match get_opt body "name" with JStr name => [name] | _ => [] end
  | PostRoleDelete _ _ role_name => [role_name]
  | PostSetRole _ _ user_id _ => [user_id]
  | PostSubroomCreate _ _ name _ | PostSubroomDelete _ _ name
  | PostSetMaxPlayers _ _ name _ => [name]
  | _ => []
  end.

(** Every such string names a single field. *)
Definition plainly (q : request) : bool := forallb plain (spliced q).

(** Every request of the sequence is served and answered: the run does not
    stop early. *)
Definition followed (requests : list (env * request)) (s : store) : Prop :=
  length (replies requests s) = length requests
  /\ Forall (fun r => r <> OutsideModel) (replies requests s).

(** A statement that never ends the handler as [OutsideModel]. *)
Definition inside {A : Type} (m : M A) : Prop :=
  forall s, (m s).2 <> Return OutsideModel.

(** *** Properties of a stored room the claims speak about *)


(** No account is mapped to a role that [rolePermissions] does not have. *)
Definition no_dangling_role (r : Room) : Prop :=
  forall account role,
    userPermissions r !! account = Some role ->
    is_Some (rolePermissions r !! role).

Definition success (r : reply) : bool :=
  match r with Reply 200 _ => true | _ => false end.

Definition reply_code (r : reply) : option string :=
  match r with
  | Reply _ body =>
      match get_opt body "code" with JStr c => Some c | _ => None end
  | _ => None
  end.

Definition reply_status (r : reply) : option nat :=
  match r with
  | Reply status _ | ReplyBuffer status _ => Some status
  | _ => None
  end.

Definition audit_types (s : store) : list AuditEventType :=
  (fun a => type (event_data a)) <$> room_audit s.

(** The test of [requiresRoomPermission] on a stored room: the developer
    override, the flag of the caller's role, or the role named [owner]. *)
Definition permitted (permission : string) (u : user) (r : Room) : bool :=
  developer u ||
  match js_lookup (rolePermissions r) (role_of r (uid u)) with
  | Some permissions =>
      flag permissions permission || String.eqb (role_of r (uid u)) "owner"
  | None => false
  end.

(** The test of [canViewRoom]. *)
Definition may_view (u : user) (r : Room) : bool :=
  match js_lookup (rolePermissions r) (role_of r (uid u)) with
  | Some permissions => flag permissions "viewAndJoin" || developer u
  | None => false
  end.

(** *** What one request can do to a stored room

    Every handler writes to the [rooms] collection at most once, after its
    checks.  [change r r'] lists the updates the handlers issue, with what
    the handler has checked on the room [r] it read. *)
Inductive change (r : Room) : Room -> Prop :=
| change_subroom (f : Subroom -> Subroom) (subroom_id : string) :
    change r (set_subrooms (alter f subroom_id) r)
| change_subroom_create (name : string) (sr : Subroom) :
    change r (set_subrooms (insert name sr) r)
| change_subroom_delete (name : string) :
    name <> homeSubroomId r ->
    change r (set_subrooms (delete name) r)
| change_home (name : string) :
    is_Some (subrooms r !! name) ->
    change r (set_homeSubroomId name r)
| change_tags (t : list string) : change r (set_tags t r)
| change_content_flags (f : list (string * string)) :
    change r (set_contentFlags f r)
| change_description (d : string) : change r (set_description d r)
| change_cover_image (c : string) : change r (set_cover_image_id c r)
| change_report (p : Report) : change r (push_report p r)
| change_suspension : change r (suspension r)
| change_termination : change r (termination r)
| change_role_new (name : string) :
    change r (set_rolePermissions (insert name ∅) r)
| change_role_update (role_name : string) (p : gmap string bool) :
    change r
      (set_rolePermissions (fun _ => <[role_name := p]> (rolePermissions r)) r)
| change_role_untouched :
    change r (set_rolePermissions (fun _ => rolePermissions r) r)
| change_role_delete (role_name : string) :
    reserved role_name = false ->
    change r
      (set_userPermissions
         (reset_users (users_to_reset role_name (userPermissions r)))
         (set_rolePermissions (delete role_name) r))
| change_user_role (user_id role_name : string) :
    change r
      (set_userPermissions
         (if String.eqb role_name "everyone" then delete user_id
          else insert user_id role_name) r).

(** The identifier a request gives to the room it creates. *)
Definition minted (e : env) (q : request) : option string :=
  match q with
  | PostNew _ _ => Some (uuid e)
  | _ => None
  end.

(** [written fresh m m']: the [rooms] collection [m'] one request leaves
    of the collection [m]; [fresh] is the identifier of the room it may
    create. *)
Inductive written (fresh : option string) (m : gmap string Room)
  : gmap string Room -> Prop :=
| written_nothing : written fresh m m
| written_update (id : string) (r r' : Room) :
    m !! id = Some r -> change r r' ->
    written fresh m (<[id := r']> m)
| written_delete (id : string) : written fresh m (delete id m)
| written_insert (id : string) (e : env) (u : user) (name : string) :
    fresh = Some id -> m !! id = None ->
    written fresh m (<[id := new_room e u name]> m).

(** *** Names for what the claims speak about *)

(** What the handler finds on [req] when the gate lets the request through. *)
Definition context_of (u : user) (r : Room) : access :=
  {| room := r; userRoomRole := userPermissions r;
     userRoomPermissions :=
       js_lookup (rolePermissions r) (role_of r (uid u)) |}.



(** The role after the entries of an accepted update are written to it. *)
Definition granted (entries : list (string * jsval)) (p : gmap string bool)
  : gmap string bool :=
  foldl (fun p kv => match kv.2 with JBool b => <[kv.1 := b]> p | _ => p end)
    p entries.



(** The body of a successful [versions/new]. *)
Definition version_created (n : nat) : jsval :=
  JObj [ ("code", JStr "success"); ("message", JStr "Operation succeeded.");
         ("id", JStr (toString n)) ].

Definition file_already_associated : reply :=
  Reply 400 (code_message "file_already_associated"
    "There is already a file associated with this version. Try making a new one.").





Definition nothing_to_fetch : reply :=
  Reply 204 (code_message "no_file_associated_with_version"
    "There is no file associated with this version, so loading the room objects is unnecessary.").

(** The same world, with the audit collection up or down. *)
Definition with_audit (up : bool) (e : env) : env :=
  {| now := now e; uuid := uuid e; audit_up := up;
     Buffer_from := Buffer_from e |}.

(** The routes that [await roomAuditLog(...)] after their write to
    [rooms]. *)
Definition awaits_audit (q : request) : bool :=
  match q with
  | PutVersion _ _ _ _ | PostPublicVersion _ _ _ _ | PostDescription _ _ _
  | PostNew _ _ | PutRole _ _ _ | PostRoleUpdate _ _ _ _
  | PostRoleDelete _ _ _ | PostSetRole _ _ _ _ | PostSubroomCreate _ _ _ _
  | PostSubroomDelete _ _ _ | PostSetMaxPlayers _ _ _ _
  | PostSetHomeSubroom _ _ _ => true
  | _ => false
  end.

(** What a failed audit write makes of a request that would have
    succeeded: status 500, with the room written all the same. *)
Definition spoiled (q : request) (e : env) (s : store) : Prop :=
  success (serve (with_audit true e) q s).2 = true ->
  reply_status (serve (with_audit false e) q s).2 = Some 500
  /\ rooms (serve (with_audit false e) q s).1
     = rooms (serve (with_audit true e) q s).1.

End Rooms.

(** ** A small world to run the handlers in *)
Module Sample.
Import JS Store Rooms.

(** The decoder of this world hands the text back byte by byte; any other
    total decoder of strings would do. *)
Definition world : env :=
  {| now := 1650000000000; uuid := "room-1"; audit_up := true;
     Buffer_from := fun v =>
       match v with
       | JStr text => Some (String.list_byte_of_string text)
       | _ => None
       end |}.

(** The same world with the audit collection refusing writes. *)
Definition audit_down : env :=
  {| now := now world; uuid := uuid world; audit_up := false;
     Buffer_from := Buffer_from world |}.

Definition A : user := {| uid := "A"; developer := false |}.
Definition B : user := {| uid := "B"; developer := false |}.
Definition U1 : user := {| uid := "U1"; developer := false |}.
Definition staff : user := {| uid := "7"; developer := true |}.

Definition holding (m : gmap string Room) : store :=
  {| rooms := m; room_audit := []; bucket := ∅; images := ∅; outbox := [] |}.

Definition nothing : store := holding ∅.

Definition named (name : string) : jsval := JObj [("name", JStr name)].

Definition permissions_of (entries : list (string * jsval)) : jsval :=
  JObj [("permissions", JObj entries)].

(** Room [room-1], called Test, as [POST /new] by [A] stores it. *)
Definition test_room : Room := new_room world A "Test".

Definition created : store := holding {["room-1" := test_room]}.

Definition builder_permissions : gmap string bool :=
  {["manageSubrooms" := true]}.

(** The same room with two more roles: [builder], which holds
    [manageSubrooms] and is given to [B] and to [U1], and [helper], which
    holds nothing. *)
Definition staffed_room : Room :=
  set_userPermissions (fun up => <["U1" := "builder"]> (<["B" := "builder"]> up))
    (set_rolePermissions
       (fun rp => <["builder" := builder_permissions]> (<["helper" := ∅]> rp))
       test_room).

Definition staffed : store := holding {["room-1" := staffed_room]}.

(** A room whose only assignment is [U1 : builder]. *)
Definition cascade_room : Room :=
  set_userPermissions (fun _ => {["U1" := "builder"]})
    (set_rolePermissions (insert "builder" ∅) test_room).

Definition cascade : store := holding {["room-1" := cascade_room]}.

(** A body for [versions/new] that names another author. *)
Definition sample_metadata : jsval :=
  JObj [ ("author", JStr "B");
         ("spawn",
           JObj [ ("position",
                    JObj [("x", json_number 0); ("y", json_number 1);
                          ("z", json_number 0)]);
                  ("rotation",
                    JObj [("x", json_number 0); ("y", json_number 0);
                          ("z", json_number 0); ("w", json_number 1)]) ]);
         ("collaborators", JArr []) ].

(** A session on the sample room: the owner asks to delete [home], a
    developer adds [lounge] and makes it the home, the owner deletes
    [home]. *)
Definition home_session : list (env * request) :=
  [ (world, PostSubroomDelete A "room-1" "home");
    (world, PostSubroomCreate staff "room-1" "lounge" (JObj []));
    (world, PostSetHomeSubroom staff "room-1" "lounge");
    (world, PostSubroomDelete A "room-1" "home") ].

(** A session that creates, edits and deletes roles and ends with the
    suspension of the room. *)
Definition role_session : list (env * request) :=
  [ (world, PutRole A "room-1" (named "everyone"));
    (world, PutRole A "room-1" (named "builder"));
    (world, PostRoleDelete A "room-1" "owner");
    (world, PostRoleDelete A "room-1" "builder");
    (world, PostSuspend staff "room-1" (JObj [])) ].

(** A later moment of the same world: the next uuid is [room-2]. *)
Definition later : env :=
  {| now := 1650000060000; uuid := "room-2"; audit_up := true;
     Buffer_from := Buffer_from world |}.


End Sample.

(** ** What one request does to the four collections *)
Module Effects.
Import JS Store Rooms.

(** What one request can do to a subroom that stays in place, apart from
    marking a version as having a file. *)
Inductive subroom_edit (sr : Subroom) : Subroom -> Prop :=
| edit_push (v : Version) :
    associated_file v = false -> subroom_edit sr (push_version v sr)
| edit_public (v : jsval) : subroom_edit sr (set_publicVersionId v sr)
| edit_max_players (n : Z) : subroom_edit sr (set_maxPlayers n sr).

(** [change], with everything the handler has checked before its write.
    The index names the version the update marks as having a file, if it
    marks one. *)
Inductive revision (r : Room) : option (string * nat) -> Room -> Prop :=
| revision_subroom (f : Subroom -> Subroom) (subroom_id : string) :
    (forall sr, subroom_edit sr (f sr)) ->
    revision r None (set_subrooms (alter f subroom_id) r)
| revision_associate (subroom_id : string) (n : nat) :
    revision r (Some (subroom_id, n))
      (set_subrooms (alter (associate_at n) subroom_id) r)
| revision_subroom_create (name author : string) :
    subrooms r !! name = None ->
    revision r None (set_subrooms (insert name (initial_subroom author)) r)
| revision_subroom_delete (name : string) :
    name <> homeSubroomId r -> is_Some (subrooms r !! name) ->
    revision r None (set_subrooms (delete name) r)
| revision_home (name : string) :
    is_Some (subrooms r !! name) ->
    revision r None (set_homeSubroomId name r)
| revision_tags (t : list string) : revision r None (set_tags t r)
| revision_content_flags (f : list (string * string)) :
    revision r None (set_contentFlags f r)
| revision_description (d : string) : revision r None (set_description d r)
| revision_cover_image (c : string) : revision r None (set_cover_image_id c r)
| revision_report (p : Report) : revision r None (push_report p r)
| revision_suspension : revision r None (suspension r)
| revision_termination : revision r None (termination r)
| revision_role_new (name : string) :
    reserved name = false -> rolePermissions r !! name = None ->
    revision r None (set_rolePermissions (insert name ∅) r)
| revision_role_update (role_name : string) (p : gmap string bool) :
    role_name <> "owner" -> is_Some (rolePermissions r !! role_name) ->
    revision r None
      (set_rolePermissions (fun _ => <[role_name := p]> (rolePermissions r)) r)
| revision_role_untouched :
    revision r None (set_rolePermissions (fun _ => rolePermissions r) r)
| revision_role_delete (role_name : string) :
    reserved role_name = false ->
    revision r None
      (set_userPermissions
         (reset_users (users_to_reset role_name (userPermissions r)))
         (set_rolePermissions (delete role_name) r))
| revision_user_role (user_id role_name : string) :
    role_name <> "owner" -> user_id <> creator_id r ->
    userPermissions r !! user_id <> Some "owner" ->
    revision r None
      (set_userPermissions
         (if String.eqb role_name "everyone" then delete user_id
          else insert user_id role_name) r).

(** The version a write to the room [id] marks. *)
Definition filing_of (id : string) (mark : option (string * nat))
  : option (string * string * nat) :=
  (fun kn => (id, kn.1, kn.2)) <$> mark.

(** [written], with the checks of [POST /new] and the version marked. *)
Inductive committed (fresh : option string) (m : gmap string Room)
  : option (string * string * nat) -> gmap string Room -> Prop :=
| committed_nothing : committed fresh m None m
| committed_update (id : string) (r r' : Room) (mark : option (string * nat)) :
    m !! id = Some r -> revision r mark r' ->
    committed fresh m (filing_of id mark) (<[id := r']> m)
| committed_delete (id : string) : committed fresh m None (delete id m)
| committed_insert (id : string) (e : env) (u : user) (name : string) :
    fresh = Some id -> m !! id = None ->
    has_predecessor (uid u) name m = false ->
    committed fresh m None (<[id := new_room e u name]> m).

(** What the request leaves in the bucket: the object of the version it
    marks, and nothing else.  (A request the embedding stops following may
    have stored an object already.) *)
Definition filed (e : env) (q : request)
  (filing : option (string * string * nat)) (s : store)
  (out : store * reply) : Prop :=
  match filing with
  | Some (id, k, n) =>
      exists u version_id body data,
        q = PostAssociateData u id k version_id body
        /\ Buffer_from e body = Some data
        /\ bucket out.1 = <[version_path id k n := data]> (bucket s)
  | None =>
      bucket out.1 = bucket s
      \/ (out.2 = OutsideModel
          /\ exists path data, bucket out.1 = <[path := data]> (bucket s))
  end.

(** [req.user] of a request. *)
Definition caller (q : request) : option user :=
  match q with
  | GetInfo u _ => u
  | GetDownload u _ _ _ | PutVersion u _ _ _ | PostAssociateData u _ _ _ _
  | PostPublicVersion u _ _ _ | PostTags u _ _ | PostContentFlags u _ _
  | PostSuspend u _ _ | PostTerminate u _ _ _ | PostDescription u _ _
  | GetMyPermissions u _ | PostReport u _ _ | PostNew u _ | PutRole u _ _
  | PostRoleUpdate u _ _ _ | PostRoleDelete u _ _ | PostSetRole u _ _ _
  | PostCoverImage u _ _ | GetVerifySubroomLink u _ _
  | PostSubroomCreate u _ _ _ | PostSubroomDelete u _ _
  | PostSetMaxPlayers u _ _ _ | PostSetHomeSubroom u _ _
  | PutUploadBundle u _ | GetDownloadBundle u _ => Some u
  end.

(** The room a request is about; [POST /new] is about the room it
    creates. *)
Definition target (e : env) (q : request) : string :=
  match q with
  | PostNew _ _ => uuid e
  | GetInfo _ id | GetDownload _ id _ _ | PutVersion _ id _ _
  | PostAssociateData _ id _ _ _ | PostPublicVersion _ id _ _
  | PostTags _ id _ | PostContentFlags _ id _ | PostSuspend _ id _
  | PostTerminate _ id _ _ | PostDescription _ id _ | GetMyPermissions _ id
  | PostReport _ id _ | PutRole _ id _ | PostRoleUpdate _ id _ _
  | PostRoleDelete _ id _ | PostSetRole _ id _ _ | PostCoverImage _ id _
  | GetVerifySubroomLink _ id _ | PostSubroomCreate _ id _ _
  | PostSubroomDelete _ id _ | PostSetMaxPlayers _ id _ _
  | PostSetHomeSubroom _ id _ | PutUploadBundle _ id
  | GetDownloadBundle _ id => id
  end.

(** The type of the event the handler of a route hands to [roomAuditLog];
    the routes that never call it have none. *)
Definition recorded (q : request) : option AuditEventType :=
  match q with
  | PutVersion _ _ _ _ => Some ChangesetCreation
  | PostPublicVersion _ _ _ _ => Some PublicVersionUpdate
  | PostContentFlags _ _ _ => Some ContentFlagsUpdate
  | PostSuspend _ _ _ => Some RoomSuspendedByDeveloper
  | PostTerminate _ _ permanent _ =>
      Some (if bool_decide (permanent = Some "true")
            then RoomTerminatedByDeveloperForIllegalContent
            else RoomTerminatedByDeveloper)
  | PostDescription _ _ _ => Some DescriptionUpdate
  | PostNew _ _ => Some RoomCreate
  | PutRole _ _ _ => Some RoleCreated
  | PostRoleUpdate _ _ _ _ => Some RolePermissionsUpdate
  | PostRoleDelete _ _ _ => Some RoleDeleted
  | PostSetRole _ _ _ _ => Some UserRoleUpdate
  | PostSubroomCreate _ _ _ _ => Some SubroomCreate
  | PostSubroomDelete _ _ _ => Some SubroomDelete
  | PostSetMaxPlayers _ _ _ _ => Some SubroomMaxPlayerUpdate
  | PostSetHomeSubroom _ _ _ => Some HomeSubroomSet
  | GetInfo _ _ | GetDownload _ _ _ _ | PostAssociateData _ _ _ _ _
  | PostTags _ _ _ | GetMyPermissions _ _ | PostReport _ _ _
  | PostCoverImage _ _ _ | GetVerifySubroomLink _ _ _ | PutUploadBundle _ _
  | GetDownloadBundle _ _ => None
  end.

(** The routes that wait for [roomAuditLog] before they answer. *)
Definition waits_for_audit (q : request) : bool :=
  awaits_audit q || match q with PostContentFlags _ _ _ => true | _ => false end.

Definition audit_record (e : env) (q : request) (u : user) (ev : AuditEvent)
  : AuditRecord :=
  {| room_id := target e q; user_id := uid u; event_time := now e;
     event_data := ev |}.

(** What one request does to the audit trail: nothing (and then a route
    that waits for the audit write has not succeeded), or one record at the
    end, in the name of the caller. *)
Definition audited (e : env) (q : request) (s : store) (out : store * reply)
  : Prop :=
  (room_audit out.1 = room_audit s
   /\ (waits_for_audit q = true -> success out.2 = false))
  \/ (exists u ev,
        caller q = Some u /\ recorded q = Some (type ev)
        /\ room_audit out.1 = room_audit s ++ [audit_record e q u ev]).

(** Everything one request does to the store, but for the messages it
    sends. *)
Definition outcome (e : env) (q : request) (s : store) (out : store * reply)
  : Prop :=
  (exists filing,
     committed (minted e q) (rooms s) filing (rooms out.1)
     /\ filed e q filing s out)
  /\ audited e q s out
  /\ images out.1 = images s.

End Effects.

(** ** What the rooms keep *)
Module Kept.
Import JS Store Rooms.

(** The role [owner] is held by nobody but the creator of the room. *)
Definition only_creator_owns (r : Room) : Prop :=
  forall account,
    userPermissions r !! account = Some "owner" -> account = creator_id r.


(** Every subroom has a version. *)
Definition never_empty (r : Room) : Prop :=
  forall k sr, subrooms r !! k = Some sr -> versions sr <> [].

(** What a request can make of the version list of a subroom it keeps. *)
Definition versions_extended (old new : list Version) : Prop :=
  new = old
  \/ (exists v, associated_file v = false /\ new = old ++ [v])
  \/ (exists n, new = alter mark_associated n old).

(** What never changes in a stored room. *)
Definition same_identity (r r' : Room) : Prop :=
  name r' = name r /\ creator_id r' = creator_id r
  /\ created_at r' = created_at r /\ visits r' = visits r.

(** The owner role as it was, or no owner role at all. *)
Definition owner_role_as_before (r r' : Room) : Prop :=
  rolePermissions r' !! "owner" = rolePermissions r !! "owner"
  \/ rolePermissions r' !! "owner" = None.

End Kept.

(** ** The bucket and the version ledger *)
Module Files.
Import JS Store Rooms.


End Files.

(** ** Names for what the handlers check *)
Module Checks.
Import JS Store Rooms.

(** The four checks of [set-role] on who is given which role. *)
Definition assignable (u : user) (r : Room) (user_id role_name : string)
  : bool :=
  negb (String.eqb role_name "owner") && negb (String.eqb user_id (uid u))
  && negb (String.eqb user_id (creator_id r))
  && negb (bool_decide (userPermissions r !! user_id = Some "owner")).

(** The two permissions a suspension takes from [everyone]. *)
Definition suspended_permission (permission : string) : bool :=
  String.eqb permission "viewAndJoin"
  || String.eqb permission "managePermissions".

(** What [everyone] may do in a room, read as the gate reads it. *)
Definition everyone_may (r : Room) (permission : string) : bool :=
  flag (Own (default ∅ (rolePermissions r !! "everyone"))) permission.

(** The body of a reply of [verify-subroom-link]. *)
Definition link_valid (r : reply) : option bool :=
  match r with
  | Reply _ body =>
      match get_opt body "valid" with JBool b => Some b | _ => None end
  | _ => None
  end.

(** A report as [POST /room/:id/report] reads it from a body. *)
Definition report_of (e : env) (u : user) (body : jsval) : option Report :=
  match get_opt body "reason", get_opt body "illegal_content",
        get_opt body "danger_of_harm" with
  | JStr reason, JBool illegal_content, JBool danger_of_harm =>
      Some {| Store.reason := reason;
              alleges_illegal_content := illegal_content;
              alleges_danger_of_harm := danger_of_harm;
              reporting_user_id := uid u;
              time := now e |}
  | _, _, _ => None
  end.

End Checks.

(** ** The routes that only read *)
Module Reads.
Import JS Store Rooms.

(** The object [/search] lists for a room. *)
Definition room_summary (id : string) (r : Room) : jsval :=
  JObj [ ("_id", JStr id); ("name", JStr (name r));
         ("description", JStr (description r));
         ("creator_id", JStr (creator_id r));
         ("tags", JArr (JStr <$> tags r));
         ("visits", json_number (visits r));
         ("created_at", json_number (created_at r));
         ("cover_image_id", JStr (cover_image_id r));
         ("contentFlags",
           JObj ((fun kv => (kv.1, JStr kv.2)) <$> contentFlags r)) ].

Fixpoint insert_by_visits (x : string * Room) (l : list (string * Room))
  : list (string * Room) :=
  match l with
  | [] => [x]
  | y :: rest =>
      if (visits x.2 <=? visits y.2)%Z then x :: l
      else y :: insert_by_visits x rest
  end.

(** [find({}, {sort: {visits: 1}}).toArray()]: the rooms by ascending
    visits.  The store leaves the order of rooms with equal visits open;
    here it is the one of the finite map. *)
Definition find_sorted (m : gmap string Room) : list (string * Room) :=
  foldr insert_by_visits [] (map_to_list m).

(** The callback of [all.filter] in [/search]; [None] is the TypeError of
    reading [viewAndJoin] from a role that is not there. *)
Definition listed_for (u : option user) (r : Room) : option bool :=
  match u with
  | Some usr =>
      match js_lookup (rolePermissions r) (role_of r (uid usr)) with
      | Some permissions =>
          Some (flag permissions "viewAndJoin" || developer usr)
      | None => None
      end
  | None =>
      match js_lookup (rolePermissions r) "everyone" with
      | Some permissions => Some (flag permissions "viewAndJoin")
      | None => None
      end
  end.

Fixpoint filter_rooms (u : option user) (l : list (string * Room))
  : option (list (string * Room)) :=
  match l with
  | [] => Some []
  | x :: rest =>
      match listed_for u x.2, filter_rooms u rest with
      | Some keep, Some kept => Some (if keep then x :: kept else kept)
      | _, _ => None
      end
  end.

(** [query.trim()] is the empty string: nothing but white space. *)
Definition blank (query : string) : bool :=
  String.eqb (trim_start query) EmptyString.

(** The filter of the mode [mine]: [room.creator_id === req.user.id], a
    TypeError for a visitor as soon as there is a room to test. *)
Definition mine (u : option user) (all : list (string * Room))
  : option (list (string * Room)) :=
  match u, all with
  | Some usr, _ =>
      Some (filter (fun x => creator_id x.2 = uid usr) all)
  | None, [] => Some []
  | None, _ :: _ => None
  end.

(** [GET /search?mode=..&query=..], behind [authenticateToken_optional];
    [mode] and [query] are what the query string holds under these names
    ([JUndefined] when absent), and [fuse items query] is what
    [new Fuse(items, {keys: ["name"]}).search(query)] finds.  The handler
    has no [try]: an exception leaves the request unanswered. *)
Definition search (fuse : list jsval -> string -> list jsval)
  (u : option user) (mode query : jsval) : store -> store * reply :=
  fun s =>
  match filter_rooms u (find_sorted (rooms s)) with
  | None => (s, Hung)
  | Some all =>
      let summaries (l : list (string * Room)) :=
        (fun x => room_summary x.1 x.2) <$> l in
      match mode with
      | JStr m =>
          if String.eqb m "search" then
            if negb (truthy query) then (s, Reply 200 (JArr (summaries all)))
            else
              match query with
              | JStr q =>
                  if blank q then (s, Reply 200 (JArr (summaries all)))
                  else (s, Reply 200 (JArr (fuse (summaries all) q)))
              | _ => (s, Hung)
              end
          else if String.eqb m "originals" then
            (s, Reply 200
                  (JArr (summaries
                           (filter (fun x => creator_id x.2 = "0") all))))
          else if String.eqb m "most-visited" then
            (s, Reply 200 (JArr (summaries all)))
          else if String.eqb m "mine" then
            match mine u all with
            | Some own => (s, Reply 200 (JArr (summaries own)))
            | None => (s, Hung)
            end
          else (s, Reply 400 (JObj [("code", JStr "invalid_mode")]))
      | _ => (s, Reply 400 (JObj [("code", JStr "invalid_mode")]))
      end
  end.

Definition number3 (p : Q * Q * Q) : jsval :=
  JObj [("x", JNum p.1.1); ("y", JNum p.1.2); ("z", JNum p.2)].

Definition number4 (p : Q * Q * Q * Q) : jsval :=
  JObj [("x", JNum p.1.1.1); ("y", JNum p.1.1.2); ("z", JNum p.1.2);
        ("w", JNum p.2)].

(** A stored version with the [id] the listing gives it. *)
Definition version_json (v : Version) (id : string) : jsval :=
  JObj [ ("baseSceneIndex", JNum (baseSceneIndex v));
         ("spawn", JObj [ ("position", number3 (position (spawn v)));
                          ("rotation", number4 (rotation (spawn v))) ]);
         ("shortHandCommitMessage", JStr (shortHandCommitMessage v));
         ("longHandCommitMessage", JStr (longHandCommitMessage v));
         ("author", JStr (author v));
         ("collaborators", JArr (JStr <$> collaborators v));
         ("associated_file", JBool (associated_file v));
         ("id", JStr id) ].

(** [versions.map((item, index) => { item.id = `${index}`; return item })] *)
Definition numbered (l : list Version) : list jsval :=
  imap (fun index item => version_json item (toString index)) l.

(** [GET /room/:id/subrooms/:subroom_id/versions] *)
Definition versions_list (u : user) (id subroom_id : string)
  : store -> store * reply :=
  guarded (requiresRoomPermission "createVersions" u id)
    (Reply 500 (code_message "internal_error"
       "An internal server error occurred, preventing the operation from succeeding."))
    (fun a =>
      when (negb (has_key (subrooms (room a)) subroom_id))
        (respond 404 (code_message "nonexistent_subroom"
           "No subroom on record was found with that ID.")) ;;
      subroom ← attempt (subrooms (room a) !! subroom_id);
      respond 200
        (JObj [ ("code", JStr "success");
                ("message", JStr "Operation successful.");
                ("versions", JArr (numbered (versions subroom))) ])).

Definition role_json (p : gmap string bool) : jsval :=
  JObj ((fun kv => (kv.1, JBool kv.2)) <$> map_to_list p).

(** [GET /room/:id/permissions]: the owner role is deleted from the copy of
    the room that is sent. *)
Definition permissions_list (u : user) (id : string)
  : store -> store * reply :=
  guarded (requiresRoomPermission "viewPermissions" u id) could_not_serve
    (fun _ =>
      r ← findOne id;
      room ← attempt r;
      respond 200
        (JObj [ ("code", JStr "success");
                ("message", JStr "The operation was successful.");
                ("users",
                  JObj ((fun kv => (kv.1, JStr kv.2))
                          <$> map_to_list (userPermissions room)));
                ("roles",
                  JObj ((fun kv => (kv.1, role_json kv.2))
                          <$> map_to_list
                                (delete "owner" (rolePermissions room))) ) ])).

(** The members [users] and [roles] of a reply. *)
Definition member (key : string) (r : reply) : list (string * jsval) :=
  match r with
  | Reply _ body =>
      match get_opt body key with JObj props => props | _ => [] end
  | _ => []
  end.

(** What is listed is the summary of a stored room the caller may view. *)
Definition shown (u : option user) (s : store) (item : jsval) : Prop :=
  exists id r, rooms s !! id = Some r /\ listed_for u r = Some true
               /\ item = room_summary id r.

End Reads.

(** ** More of the small world *)
Module Scenes.
Import JS Store Rooms Sample.

(** The sample room with [B] given a role the room does not have. *)
Definition haunted_room : Room :=
  set_userPermissions (insert "B" "ghost") test_room.

Definition haunted : store := holding {["room-1" := haunted_room]}.

Definition sample_report : jsval :=
  JObj [("reason", JStr "spam"); ("illegal_content", JBool false);
        ("danger_of_harm", JBool true)].

(** The bytes of the first version of [home], as text. *)
Definition sample_file : jsval := JStr "AAECAwQFBgcICQ==".


End Scenes.

(** ** The helpers of [helpers.js] the routers share *)
Module Helpers.
Import JS.

Record Notification : Type := {
  template : string;
  parameters : jsval }.

Record Ban : Type := {
  reason : string;
  endTS : Z;
  moderator : string }.

(** A document of the [accounts] collection, with the members the helpers
    read or write: [public.username], [public.nickname], the lists of
    [private], [notifications] and [auth.bans].  Its [_id] is the key under
    which the collection holds it. *)
Record Account : Type := {
  username : string;
  nickname : string;
  acquaintances : list string;
  friends : list string;
  favoriteFriends : list string;
  friendRequestsSent : list string;
  availableTags : list string;
  notifications : list Notification;
  bans : list Ban }.

(** What leaves the process on the live sockets. *)
Inductive signal : Type :=
| Closed (id : string)
| Sent (id : string) (code : string).

Record world : Type := {
  accounts : gmap string Account;
  wire : list signal }.

(** What the surroundings decide: the clock and who is connected. *)
Record host : Type := {
  clock : Z;
  connected : list string }.

(** An [async] function: the world it leaves, and its value unless the
    promise is rejected. *)
Definition Task (A : Type) : Type := world -> world * option A.

#[export] Instance Task_ret : MRet Task := fun A a w => (w, Some a).

#[export] Instance Task_bind : MBind Task := fun A B f m w =>
  match m w with
  | (w', Some a) => f a w'
  | (w', None) => (w', None)
  end.

Definition reject {A : Type} : Task A := fun w => (w, None).

(** A read of a member of [data], a TypeError when [data] is [null]. *)
Definition must {A : Type} (data : option A) : Task A :=
  match data with Some a => mret a | None => reject end.

(** [PullPlayerData(id)] *)
Definition PullPlayerData (id : string) : Task (option Account) :=
  fun w => (w, Some (accounts w !! id)).

(** [PushPlayerData(id, data)]: [replaceOne] with [upsert]. *)
Definition PushPlayerData (id : string) (data : Account) : Task unit :=
  fun w => ({| accounts := <[id := data]> (accounts w); wire := wire w |},
            Some tt).

Definition emit (x : signal) : Task unit :=
  fun w => ({| accounts := accounts w; wire := wire w ++ [x] |}, Some tt).

(** The three lists of [private] that relate two players. *)
Inductive circle : Type := Acquaintances | Friends | FavoriteFriends.

Definition members (c : circle) (a : Account) : list string :=
  match c with
  | Acquaintances => acquaintances a
  | Friends => friends a
  | FavoriteFriends => favoriteFriends a
  end.

Definition with_members (c : circle) (f : list string -> list string)
  (a : Account) : Account :=
  {| username := username a; nickname := nickname a;
     acquaintances := match c with Acquaintances => f (acquaintances a)
                                 | _ => acquaintances a end;
     friends := match c with Friends => f (friends a) | _ => friends a end;
     favoriteFriends := match c with FavoriteFriends => f (favoriteFriends a)
                                   | _ => favoriteFriends a end;
     friendRequestsSent := friendRequestsSent a;
     availableTags := availableTags a;
     notifications := notifications a; bans := bans a |}.

(** [l.includes(x)] on a list of ids. *)
Definition has (l : list string) (x : string) : bool := bool_decide (x ∈ l).

(** [index = l.findIndex(item => item === x); if (index >= 0)
    l.splice(index)]: [splice] with one argument removes everything from
    [index] on. *)
Definition cut_from (x : string) (l : list string) : list string :=
  match list_find (fun item => item = x) l with
  | Some (index, _) => take index l
  | None => l
  end.

(** [ArePlayersAcquantances], [ArePlayersFriends] and
    [ArePlayersFavoriteFriends], which differ in the list they read. *)
Definition related (c : circle) (player1 player2 : string) : Task bool :=
  data ← PullPlayerData player1;
  data2 ← PullPlayerData player2;
  data ← must data;
  if has (members c data) player2 then mret true
  else
    data2 ← must data2;
    mret (has (members c data2) player1).

Definition ArePlayersAcquantances := related Acquaintances.
Definition ArePlayersFriends := related Friends.
Definition ArePlayersFavoriteFriends := related FavoriteFriends.

(** [ArePlayersAnyFriendType(player1, player2)] *)
Definition ArePlayersAnyFriendType (player1 player2 : string) : Task bool :=
  data ← PullPlayerData player1;
  data2 ← PullPlayerData player2;
  data ← must data;
  if has (acquaintances data) player2 || has (friends data) player2
     || has (favoriteFriends data) player2
  then mret true
  else
    data2 ← must data2;
    mret (has (acquaintances data2) player1 || has (friends data2) player1
          || has (favoriteFriends data2) player1).

(** [RemoveAcquaintance], [RemoveFriend] and [RemoveFavoriteFriend], which
    differ in the list they edit. *)
Definition remove (c : circle) (player1 player2 : string) (both : bool)
  : Task unit :=
  data1 ← PullPlayerData player1;
  data2 ← PullPlayerData player2;
  data1 ← must data1;
  let data1 := with_members c (cut_from player2) data1 in
  data2 ← must data2;
  let data2 := if both then with_members c (cut_from player1) data2
               else data2 in
  PushPlayerData player1 data1 ;;
  PushPlayerData player2 data2.

Definition RemoveAcquaintance := remove Acquaintances.
Definition RemoveFriend := remove Friends.
Definition RemoveFavoriteFriend := remove FavoriteFriends.

(** [AddAcquaintance], [AddFriend] and [AddFavoriteFriend]. *)
Definition add (c : circle) (player1 player2 : string) (both : bool)
  : Task unit :=
  data1 ← PullPlayerData player1;
  data2 ← PullPlayerData player2;
  data1 ← must data1;
  (if negb (has (members c data1) player2)
   then PushPlayerData player1 (with_members c (fun l => l ++ [player2]) data1)
   else mret tt) ;;
  data2 ← must data2;
  if negb (has (members c data2) player1) && both
  then PushPlayerData player2 (with_members c (fun l => l ++ [player1]) data2)
  else mret tt.

Definition AddAcquaintance := add Acquaintances.
Definition AddFriend := add Friends.
Definition AddFavoriteFriend := add FavoriteFriends.

Definition notificationTemplates : list string :=
  ["invite"; "friendRequest"; "messageRecieved"].

Definition with_notifications
  (f : list Notification -> list Notification) (a : Account) : Account :=
  {| username := username a; nickname := nickname a;
     acquaintances := acquaintances a; friends := friends a;
     favoriteFriends := favoriteFriends a;
     friendRequestsSent := friendRequestsSent a;
     availableTags := availableTags a;
     notifications := f (notifications a); bans := bans a |}.

(** [NotifyPlayer(id, template, params)] *)
Definition NotifyPlayer (id template : string) (params : jsval) : Task bool :=
  if negb (has notificationTemplates template) then mret false
  else
    data ← PullPlayerData id;
    match data with
    | None => mret false
    | Some data =>
        PushPlayerData id
          (with_notifications
             (fun l => l ++ [ {| Helpers.template := template;
                                 parameters := params |} ]) data) ;;
        mret true
    end.

(** [c.toLowerCase()] for a code unit below 256: the letters [A-Z] and the
    capital letters of Latin-1 (all of 192..222 but the sign 215). *)
Definition lower (c : ascii) : ascii :=
  let n := nat_of_ascii c in
  if ((65 <=? n) && (n <=? 90)) || ((192 <=? n) && (n <=? 222) && negb (n =? 215))
  then ascii_of_nat (n + 32) else c.

Fixpoint toLowerCase (s : string) : string :=
  match s with
  | EmptyString => EmptyString
  | String c rest => String (lower c) (toLowerCase rest)
  end.

(** [getUserID(username)]: the first account, in the order the store lists
    them (here the one of the finite map), whose user name is the one given
    when both are put in lower case. *)
Definition getUserID (username : string) : Task (option string) :=
  fun w =>
  (w, Some
        match list_find
                (fun item => toLowerCase (Helpers.username item.2)
                             = toLowerCase (toLowerCase username))
                (map_to_list (accounts w)) with
        | Some (_, item) => Some item.1
        | None => None
        end).

(** [getAccountCount()] *)
Definition getAccountCount : Task Z :=
  fun w => (w, Some (Z.of_nat (size (accounts w)) - 1)%Z).

(** [MergeArraysWithoutDuplication(a, b)]; [indexOf] compares with [===],
    which on the ids these lists hold is equality. *)
Definition MergeArraysWithoutDuplication (a b : list string) : list string :=
  a ++ filter (fun item => item ∉ a) b.

Definition with_bans (f : list Ban -> list Ban) (a : Account) : Account :=
  {| username := username a; nickname := nickname a;
     acquaintances := acquaintances a; friends := friends a;
     favoriteFriends := favoriteFriends a;
     friendRequestsSent := friendRequestsSent a;
     availableTags := availableTags a;
     notifications := notifications a; bans := f (bans a) |}.

(** [BanPlayer(id, reason, duration, moderator)], [duration] in hours. *)
Definition BanPlayer (h : host) (id reason : string) (duration : Z)
  (moderator : string) : Task unit :=
  data ← PullPlayerData id;
  data ← must data;
  let endTS := (clock h + duration * 60)%Z in
  PushPlayerData id
    (with_bans (fun l => l ++ [ {| Helpers.reason := reason;
                                   Helpers.endTS := endTS;
                                   Helpers.moderator := moderator |} ]) data) ;;
  if negb (has (connected h) id) then mret tt else emit (Closed id).

(** [check(string)], over the word list of [data/badwords/array]. *)
Definition check (words : list string) (s : string) : bool :=
  existsb (fun word => includes (toLowerCase s) word) words.

(** The ban that stops a login or a token refresh at the time [now]: the
    first whose [endTS] is later. *)
Definition standing_ban (now : Z) (l : list Ban) : option Ban :=
  match list_find (fun b => (now < endTS b)%Z) l with
  | Some (_, b) => Some b
  | None => None
  end.

End Helpers.

(** ** Counting the members of a list *)
Module Counting.
Import Helpers.

(** How often [x] occurs in [l]. *)
Definition occurrences (x : string) (l : list string) : nat :=
  length (filter (fun item => item = x) l).

(** [if (!l.includes(x)) l.push(x)] *)
Definition put (x : string) (l : list string) : list string :=
  if has l x then l else l ++ [x].

End Counting.

(** ** The routes of [routers/social.js] and [routers/auth.js] that go
    through the helpers *)
Module Social.
Import JS Store Rooms Helpers.

(** An [async] handler with no [try]: a rejected promise leaves the request
    unanswered. *)
Definition route (t : Task reply) : world -> world * reply :=
  fun w =>
  match t w with
  | (w', Some r) => (w', r)
  | (w', None) => (w', Hung)
  end.

(** [res.status(n).send(text)] *)
Definition text (status : nat) (message : string) : reply :=
  Reply status (JStr message).

(** The two lists a player is taken from before they are put on [c], in
    the order of the source. *)
Definition others (c : circle) : circle * circle :=
  match c with
  | Acquaintances => (Friends, FavoriteFriends)
  | Friends => (Acquaintances, FavoriteFriends)
  | FavoriteFriends => (Acquaintances, Friends)
  end.

Definition not_related : reply :=
  text 400 "You are not acquaintances, friends, or favorite friends with this user.".

(** [POST /make-acquaintance], [/make-friend] and [/make-favorite-friend],
    behind [authenticateToken]; [sender] is [req.user.id].  A target that is
    not a string is the id of no account. *)
Definition make (c : circle) (sender : string) (body : jsval)
  : world -> world * reply :=
  route (
    target ← must (get body "target");
    if negb (truthy target)
    then mret (text 400 "You did not specify a target!")
    else
      match target with
      | JStr target =>
          any ← ArePlayersAnyFriendType sender target;
          if negb any then mret not_related
          else
            remove (others c).1 sender target false ;;
            remove (others c).2 sender target false ;;
            add c sender target false ;;
            mret (text 200 "OK")
      | _ => reject
      end).

Definition make_acquaintance := make Acquaintances.
Definition make_friend := make Friends.
Definition make_favorite_friend := make FavoriteFriends.

(** [POST /remove-friend] *)
Definition remove_friend (sender : string) (body : jsval)
  : world -> world * reply :=
  route (
    target ← must (get body "target");
    if negb (truthy target)
    then mret (text 400 "You did not specify a target!")
    else
      match target with
      | JStr target =>
          any ← ArePlayersAnyFriendType sender target;
          if negb any then mret not_related
          else
            RemoveAcquaintance sender target true ;;
            RemoveFriend sender target true ;;
            RemoveFavoriteFriend sender target true ;;
            mret (text 200 "OK")
      | _ => reject
      end).

(** The payload [jwt.sign] is given. *)
Definition token_payload (username id : string) (developer : bool) : jsval :=
  JObj [ ("username", JStr username); ("id", JStr id);
         ("developer", JBool developer) ].

(** [POST /refresh] of [routers/auth.js], behind [authenticateToken];
    [sign] stands for [jwt.sign] with the secret of the server. *)
Definition refresh (h : host) (sign : jsval -> string) (id : string)
  : world -> world * reply :=
  route (
    data ← PullPlayerData id;
    data ← must data;
    match standing_ban (clock h) (bans data) with
    | Some ban =>
        mret (Reply 403
                (JObj [ ("message", JStr "USER IS BANNED");
                        ("endTimeStamp", json_number (endTS ban));
                        ("reason", JStr (Helpers.reason ban));
                        ("failureCode", JStr "7") ]))
    | None =>
        let developer := has (availableTags data) "Developer" in
        mret (Reply 200
                (JObj [ ("userID", JStr id);
                        ("username", JStr (username data));
                        ("accessToken",
                          JStr (sign (token_payload (username data) id
                                        developer))) ]))
    end).

(** One of the three lists of [a] holds [x]. *)
Definition on_a_list (a : Account) (x : string) : bool :=
  has (acquaintances a) x || has (friends a) x || has (favoriteFriends a) x.

(** The document [a] with its three lists cut at [x]. *)
Definition forgetting (x : string) (a : Account) : Account :=
  with_members FavoriteFriends (cut_from x)
    (with_members Friends (cut_from x)
       (with_members Acquaintances (cut_from x) a)).

(** A body that names the player [target]. *)
Definition names (body : jsval) (target : string) : Prop :=
  get body "target" = Some (JStr target) /\ target <> EmptyString.

End Social.

(** ** Three accounts to run the helpers on *)
Module Town.
Import JS Helpers.

Definition resident (name : string) (a f ff : list string) : Account :=
  {| username := name; nickname := name;
     acquaintances := a; friends := f; favoriteFriends := ff;
     friendRequestsSent := []; availableTags := [];
     notifications := []; bans := [] |}.

(** [ann] has [cy], [bob] and [dee] as friends, in this order; [bob] has
    [ann] as an acquaintance. *)
Definition ann : Account := resident "Ann" [] ["cy"; "bob"; "dee"] [].
Definition bob : Account := resident "Bob" ["ann"] [] [].
Definition cy : Account := resident "Cy" [] [] [].

Definition town : world :=
  {| accounts := {["ann" := ann; "bob" := bob; "cy" := cy]}; wire := [] |}.

Definition noon : host := {| clock := 1650000000000; connected := ["bob"] |}.

Definition targeting (id : string) : jsval := JObj [("target", JStr id)].

End Town.

(** * Facts *)

Import JS Store Rooms Sample.

(** ** Numbers written out and read back *)
Section Numerals.

Example parseInt_examples :
  parseInt "12" = Some 12%Z /\ parseInt "  -7px" = Some (-7)%Z
  /\ parseInt "0x1F" = Some 31%Z /\ parseInt "latest" = None
  /\ parseInt "0x" = None /\ parseInt "1e3" = Some 1%Z
  /\ parseInt "-" = None /\ toString 0 = "0" /\ toString 1204 = "1204".
Proof. repeat split; reflexivity. Qed.







(** A string that [parseInt] reads as NaN or as a negative number selects
    nothing. *)
Lemma array_index_unparsed len raw :
  parseInt raw = None \/ (exists z, parseInt raw = Some z /\ (z < 0)%Z) ->
  array_index len (JStr raw) = None.
Proof.
  unfold array_index. intros [->|(z & -> & Hz)]; [done|].
  destruct (0 <=? z)%Z eqn:E; [|done].
  apply Z.leb_le in E. lia.
Qed.

End Numerals.

(** ** The store primitives and the two middlewares *)

Ltac munfold :=
  unfold try_catch, authenticateDeveloperToken, attempt, when, unawaited,
    segment, findOne, updateOne, deleteOne, insertOne, roomAuditLog, post,
    post_all, upload, fetch, respond, finish, throw, mbind, M_bind, mret,
    M_ret in *.

Lemma alter_present {A} (f : A -> A) (k : string) (m : gmap string A) (a : A) :
  m !! k = Some a -> alter f k m = <[k := f a]> m.
Proof.
  intros H. apply map_eq. intros j. rewrite lookup_alter, lookup_insert.
  case_decide; subst; [by rewrite H|done].
Qed.

Lemma has_key_true {A} (m : gmap string A) (k : string) :
  has_key m k = true <-> is_Some (m !! k).
Proof.
  unfold has_key. destruct (m !! k); split; intros H; done.
Qed.

Lemma has_key_false {A} (m : gmap string A) (k : string) :
  has_key m k = false <-> m !! k = None.
Proof. unfold has_key. by destruct (m !! k). Qed.

Section Middleware.
Variables (permission : string) (u : user) (id : string) (s : store).


Lemma requiresRoomPermission_inv s' x :
  requiresRoomPermission permission u id s = (s', x) ->
  s' = s /\
  forall a, x = Next a ->
    rooms s !! id = Some (room a) /\ permitted permission u (room a) = true
    /\ a = context_of u (room a).
Proof.
  unfold requiresRoomPermission, permitted, context_of. munfold.
  destruct (rooms s !! id) as [r|] eqn:Hr; [|by intros [= <- <-]].
  destruct (developer u) eqn:Hd; cbn.
  { intros [= <- <-]. split; [done|]. by intros a [= <-]. }
  destruct (js_lookup _ _) as [perms|] eqn:Hl; [|by intros [= <- <-]].
  destruct (flag perms permission) eqn:Hf; cbn.
  { intros [= <- <-]. split; [done|]. intros a [= <-]. cbn.
    by rewrite Hl, Hf. }
  destruct (String.eqb _ "owner") eqn:Ho; cbn.
  { intros [= <- <-]. split; [done|]. intros a [= <-]. cbn.
    by rewrite Hl, Hf, Ho. }
  by intros [= <- <-].
Qed.

Lemma requiresRoomPermission_pass r :
  rooms s !! id = Some r -> permitted permission u r = true ->
  requiresRoomPermission permission u id s = (s, Next (context_of u r)).
Proof.
  unfold requiresRoomPermission, permitted, context_of. munfold.
  intros -> H. destruct (developer u); [done|]. cbn in H |- *.
  destruct (js_lookup _ _) as [perms|]; [|done].
  destruct (flag perms permission); [done|]. cbn in H |- *.
  by rewrite H.
Qed.

Lemma requiresRoomPermission_missing :
  rooms s !! id = None ->
  requiresRoomPermission permission u id s
  = (s, Return (Reply 404 (code_message "room_not_found" "Room not found."))).
Proof. unfold requiresRoomPermission. munfold. by intros ->. Qed.

Lemma requiresRoomPermission_denied r mine :
  rooms s !! id = Some r -> developer u = false ->
  js_lookup (rolePermissions r) (role_of r (uid u)) = Some mine ->
  flag mine permission = false -> role_of r (uid u) <> "owner" ->
  requiresRoomPermission permission u id s
  = (s, Return (Reply 404 (code_message "room_not_found" "Access denied."))).
Proof.
  unfold requiresRoomPermission. munfold.
  intros -> -> -> Hf Ho%String.eqb_neq. cbn. by rewrite Hf, Ho.
Qed.

Lemma canViewRoom_inv s' x :
  canViewRoom u id s = (s', x) ->
  s' = s /\
  forall a, x = Next a ->
    rooms s !! id = Some (room a) /\ may_view u (room a) = true.
Proof.
  unfold canViewRoom, may_view. munfold.
  destruct (rooms s !! id) as [r|] eqn:Hr; [|by intros [= <- <-]].
  destruct (js_lookup _ _) as [perms|] eqn:Hl; [|by intros [= <- <-]].
  destruct (flag perms "viewAndJoin" || developer u) eqn:Hf; cbn.
  - intros [= <- <-]. split; [done|]. intros a [= <-]. cbn. by rewrite Hl.
  - by intros [= <- <-].
Qed.

Lemma canViewRoom_missing :
  rooms s !! id = None ->
  canViewRoom u id s = (s, Return (Reply 404 not_found_unspecified)).
Proof. unfold canViewRoom. munfold. by intros ->. Qed.

Lemma canViewRoom_denied r mine :
  rooms s !! id = Some r ->
  js_lookup (rolePermissions r) (role_of r (uid u)) = Some mine ->
  flag mine "viewAndJoin" = false -> developer u = false ->
  canViewRoom u id s = (s, Return (Reply 404 not_found_unspecified)).
Proof.
  unfold canViewRoom. munfold. intros -> -> Hf ->. cbn. by rewrite Hf.
Qed.

End Middleware.

(** A caller who is not a developer and whose role name only finds an
    inherited member of [rolePermissions] is never let in, so what [flag]
    answers for such a member is never consulted by a handler on behalf of
    such a caller. *)
Lemma inherited_role_kept_out permission u r :
  developer u = false ->
  js_lookup (rolePermissions r) (role_of r (uid u)) = Some Inherited ->
  permitted permission u r = false.
Proof.
  intros Hdev Hrole. unfold permitted. rewrite Hdev, Hrole. cbn.
  apply String.eqb_neq. intros Howner. unfold js_lookup in Hrole.
  rewrite Howner in Hrole. by destruct (rolePermissions r !! "owner").
Qed.

(** The loop of the role update only reads. *)
Lemma update_loop_store a u entries : forall target s,
  (update_loop a u entries target s).1 = s.
Proof.
  induction entries as [|[key element] rest IH]; intros target s; [done|].
  cbn [update_loop]. munfold.
  destruct (userRoomPermissions a); [|done].
  destruct (negb _ && _ && _); [done|].
  destruct (includes key "__proto__"); [done|].
  destruct element; by try apply IH.
Qed.

Lemma update_loop_never_succeeds a u entries : forall target s s' x,
  update_loop a u entries target s = (s', Return x) -> success x = false.
Proof.
  induction entries as [|[k v] rest IH]; intros target s s' x; [done|].
  cbn [update_loop]. munfold.
  destruct (userRoomPermissions a); [|done].
  destruct (negb _ && _ && _); [by intros [= <- <-]|].
  destruct (includes k "__proto__"); [by intros [= <- <-]|].
  destruct v; try by intros [= <- <-]. apply IH.
Qed.

Lemma requiresRoomPermission_return permission u id s s' x :
  requiresRoomPermission permission u id s = (s', Return x) ->
  success x = false.
Proof.
  unfold requiresRoomPermission. munfold.
  destruct (rooms s !! id); [|by intros [= <- <-]].
  destruct (developer u); [done|].
  destruct (js_lookup _ _); [|done]. cbn.
  destruct (negb _ && _); by intros [= <- <-].
Qed.

(** ** One request, seen from the [rooms] collection *)

Ltac written_side :=
  first
    [ done
    | by apply String.eqb_neq
    | by apply has_key_true
    | by (apply has_key_true; apply negb_false_iff) ].

Ltac written_tac :=
  first
    [ apply written_nothing
    | apply written_delete
    | erewrite alter_present by eassumption;
      eapply written_update; [eassumption|];
      first [ by econstructor | econstructor; written_side ] ].

(** Runs a handler symbolically, one [match] at a time. *)
Ltac run_body :=
  munfold; cbn [fst snd rooms with_rooms]; try written_tac;
  repeat (case_match; simplify_eq; cbn [fst snd rooms with_rooms];
          try written_tac).

Ltac enter_gate :=
  unfold guarded;
  lazymatch goal with
  | |- context [requiresRoomPermission ?p ?u ?id ?s] =>
      let G := fresh "G" in
      let a := fresh "a" in
      destruct (requiresRoomPermission p u id s) as [? [a| |]] eqn:G;
      apply requiresRoomPermission_inv in G as [-> G];
      [ destruct (G a eq_refl) as (Hroom & Hpermitted & Hcontext); clear G
      | apply written_nothing | apply written_nothing ]
  | |- context [canViewRoom ?u ?id ?s] =>
      let G := fresh "G" in
      let a := fresh "a" in
      destruct (canViewRoom u id s) as [? [a| |]] eqn:G;
      apply canViewRoom_inv in G as [-> G];
      [ destruct (G a eq_refl) as (Hroom & Hview); clear G
      | apply written_nothing | apply written_nothing ]
  end.

Section OneRequest.
Variables (e : env) (s : store).

Lemma room_info_written u room_id :
  written None (rooms s) (rooms (room_info u room_id s).1).
Proof. unfold room_info. run_body. Qed.

Lemma download_written u room_id subroom_id version_id :
  written None (rooms s) (rooms (download u room_id subroom_id version_id s).1).
Proof. unfold download. run_body. Qed.

Lemma version_new_written u id subroom_id body :
  written None (rooms s) (rooms (version_new e u id subroom_id body s).1).
Proof. unfold version_new. enter_gate. run_body. Qed.

Lemma associate_data_written u id subroom_id version_id body :
  written None (rooms s)
    (rooms (associate_data e u id subroom_id version_id body s).1).
Proof. unfold associate_data. enter_gate. run_body. Qed.

Lemma set_public_version_written u id subroom_id body :
  written None (rooms s) (rooms (set_public_version e u id subroom_id body s).1).
Proof. unfold set_public_version. enter_gate. run_body. Qed.

Lemma set_room_tags_written u id body :
  written None (rooms s) (rooms (set_room_tags u id body s).1).
Proof. unfold set_room_tags. enter_gate. run_body. Qed.

Lemma set_content_flags_written u id body :
  written None (rooms s) (rooms (set_content_flags e u id body s).1).
Proof. unfold set_content_flags. enter_gate. run_body. Qed.

Lemma moderation_suspend_written u id body :
  written None (rooms s) (rooms (moderation_suspend e u id body s).1).
Proof. unfold moderation_suspend. run_body. Qed.

Lemma moderation_terminate_written u id permanent body :
  written None (rooms s)
    (rooms (moderation_terminate e u id permanent body s).1).
Proof. unfold moderation_terminate. run_body. Qed.

Lemma set_room_description_written u id body :
  written None (rooms s) (rooms (set_room_description e u id body s).1).
Proof. unfold set_room_description. enter_gate. run_body. Qed.

Lemma my_permissions_written u id :
  written None (rooms s) (rooms (my_permissions u id s).1).
Proof. unfold my_permissions. enter_gate. run_body. Qed.

Lemma report_room_written u id body :
  written None (rooms s) (rooms (report_room e u id body s).1).
Proof.
  unfold report_room. munfold. cbn [fst snd rooms with_rooms].
  destruct (get body "reason") as [[]|]; try apply written_nothing.
  destruct (get_opt body "illegal_content"); try apply written_nothing.
  destruct (get_opt body "danger_of_harm"); try apply written_nothing.
  cbn [fst snd rooms with_rooms].
  destruct (rooms s !! id) as [r|] eqn:Hr.
  - rewrite (alter_present _ _ _ _ Hr), lookup_insert_eq.
    cbn [fst snd rooms with_rooms]. rewrite (alter_present _ _ _ _ Hr).
    eapply written_update; [done|constructor].
  - match goal with
    | |- context [alter ?f id (rooms s)] =>
        assert (alter f id (rooms s) = rooms s) as E
    end.
    { apply map_eq. intros j. rewrite lookup_alter.
      case_decide; subst; by rewrite ?Hr. }
    rewrite E, Hr. cbn [fst snd rooms with_rooms]. rewrite E.
    apply written_nothing.
Qed.

Lemma create_room_written u body :
  written (Some (uuid e)) (rooms s) (rooms (create_room e u body s).1).
Proof.
  unfold create_room. run_body.
  all: by eapply written_insert.
Qed.

Lemma role_new_written u id body :
  written None (rooms s) (rooms (role_new e u id body s).1).
Proof. unfold role_new. enter_gate. run_body. Qed.

Lemma role_update_written u id role_name body :
  written None (rooms s) (rooms (role_update e u id role_name body s).1).
Proof.
  unfold role_update. enter_gate. munfold. cbn [fst snd rooms with_rooms].
  destruct (includes role_name "__proto__"); [apply written_nothing|].
  destruct (get body "permissions") as [permissions|]; [|apply written_nothing].
  destruct (String.eqb role_name "owner"); [apply written_nothing|].
  rewrite Hroom.
  destruct (js_lookup _ role_name) as [target|]; [|apply written_nothing].
  pose proof (update_loop_store a u (own_entries permissions) target s) as L.
  destruct (update_loop _ _ _ _ s) as [s' [edited| |]]; cbn in L; subst s';
    try apply written_nothing.
  run_body.
Qed.

Lemma role_delete_written u id role_name :
  written None (rooms s) (rooms (role_delete e u id role_name s).1).
Proof. unfold role_delete. enter_gate. run_body. Qed.

Lemma set_user_role_written u id user_id role_name :
  written None (rooms s) (rooms (set_user_role e u id user_id role_name s).1).
Proof. unfold set_user_role. enter_gate. run_body. Qed.

Lemma set_cover_image_written u id image_id :
  written None (rooms s) (rooms (set_cover_image u id image_id s).1).
Proof. unfold set_cover_image. enter_gate. run_body. Qed.

Lemma verify_subroom_link_written u id to :
  written None (rooms s) (rooms (verify_subroom_link u id to s).1).
Proof. unfold verify_subroom_link. enter_gate. run_body. Qed.

Lemma subroom_create_written u id name body :
  written None (rooms s) (rooms (subroom_create e u id name body s).1).
Proof. unfold subroom_create. enter_gate. run_body. Qed.

Lemma subroom_delete_written u id name :
  written None (rooms s) (rooms (subroom_delete e u id name s).1).
Proof. unfold subroom_delete. enter_gate. run_body. Qed.

Lemma subroom_set_max_players_written u id name count :
  written None (rooms s)
    (rooms (subroom_set_max_players e u id name count s).1).
Proof. unfold subroom_set_max_players. enter_gate. run_body. Qed.

Lemma set_home_subroom_written u id name :
  written None (rooms s) (rooms (set_home_subroom e u id name s).1).
Proof. unfold set_home_subroom. enter_gate. run_body. Qed.

Lemma bundles_written u id :
  written None (rooms s) (rooms (upload_bundle u id s).1)
  /\ written None (rooms s) (rooms (download_bundle u id s).1).
Proof.
  split; [unfold upload_bundle|unfold download_bundle]; enter_gate; run_body.
Qed.

End OneRequest.

Lemma serve_written e q s :
  written (minted e q) (rooms s) (rooms (serve e q s).1).
Proof.
  destruct q; cbn [serve minted]; unfold authenticateDeveloperToken;
    try (destruct (developer u); [|apply written_nothing]);
    eauto using room_info_written, download_written, version_new_written,
      associate_data_written, set_public_version_written,
      set_room_tags_written, set_content_flags_written,
      moderation_suspend_written, moderation_terminate_written,
      set_room_description_written, my_permissions_written,
      report_room_written, create_room_written, role_new_written,
      role_update_written, role_delete_written, set_user_role_written,
      set_cover_image_written, verify_subroom_link_written,
      subroom_create_written, subroom_delete_written,
      subroom_set_max_players_written, set_home_subroom_written.
  - apply bundles_written.
  - apply bundles_written.
Qed.

(** ** Invariants of the stored rooms *)
Section Invariants.
Variable P : Room -> Prop.
Hypothesis P_change : forall r r', change r r' -> P r -> P r'.
Hypothesis P_new : forall e u name, P (new_room e u name).




End Invariants.








(** A room that is not in the collection stays out of it, unless a request
    creates one under the same identifier. *)
Lemma written_absent fresh m m' id :
  written fresh m m' -> fresh <> Some id -> m !! id = None -> m' !! id = None.
Proof.
  intros [|id' r r' Hr Hc|id'|id' e u name Hf Hid] Hfresh Hm.
  - done.
  - rewrite lookup_insert_ne; [done|]. intros ->. by rewrite Hm in Hr.
  - rewrite lookup_delete. by case_decide.
  - rewrite lookup_insert_ne; [done|]. by intros ->.
Qed.

Lemma run_absent id requests : forall s,
  Forall (fun eq => minted eq.1 eq.2 <> Some id) requests ->
  rooms s !! id = None -> rooms (run requests s) !! id = None.
Proof.
  induction requests as [|[e q] rest IH]; intros s Hf Hs; [done|].
  apply Forall_cons in Hf as [Hq Hf]. cbn [run].
  pose proof (written_absent _ _ _ id (serve_written e q s) Hq Hs) as H.
  destruct (serve e q s) as [s' []]; cbn in H; auto.
Qed.

(** * The claims *)

(** ** Requests the handlers answer themselves *)

Lemma inside_ret {A} (a : A) : inside (mret a).
Proof. by intros s. Qed.

Lemma inside_bind {A B} (m : M A) (f : A -> M B) :
  inside m -> (forall a, inside (f a)) -> inside (m ≫= f).
Proof.
  intros Hm Hf s. unfold mbind, M_bind. specialize (Hm s).
  destruct (m s) as [s' [a|r|]]; cbn in *; [apply Hf|congruence|done].
Qed.

Lemma inside_respond {A} status body : inside (@respond A status body).
Proof. by intros s. Qed.

Lemma inside_finish {A} r : r <> OutsideModel -> inside (@finish A r).
Proof. intros H s. cbn. congruence. Qed.

Lemma inside_throw {A} : inside (@throw A).
Proof. by intros s. Qed.

Lemma inside_attempt {A} (o : option A) : inside (attempt o).
Proof. by destruct o. Qed.

Lemma inside_attempt_Some {A B} (a : A) (f : A -> M B) :
  inside (f a) -> inside (attempt (Some a) ≫= f).
Proof. intros H s. apply H. Qed.

Lemma inside_when c m : inside m -> inside (when c m).
Proof. by destruct c. Qed.

Lemma inside_unawaited m : inside m -> inside (unawaited m).
Proof.
  intros Hm s. unfold unawaited. specialize (Hm s).
  by destruct (m s) as [s' [a|r|]].
Qed.

Lemma inside_segment name : plain name = true -> inside (segment name).
Proof. unfold segment. by intros ->. Qed.

Lemma inside_findOne id : inside (findOne id).
Proof. by intros s. Qed.

Lemma inside_updateOne id f : inside (updateOne id f).
Proof. by intros s. Qed.

Lemma inside_deleteOne id : inside (deleteOne id).
Proof. by intros s. Qed.

Lemma inside_insertOne id r : inside (insertOne id r).
Proof. intros s. unfold insertOne. by destruct (rooms s !! id). Qed.

Lemma inside_roomAuditLog e id uid ev : inside (roomAuditLog e id uid ev).
Proof. intros s. unfold roomAuditLog. by destruct (audit_up e). Qed.

Lemma inside_post n : inside (post n).
Proof. by intros s. Qed.

Lemma inside_upload path data : inside (upload path data).
Proof. by intros s. Qed.

Lemma inside_fetch path : inside (fetch path).
Proof. intros s. unfold fetch. by destruct (bucket s !! path). Qed.

Ltac inside_step :=
  first
    [ apply inside_ret | apply inside_respond | apply inside_throw
    | apply inside_attempt | apply inside_findOne | apply inside_updateOne
    | apply inside_deleteOne | apply inside_insertOne
    | apply inside_roomAuditLog | apply inside_post | apply inside_upload
    | apply inside_fetch
    | apply inside_segment; assumption
    | apply inside_finish; discriminate
    | apply inside_when | apply inside_unawaited
    | apply inside_bind; [|intros ?]
    | progress cbv zeta
    | case_match ].

Ltac inside_tac := repeat inside_step.

Lemma inside_canViewRoom u id : inside (canViewRoom u id).
Proof. unfold canViewRoom. inside_tac. Qed.

Lemma inside_requiresRoomPermission permission u id :
  inside (requiresRoomPermission permission u id).
Proof. unfold requiresRoomPermission. inside_tac. Qed.

Lemma inside_update_loop a u entries : forall target,
  inside (update_loop a u entries target).
Proof.
  induction entries as [|[key element] rest IH]; intros target;
    cbn [update_loop]; inside_tac; apply IH.
Qed.

Lemma try_catch_inside on_error h s :
  on_error <> OutsideModel -> inside h ->
  (try_catch on_error h s).2 <> OutsideModel.
Proof.
  intros He Hh. unfold try_catch. specialize (Hh s).
  destruct (h s) as [s' [a|r|]]; cbn in *; congruence.
Qed.

Lemma guarded_inside {C} (gate : M C) on_error h s :
  inside gate -> on_error <> OutsideModel -> (forall c, inside (h c)) ->
  (guarded gate on_error h s).2 <> OutsideModel.
Proof.
  intros Hg He Hh. unfold guarded. specialize (Hg s).
  destruct (gate s) as [s' [c|r|]]; cbn in *;
    [by apply try_catch_inside|congruence|done].
Qed.

Ltac handler_inside :=
  first
    [ apply guarded_inside;
      [ first [apply inside_requiresRoomPermission | apply inside_canViewRoom]
      | discriminate | intros ? ]
    | apply try_catch_inside; [discriminate|] ];
  inside_tac.

(** A request whose spliced names are single fields is answered by the
    handler itself. *)
Lemma serve_inside e q s : plainly q = true -> (serve e q s).2 <> OutsideModel.
Proof.
  unfold plainly.
  destruct q; cbn [serve spliced forallb]; rewrite ?andb_true_r;
    intros Hplain; unfold authenticateDeveloperToken;
    try (destruct (developer u); [|done]).
  all: try (unfold room_info, download, version_new, associate_data,
         set_public_version, set_room_tags, set_content_flags,
         moderation_suspend, moderation_terminate, set_room_description,
         my_permissions, report_room, create_room, role_update, role_delete,
         set_user_role, set_cover_image, verify_subroom_link, subroom_create,
         subroom_delete, subroom_set_max_players, set_home_subroom,
         upload_bundle, download_bundle; handler_inside;
         try apply inside_update_loop; done).
  unfold role_new. apply guarded_inside;
    [apply inside_requiresRoomPermission|discriminate|intros _].
  unfold get_opt in Hplain.
  destruct (get body "name") as [name|]; [|by intros s0].
  apply inside_attempt_Some.
  change (default JUndefined (Some name)) with name in Hplain.
  destruct name; cbn [forallb] in Hplain; rewrite ?andb_true_r in Hplain;
    inside_tac.
Qed.

Lemma run_followed requests : forall s,
  Forall (fun eq => plainly eq.2 = true) requests -> followed requests s.
Proof.
  unfold followed.
  induction requests as [|[e q] rest IH]; intros s Hf; [by split|].
  apply Forall_cons in Hf as [Hq Hf]. cbn [snd] in Hq.
  pose proof (serve_inside e q s Hq) as Hin. cbn [replies].
  destruct (serve e q s) as [s' r]. cbn [snd] in Hin.
  destruct (IH s' Hf) as [Hlen Hall].
  destruct r; try done; cbn [length]; (split; [by rewrite Hlen|]);
    by apply Forall_cons.
Qed.

(** ** C1: delegation of permissions in the role update *)
Section RoleUpdate.
Variables (e : env) (u : user) (id role_name : string) (body : jsval).
Variables (s : store) (r : Room) (mine : found (gmap string bool)).
Hypothesis Hroom : rooms s !! id = Some r.
Hypothesis Hmine :
  js_lookup (rolePermissions r) (role_of r (uid u)) = Some mine.

Let a : access := context_of u r.














End RoleUpdate.


(** The sample rooms are what the handlers store. *)
Example created_by_handler :
  (create_room world A (named "Test") nothing).2
  = Reply 200 operation_successful
  /\ rooms (create_room world A (named "Test") nothing).1 = rooms created.
Proof. split; reflexivity. Qed.

(** The exemption of the role [owner] in the loop compares the whole
    [userPermissions] object with the string, so it never applies. *)
Lemma owner_exemption_never_applies (m : gmap string string) :
  object_differs_from m "owner" = true.
Proof. reflexivity. Qed.

(** In [staffed], the creator [A] (role [owner]) cannot grant
    [manageSubrooms], a key the stored [owner] role does not list. *)
Example owner_refused_unlisted_key :
  (role_update world A "room-1" "helper"
     (permissions_of [("manageSubrooms", JBool true)]) staffed).2
  = Reply 400 (code_message "access_denied"
                 "You cannot manage permissions you don't have.").
Proof. reflexivity. Qed.



(** ** C2: deleting a role *)

(** The loop keeps an account only when the account id is the role name. *)
Lemma users_to_reset_namesake role_name up account :
  account ∈ users_to_reset role_name up -> account = role_name.
Proof. unfold users_to_reset. by intros [? _]%list_elem_of_filter. Qed.

Lemma reset_users_other users up account :
  account ∉ users -> reset_users users up !! account = up !! account.
Proof.
  induction users as [|k users IH]; intros Hk; [done|].
  cbn [reset_users foldr]. apply not_elem_of_cons in Hk as [Hne Hk].
  rewrite lookup_insert_ne by done. by apply IH.
Qed.

(** Whoever holds a role keeps it when the role is deleted, unless the
    account id happens to be the role name. *)
Lemma role_delete_keeps_assignments e u id role_name s r account :
  rooms s !! id = Some r -> account <> role_name ->
  forall r', rooms (role_delete e u id role_name s).1 !! id = Some r' ->
  userPermissions r' !! account = userPermissions r !! account.
Proof.
  intros Hr Hne r'. unfold role_delete, guarded.
  destruct (requiresRoomPermission _ u id s) as [s' [a| |]] eqn:G;
    apply requiresRoomPermission_inv in G as [-> G];
    [|cbn; intros; by simplify_eq..].
  destruct (G a eq_refl) as (Ha & _ & _). rewrite Hr in Ha. simplify_eq.
  unfold try_catch. munfold.
  destruct (reserved role_name); [cbn; intros; by simplify_eq|].
  rewrite Hr.
  destruct (plain role_name); [|cbn; intros; by simplify_eq].
  assert (forall x : store * reply,
    rooms x.1 = alter (fun r => set_userPermissions
                     (reset_users (users_to_reset role_name (userPermissions (room a))))
                     (set_rolePermissions (delete role_name) r)) id (rooms s) ->
    rooms x.1 !! id = Some r' ->
    userPermissions r' !! account = userPermissions (room a) !! account) as Hx.
  { intros x -> Hl. rewrite (alter_present _ _ _ _ Hr), lookup_insert_eq in Hl.
    simplify_eq. cbn. apply reset_users_other.
    intros Hin%users_to_reset_namesake. done. }
  destruct (audit_up e); apply Hx; reflexivity.
Qed.

(** C2 on the room of the specification's example, [userPermissions =
    {U1: builder}]: the deletion of [builder] is answered with success and
    writes one [role_deleted] event, the role is gone, and [U1] is still
    mapped to it; the next request of [U1] through a permission middleware
    is never answered. *)
Theorem role_delete_leaves_assignment :
  let out := role_delete world staff "room-1" "builder" cascade in
  userPermissions cascade_room !! "U1" = Some "builder"
  /\ out.2 = Reply 200 operation_successful
  /\ audit_types out.1 = [RoleDeleted]
  /\ (exists r',
        rooms out.1 !! "room-1" = Some r'
        /\ rolePermissions r' !! "builder" = None
        /\ userPermissions r' !! "U1" = Some "builder"
        /\ ~ no_dangling_role r')
  /\ (my_permissions U1 "room-1" out.1).2 = Hung.
Proof.
  cbv zeta. repeat (split; [reflexivity|]). split; [|reflexivity].
  eexists. split; [reflexivity|]. split; [reflexivity|].
  split; [reflexivity|].
  intros H. by destruct (H "U1" "builder" eq_refl).
Qed.

(** ** Routes behind [requiresRoomPermission] *)
Section Guarded.
Variables (permission : string) (u : user) (id : string) (s : store) (r : Room).
Variables (on_error : reply) (h : access -> M unit).
Hypothesis Hroom : rooms s !! id = Some r.

Lemma guarded_entered :
  permitted permission u r = true ->
  guarded (requiresRoomPermission permission u id) on_error h s
  = try_catch on_error (h (context_of u r)) s.
Proof.
  intros Hp. unfold guarded.
  by rewrite (requiresRoomPermission_pass _ _ _ _ _ Hroom Hp).
Qed.


End Guarded.


Ltac entered Hroom Hp :=
  match goal with
  | |- context [guarded (requiresRoomPermission ?p ?u ?id) ?err ?h ?s] =>
      rewrite (guarded_entered p u id s _ err h Hroom Hp);
      unfold try_catch; munfold; cbn [room context_of]
  end.

(** ** C3: the home subroom *)
Section HomeSubroom.
Variables (e : env) (u : user) (id : string) (s : store) (r : Room).
Hypothesis Hroom : rooms s !! id = Some r.



End HomeSubroom.



Example home_session_replies :
  reply_status <$> replies home_session created
  = [Some 400; Some 200; Some 200; Some 200].
Proof. reflexivity. Qed.



(** ** C4: creating a version *)

(** A request that passes the check on [spawn] has a body to read from. *)
Lemma valid_spawn_body body k :
  valid_spawn body = true -> is_Some (get body k).
Proof. destruct body; try done; by eexists. Qed.



(** Whenever the route answers with success, the call was as above. *)
Lemma version_new_success e u id subroom_id body s :
  success (version_new e u id subroom_id body s).2 = true ->
  exists r sr,
    rooms s !! id = Some r /\ permitted "createVersions" u r = true
    /\ subrooms r !! subroom_id = Some sr /\ plain subroom_id = true
    /\ valid_spawn body = true /\ isArray (get_opt body "collaborators") = true
    /\ audit_up e = true.
Proof.
  unfold version_new, guarded.
  destruct (requiresRoomPermission _ u id s) as [s' [a|x|]] eqn:G;
    [|cbn; by rewrite (requiresRoomPermission_return _ _ _ _ _ _ G)|done].
  apply requiresRoomPermission_inv in G as [-> G].
  destruct (G a eq_refl) as (Hr & Hp & _). clear G.
  unfold try_catch. munfold.
  destruct (get body "baseSceneIndex"); [|done].
  destruct (valid_spawn body); [|done].
  destruct (isArray _); [|done]. cbn. rewrite Hr. cbn.
  unfold has_key. destruct (subrooms (room a) !! subroom_id) as [sr|] eqn:Hsr;
    [|done]. cbn.
  destruct (plain subroom_id); [|done]. cbn.
  destruct (audit_up e); [|done]. intros _.
  by exists (room a), sr.
Qed.



(** ** C5: attaching data to a version *)


Section AssociateData.
Variables (u : user) (id subroom_id version_id : string).

(** A version that has its file refuses another one; nothing is written,
    neither to the room nor to the bucket. *)
Lemma associate_data_again e body s r sr n v :
  rooms s !! id = Some r ->
  permitted "createVersions" u r = true ->
  subrooms r !! subroom_id = Some sr ->
  parseInt version_id = Some (Z.of_nat n) ->
  versions sr !! n = Some v ->
  associated_file v = true ->
  associate_data e u id subroom_id version_id body s
  = (s, file_already_associated).
Proof.
  intros Hr Hp Hsr Hparse Hv Hfile. unfold associate_data.
  entered Hr Hp. rewrite Hparse, Hr, Hsr.
  apply lookup_lt_Some in Hv as Hlt.
  destruct (Z.of_nat (length (versions sr)) - 1 <? Z.of_nat n)%Z eqn:E;
    [apply Z.ltb_lt in E; lia|].
  destruct (Z.of_nat n <? 0)%Z eqn:E'; [apply Z.ltb_lt in E'; lia|].
  by rewrite Nat2Z.id, Hv, Hfile.
Qed.

(** What a successful call found and what it wrote. *)
Lemma associate_data_success e body s :
  success (associate_data e u id subroom_id version_id body s).2 = true ->
  exists r sr n v data,
    rooms s !! id = Some r /\ permitted "createVersions" u r = true
    /\ subrooms r !! subroom_id = Some sr
    /\ parseInt version_id = Some (Z.of_nat n)
    /\ versions sr !! n = Some v /\ associated_file v = false
    /\ Buffer_from e body = Some data
    /\ rooms (associate_data e u id subroom_id version_id body s).1
       = <[id := set_subrooms (alter (associate_at n) subroom_id) r]> (rooms s)
    /\ bucket (associate_data e u id subroom_id version_id body s).1
       = <[version_path id subroom_id n := data]> (bucket s).
Proof.
  unfold associate_data, guarded.
  destruct (requiresRoomPermission _ u id s) as [s' [a|x|]] eqn:G;
    [|cbn; by rewrite (requiresRoomPermission_return _ _ _ _ _ _ G)|done].
  apply requiresRoomPermission_inv in G as [-> G].
  destruct (G a eq_refl) as (Hr & Hp & _). clear G.
  unfold try_catch. munfold.
  destruct (parseInt version_id) as [z|] eqn:Hparse; [|done].
  rewrite Hr.
  destruct (subrooms (room a) !! subroom_id) as [sr|] eqn:Hsr; [|done].
  destruct (Z.of_nat (length (versions sr)) - 1 <? z)%Z; [done|].
  destruct (z <? 0)%Z eqn:Hneg; [done|]. apply Z.ltb_ge in Hneg.
  destruct (versions sr !! Z.to_nat z) as [v|] eqn:Hv; [|done].
  destruct (associated_file v) eqn:Hfile; [done|].
  destruct (Buffer_from e body) as [data|] eqn:Hdata; [|done].
  cbn [fst snd rooms with_rooms bucket].
  destruct (plain subroom_id); [|done]. intros _.
  exists (room a), sr, (Z.to_nat z), v, data.
  rewrite Z2Nat.id by done. repeat split; try done.
  cbn [fst snd rooms with_rooms bucket]. by apply alter_present.
Qed.

(** C5: a call on a version whose [associated_file] is set answers
    [file_already_associated] and writes nothing; in particular, after a
    call that succeeded, the same caller's next call on the same version
    fails that way, whatever it sends, and the stored payload stays. *)
Theorem associate_data_only_once :
  (forall e body s r sr n v,
     rooms s !! id = Some r ->
     permitted "createVersions" u r = true ->
     subrooms r !! subroom_id = Some sr ->
     parseInt version_id = Some (Z.of_nat n) ->
     versions sr !! n = Some v ->
     associated_file v = true ->
     associate_data e u id subroom_id version_id body s
     = (s, file_already_associated))
  /\ (forall e1 body1 s,
        let first := associate_data e1 u id subroom_id version_id body1 s in
        success first.2 = true ->
        forall e2 body2,
          let second :=
            associate_data e2 u id subroom_id version_id body2 first.1 in
          second.2 = file_already_associated
          /\ second.1 = first.1
          /\ bucket second.1 = bucket first.1).
Proof.
  split; [apply associate_data_again|].
  intros e1 body1 s first Hok e2 body2. subst first.
  destruct (associate_data_success _ _ _ Hok)
    as (r & sr & n & v & data & Hr & Hp & Hsr & Hparse & Hv & _ & _ & Hrooms & _).
  cbv zeta.
  rewrite (associate_data_again e2 body2 _
             (set_subrooms (alter (associate_at n) subroom_id) r)
             (associate_at n sr) n (mark_associated v)); try done.
  - by rewrite Hrooms, lookup_insert_eq.
  - cbn [set_subrooms subrooms]. by rewrite (alter_present _ _ _ _ Hsr), lookup_insert_eq.
  - cbn [associate_at versions]. rewrite list_lookup_alter_eq. by rewrite Hv.
Qed.

End AssociateData.

Lemma associate_data_only_once_witness :
  success (associate_data world A "room-1" "home" "0" (JStr "AAECAwQFBgcICQ==")
             created).2 = true
  /\ (associate_data world A "room-1" "home" "0" (JStr "AAAA")
        (associate_data world A "room-1" "home" "0" (JStr "AAECAwQFBgcICQ==")
           created).1).2
     = file_already_associated.
Proof.
  assert (success (associate_data world A "room-1" "home" "0"
                     (JStr "AAECAwQFBgcICQ==") created).2 = true) as H
    by reflexivity.
  split; [exact H|].
  destruct (associate_data_only_once A "room-1" "home" "0") as [_ Htwice].
  apply (Htwice world (JStr "AAECAwQFBgcICQ==") created H world (JStr "AAAA")).
Defined.

(** ** C6: the reserved roles *)




Section ReservedNames.
Variables (e : env) (u : user) (id : string) (s : store) (r : Room).
Variable name : string.
Hypothesis Hroom : rooms s !! id = Some r.
Hypothesis Hreserved : reserved name = true.



End ReservedNames.




Example role_session_replies :
  reply_status <$> replies role_session created
  = [Some 400; Some 200; Some 400; Some 200; Some 200].
Proof. reflexivity. Qed.


(** ** C7: permanent termination *)

Lemma room_info_missing viewer id s :
  rooms s !! id = None ->
  room_info viewer id s = (s, Reply 404 (message_only "room_not_found")).
Proof. intros H. unfold room_info, try_catch. munfold. by rewrite H. Qed.






(** ** C8: what a caller without the permission is told *)

(** C8 fails as stated: [GET /room/:room_id/info] is a view route, and it
    tells a caller who may not view the room [403 invalid_permissions],
    which is not what it answers for a room that does not exist. *)
Lemma info_denial_differs_from_missing :
  is_Some (rooms created !! "room-1")
  /\ rooms created !! "room-9" = None
  /\ (room_info (Some B) "room-1" created).2
     = Reply 403 (message_only "invalid_permissions")
  /\ (room_info (Some B) "room-9" created).2
     = Reply 404 (message_only "room_not_found")
  /\ (room_info (Some B) "room-1" created).2
     <> (room_info (Some B) "room-9" created).2.
Proof. repeat split; try reflexivity; [by eexists|done]. Qed.

Section Denials.
Variables (u : user) (id : string) (s : store) (r : Room).
Variable mine : found (gmap string bool).
Hypothesis Hroom : rooms s !! id = Some r.
Hypothesis Hmine :
  js_lookup (rolePermissions r) (role_of r (uid u)) = Some mine.
Hypothesis Hdeveloper : developer u = false.

(** Behind [canViewRoom], the refusal is the reply for a missing room. *)
Lemma canViewRoom_hides on_error (h : access -> M unit) :
  flag mine "viewAndJoin" = false ->
  guarded (canViewRoom u id) on_error h s
  = (s, Reply 404 not_found_unspecified).
Proof.
  intros Hflag. unfold guarded.
  by rewrite (canViewRoom_denied _ _ _ r mine).
Qed.

(** Behind [requiresRoomPermission], the refusal has the status and the
    code of the reply for a missing room, and a message of its own. *)
Lemma requiresRoomPermission_refuses permission on_error
  (h : access -> M unit) :
  flag mine permission = false -> role_of r (uid u) <> "owner" ->
  guarded (requiresRoomPermission permission u id) on_error h s
  = (s, Reply 404 (code_message "room_not_found" "Access denied.")).
Proof.
  intros Hflag Hrole. unfold guarded.
  by rewrite (requiresRoomPermission_denied _ _ _ _ r mine).
Qed.

(** [GET /room/:room_id/info] says [invalid_permissions]. *)
Lemma room_info_refuses :
  flag mine "viewAndJoin" = false -> uid u <> creator_id r ->
  room_info (Some u) id s = (s, Reply 403 (message_only "invalid_permissions")).
Proof.
  intros Hflag Hcreator%String.eqb_neq. unfold room_info, try_catch. munfold.
  by rewrite Hroom, Hmine, Hflag, Hcreator.
Qed.

End Denials.

Lemma guarded_missing_canViewRoom u id s on_error (h : access -> M unit) :
  rooms s !! id = None ->
  guarded (canViewRoom u id) on_error h s = (s, Reply 404 not_found_unspecified).
Proof. intros H. unfold guarded. by rewrite canViewRoom_missing. Qed.

Lemma guarded_missing permission u id s on_error (h : access -> M unit) :
  rooms s !! id = None ->
  guarded (requiresRoomPermission permission u id) on_error h s
  = (s, Reply 404 (code_message "room_not_found" "Room not found.")).
Proof. intros H. unfold guarded. by rewrite requiresRoomPermission_missing. Qed.

Lemma room_info_refuses_anonymous id s r everyone :
  rooms s !! id = Some r -> rolePermissions r !! "everyone" = Some everyone ->
  flag (Own everyone) "viewAndJoin" = false ->
  room_info None id s = (s, Reply 403 (message_only "invalid_permissions")).
Proof.
  intros Hr He Hflag. unfold room_info, try_catch. munfold.
  rewrite Hr. unfold js_lookup. rewrite He. cbn in Hflag |- *. by rewrite Hflag.
Qed.

(** C8, as the router has it.  A caller who is refused by [canViewRoom]
    gets, from every route behind it, the very reply a caller gets for a
    room that does not exist.  A caller who is refused by
    [requiresRoomPermission] gets, from every route behind it, status 404
    and code [room_not_found] like for a room that does not exist, with the
    message [Access denied.] in place of [Room not found.].
    [GET /room/:room_id/info] answers a refused caller
    [403 invalid_permissions] and a missing room [404 room_not_found]. *)
Theorem denial_replies u id s r mine :
  rooms s !! id = Some r ->
  js_lookup (rolePermissions r) (role_of r (uid u)) = Some mine ->
  developer u = false ->
  forall u' id' s', rooms s' !! id' = None ->
  (flag mine "viewAndJoin" = false ->
   forall on_error (h : access -> M unit),
     (guarded (canViewRoom u id) on_error h s).2
     = (guarded (canViewRoom u' id') on_error h s').2
     /\ (guarded (canViewRoom u id) on_error h s).1 = s)
  /\ (forall permission,
        flag mine permission = false -> role_of r (uid u) <> "owner" ->
        forall on_error (h : access -> M unit),
          guarded (requiresRoomPermission permission u id) on_error h s
          = (s, Reply 404 (code_message "room_not_found" "Access denied."))
          /\ guarded (requiresRoomPermission permission u' id') on_error h s'
             = (s', Reply 404 (code_message "room_not_found" "Room not found.")))
  /\ (flag mine "viewAndJoin" = false -> uid u <> creator_id r ->
      (room_info (Some u) id s).2 = Reply 403 (message_only "invalid_permissions")
      /\ (room_info (Some u') id' s').2
         = Reply 404 (message_only "room_not_found")).
Proof.
  intros Hr Hmine Hdev u' id' s' Hmissing. split; [|split].
  - intros Hflag on_error h.
    rewrite (canViewRoom_hides _ _ _ r mine), guarded_missing_canViewRoom;
      done.
  - intros permission Hflag Hrole on_error h.
    by rewrite (requiresRoomPermission_refuses _ _ _ r mine), guarded_missing.
  - intros Hflag Hcreator.
    by rewrite (room_info_refuses _ _ _ r mine), room_info_missing.
Qed.

Lemma denial_replies_witness :
  rooms staffed !! "room-1" = Some staffed_room
  /\ js_lookup (rolePermissions staffed_room) (role_of staffed_room (uid B))
     = Some (Own builder_permissions)
  /\ rooms staffed !! "room-9" = None
  /\ (my_permissions B "room-1" staffed).2 = (my_permissions B "room-9" staffed).2
  /\ (download_bundle B "room-1" staffed).2
     = Reply 404 (code_message "room_not_found" "Access denied.").
Proof.
  assert (rooms staffed !! "room-1" = Some staffed_room) as H1 by reflexivity.
  assert (js_lookup (rolePermissions staffed_room)
            (role_of staffed_room (uid B))
          = Some (Own builder_permissions)) as H2 by reflexivity.
  assert (rooms staffed !! "room-9" = None) as H3 by reflexivity.
  repeat (split; [assumption|]).
  destruct (denial_replies B "room-1" staffed staffed_room
              (Own builder_permissions) H1 H2 eq_refl B "room-9" staffed H3)
    as (Hview & Hgate & _).
  split.
  - apply Hview. reflexivity.
  - unfold download_bundle.
    by destruct (Hgate "viewAndJoin" eq_refl ltac:(done) Hung
                   (fun _ : access => respond 501 not_implemented)) as [-> _].
Defined.

(** ** C9: when the audit collection refuses a write *)




Ltac spoil_gate :=
  unfold guarded;
  lazymatch goal with
  | |- context [requiresRoomPermission ?p ?u ?id ?s] =>
      let G := fresh "G" in
      let a := fresh "a" in
      let x := fresh "x" in
      destruct (requiresRoomPermission p u id s) as [? [a|x|]] eqn:G;
      [ apply requiresRoomPermission_inv in G as [-> G];
        destruct (G a eq_refl) as (Hroom & _ & _); clear G
      | cbn [fst snd];
        by rewrite (requiresRoomPermission_return _ _ _ _ _ _ G)
      | done ]
  end.

Ltac spoil_body :=
  unfold try_catch; munfold;
  cbn [audit_up uuid now Buffer_from with_audit fst snd];
  repeat (case_match; simplify_eq;
          cbn [fst snd rooms with_rooms success reply_status]; try done).


Section Spoiled.
Variables (e : env) (s : store).

Lemma version_new_spoiled u id subroom_id body :
  spoiled (PutVersion u id subroom_id body) e s.
Proof. unfold spoiled, serve, version_new. spoil_gate. spoil_body. Qed.

Lemma set_public_version_spoiled u id subroom_id body :
  spoiled (PostPublicVersion u id subroom_id body) e s.
Proof. unfold spoiled, serve, set_public_version. spoil_gate. spoil_body. Qed.

Lemma set_room_description_spoiled u id body :
  spoiled (PostDescription u id body) e s.
Proof. unfold spoiled, serve, set_room_description. spoil_gate. spoil_body. Qed.

Lemma create_room_spoiled u body : spoiled (PostNew u body) e s.
Proof. unfold spoiled, serve, create_room. spoil_body. Qed.

Lemma role_new_spoiled u id body : spoiled (PutRole u id body) e s.
Proof. unfold spoiled, serve, role_new. spoil_gate. spoil_body. Qed.

Lemma role_update_spoiled u id role_name body :
  spoiled (PostRoleUpdate u id role_name body) e s.
Proof.
  unfold spoiled, serve, role_update. spoil_gate.
  unfold try_catch. munfold. cbn [audit_up with_audit fst snd].
  destruct (includes role_name "__proto__"); [done|].
  destruct (get body "permissions") as [permissions|]; [|done].
  destruct (String.eqb role_name "owner"); [done|].
  rewrite Hroom.
  destruct (js_lookup _ role_name) as [target|]; [|done].
  pose proof (update_loop_store a u (own_entries permissions) target s) as L.
  destruct (update_loop _ _ _ _ s) as [s' [edited|x|]] eqn:Hloop; cbn in L;
    subst s'; cbn [fst snd rooms with_rooms success reply_status]; try done.
  by rewrite (update_loop_never_succeeds _ _ _ _ _ _ _ Hloop).
Qed.

Lemma role_delete_spoiled u id role_name :
  spoiled (PostRoleDelete u id role_name) e s.
Proof. unfold spoiled, serve, role_delete. spoil_gate. spoil_body. Qed.

Lemma set_user_role_spoiled u id user_id role_name :
  spoiled (PostSetRole u id user_id role_name) e s.
Proof. unfold spoiled, serve, set_user_role. spoil_gate. spoil_body. Qed.

Lemma subroom_create_spoiled u id name body :
  spoiled (PostSubroomCreate u id name body) e s.
Proof. unfold spoiled, serve, subroom_create. spoil_gate. spoil_body. Qed.

Lemma subroom_delete_spoiled u id name :
  spoiled (PostSubroomDelete u id name) e s.
Proof. unfold spoiled, serve, subroom_delete. spoil_gate. spoil_body. Qed.

Lemma subroom_set_max_players_spoiled u id name count :
  spoiled (PostSetMaxPlayers u id name count) e s.
Proof.
  unfold spoiled, serve, subroom_set_max_players. spoil_gate. spoil_body.
Qed.

Lemma set_home_subroom_spoiled u id name :
  spoiled (PostSetHomeSubroom u id name) e s.
Proof. unfold spoiled, serve, set_home_subroom. spoil_gate. spoil_body. Qed.

End Spoiled.

Lemma awaited_audit_spoils e s q : awaits_audit q = true -> spoiled q e s.
Proof.
  destruct q; try done; intros _;
    eauto using version_new_spoiled, set_public_version_spoiled,
      set_room_description_spoiled, create_room_spoiled, role_new_spoiled,
      role_update_spoiled, role_delete_spoiled, set_user_role_spoiled,
      subroom_create_spoiled, subroom_delete_spoiled,
      subroom_set_max_players_spoiled, set_home_subroom_spoiled.
Qed.

(** [content_flags] writes its audit record first: when that fails, the
    flags are not written at all. *)
Lemma set_content_flags_spoiled e s u id body :
  success (set_content_flags (with_audit true e) u id body s).2 = true ->
  reply_status (set_content_flags (with_audit false e) u id body s).2
  = Some 500
  /\ rooms (set_content_flags (with_audit false e) u id body s).1 = rooms s.
Proof. unfold set_content_flags. spoil_gate. spoil_body. Qed.

(** The two moderation routes do not wait for the audit write. *)
Lemma moderation_suspend_unaffected e e' u id body s :
  (moderation_suspend e u id body s).2 = (moderation_suspend e' u id body s).2
  /\ rooms (moderation_suspend e u id body s).1
     = rooms (moderation_suspend e' u id body s).1.
Proof.
  unfold moderation_suspend, try_catch. munfold.
  destruct (get body "note") as [note|]; [|done].
  destruct (bad_note note); [done|].
  destruct (rooms s !! id); [|done].
  by destruct (audit_up e), (audit_up e').
Qed.

Lemma moderation_terminate_unaffected e e' u id permanent body s :
  (moderation_terminate e u id permanent body s).2
  = (moderation_terminate e' u id permanent body s).2
  /\ rooms (moderation_terminate e u id permanent body s).1
     = rooms (moderation_terminate e' u id permanent body s).1.
Proof.
  unfold moderation_terminate, try_catch. munfold.
  destruct (get body "note") as [note|]; [|done].
  destruct (bad_note note); [done|].
  destruct (rooms s !! id); [|done].
  by destruct (bool_decide _), (audit_up e), (audit_up e').
Qed.

(** C9 fails as stated: with the audit collection down, [versions/new]
    appends the version and then answers 500. *)
Lemma audit_failure_fails_version_new :
  (version_new world A "room-1" "home" sample_metadata created).2
  = Reply 200 (version_created 1)
  /\ audit_up audit_down = false
  /\ reply_status
       (version_new audit_down A "room-1" "home" sample_metadata created).2
     = Some 500
  /\ (rooms (version_new audit_down A "room-1" "home" sample_metadata
               created).1 !! "room-1"
        ≫= fun r => subrooms r !! "home")
     = Some (push_version (decoupled_metadata A sample_metadata)
               (initial_subroom "A")).
Proof. repeat split; reflexivity. Qed.

(** C9, as the handlers have it.  Every route that awaits the audit write
    after its write to [rooms] turns a request that would have succeeded
    into a 500 when the audit write fails, with the room written all the
    same; [content_flags], which writes the audit record first, then
    answers 500 and leaves the room as it was; only the two moderation
    routes, which do not await the audit write, answer and write the same
    whether it fails or not. *)
Theorem audit_write_outcome (e : env) (s : store) :
  (forall q,
     awaits_audit q = true ->
     success (serve (with_audit true e) q s).2 = true ->
     reply_status (serve (with_audit false e) q s).2 = Some 500
     /\ rooms (serve (with_audit false e) q s).1
        = rooms (serve (with_audit true e) q s).1)
  /\ (forall u id body,
        success (set_content_flags (with_audit true e) u id body s).2 = true ->
        reply_status (set_content_flags (with_audit false e) u id body s).2
        = Some 500
        /\ rooms (set_content_flags (with_audit false e) u id body s).1
           = rooms s)
  /\ (forall e' u id body,
        (moderation_suspend e u id body s).2
        = (moderation_suspend e' u id body s).2
        /\ rooms (moderation_suspend e u id body s).1
           = rooms (moderation_suspend e' u id body s).1)
  /\ (forall e' u id permanent body,
        (moderation_terminate e u id permanent body s).2
        = (moderation_terminate e' u id permanent body s).2
        /\ rooms (moderation_terminate e u id permanent body s).1
           = rooms (moderation_terminate e' u id permanent body s).1).
Proof.
  split; [|split; [|split]].
  - intros q Hq. by apply awaited_audit_spoils.
  - apply set_content_flags_spoiled.
  - intros. apply moderation_suspend_unaffected.
  - intros. apply moderation_terminate_unaffected.
Qed.

Lemma audit_write_outcome_witness :
  success (serve (with_audit true world)
             (PostSetHomeSubroom A "room-1" "home") created).2 = true
  /\ reply_status (serve (with_audit false world)
                     (PostSetHomeSubroom A "room-1" "home") created).2
     = Some 500
  /\ (moderation_suspend world staff "room-1" (JObj []) created).2
     = (moderation_suspend audit_down staff "room-1" (JObj []) created).2.
Proof.
  destruct (audit_write_outcome world created) as (Hawait & _ & Hsuspend & _).
  assert (success (serve (with_audit true world)
                     (PostSetHomeSubroom A "room-1" "home") created).2 = true)
    as H by reflexivity.
  split; [exact H|]. split.
  - by apply (Hawait (PostSetHomeSubroom A "room-1" "home") eq_refl H).
  - apply Hsuspend.
Defined.

(** ** C10: the public version pointer *)


(** C10: when the [id] of the body is a string that [parseInt] reads as NaN
    or as a negative number, the range check of [versions/public] does not
    fire; for a caller the gate lets in, on an existing subroom, the route
    answers with success and the subroom's [publicVersionId] is from then on
    the string of the request itself, its versions being as they were; the
    string selects no element of [versions]: a download of [latest] then
    finds nothing to fetch. *)
Theorem set_public_version_unchecked e u id subroom_id body raw s r sr :
  rooms s !! id = Some r ->
  permitted "setPublicVersion" u r = true ->
  subrooms r !! subroom_id = Some sr ->
  plain subroom_id = true ->
  audit_up e = true ->
  get body "id" = Some (JStr raw) ->
  parseInt raw = None \/ (exists z, parseInt raw = Some z /\ (z < 0)%Z) ->
  let out := set_public_version e u id subroom_id body s in
  le_num (Z.of_nat (length (versions sr))) (parseInt raw) = false
  /\ out.2 = Reply 200 (code_message "success" "Operation successful")
  /\ rooms out.1 !! id
     = Some (set_subrooms
               (<[subroom_id := set_publicVersionId (JStr raw) sr]>) r)
  /\ (exists r' sr',
        rooms out.1 !! id = Some r' /\ subrooms r' !! subroom_id = Some sr'
        /\ publicVersionId sr' = JStr raw
        /\ versions sr' = versions sr /\ maxPlayers sr' = maxPlayers sr
        /\ forall other, other <> subroom_id ->
             subrooms r' !! other = subrooms r !! other)
  /\ array_index (length (versions sr)) (JStr raw) = None
  /\ forall viewer,
       (download viewer id subroom_id "latest" out.1).2 = nothing_to_fetch.
Proof.
  intros Hr Hp Hsr Hplain Haudit Hbody Hraw. cbv zeta.
  assert (le_num (Z.of_nat (length (versions sr))) (parseInt raw) = false)
    as Hguard.
  { destruct Hraw as [->|(z & -> & Hz)]; [done|]. cbn [le_num].
    apply Z.leb_gt. lia. }
  assert (array_index (length (versions sr)) (JStr raw) = None) as Hindex
    by by apply array_index_unparsed.
  split; [done|]. unfold set_public_version. entered Hr Hp.
  rewrite Hbody, Hr, Hsr, Hguard, Hplain, Haudit.
  cbn [fst snd rooms with_rooms].
  assert (alter (set_subrooms (alter (set_publicVersionId (JStr raw)) subroom_id))
            id (rooms s) !! id
          = Some (set_subrooms
                    (<[subroom_id := set_publicVersionId (JStr raw) sr]>) r))
    as Hstored.
  { rewrite (alter_present _ _ _ _ Hr), lookup_insert_eq.
    unfold set_subrooms. by rewrite (alter_present _ _ _ _ Hsr). }
  split; [done|]. split; [done|]. split.
  { eexists _, _. split; [exact Hstored|].
    cbn [subrooms set_subrooms]. rewrite lookup_insert_eq.
    split; [done|]. split; [done|]. split; [done|]. split; [done|].
    intros other Hother. by rewrite lookup_insert_ne. }
  split; [done|].
  intros viewer. unfold download, try_catch. munfold.
  cbn [fst snd rooms with_rooms]. rewrite Hstored.
  cbn [subrooms set_subrooms]. rewrite lookup_insert_eq.
  cbn [publicVersionId versions set_publicVersionId].
  change (String.eqb "latest" "latest") with true. cbn iota.
  by rewrite Hindex.
Qed.

Lemma set_public_version_unchecked_witness :
  parseInt "latest" = None
  /\ parseInt "-1" = Some (-1)%Z
  /\ (set_public_version world A "room-1" "home" (JObj [("id", JStr "latest")])
        created).2
     = Reply 200 (code_message "success" "Operation successful")
  /\ (exists r' sr',
        rooms (set_public_version world A "room-1" "home"
                 (JObj [("id", JStr "latest")]) created).1 !! "room-1"
        = Some r'
        /\ subrooms r' !! "home" = Some sr'
        /\ publicVersionId sr' = JStr "latest")
  /\ (download B "room-1" "home" "latest"
        (set_public_version world A "room-1" "home" (JObj [("id", JStr "-1")])
           created).1).2
     = nothing_to_fetch.
Proof.
  split; [reflexivity|]. split; [reflexivity|].
  destruct (set_public_version_unchecked world A "room-1" "home"
              (JObj [("id", JStr "latest")]) "latest" created test_room
              (initial_subroom "A") eq_refl eq_refl eq_refl eq_refl eq_refl
              eq_refl (or_introl eq_refl))
    as (_ & Hreply & _ & (r' & sr' & Hr' & Hsr' & Hid & _) & _).
  split; [exact Hreply|]. split; [by exists r', sr'|].
  apply (set_public_version_unchecked world A "room-1" "home"
           (JObj [("id", JStr "-1")]) "-1" created test_room
           (initial_subroom "A")); try reflexivity.
  right. exists (-1)%Z. split; [reflexivity|lia].
Defined.

(** * The router as a whole, and the helpers *)

Import Effects Kept Files Checks Reads Scenes.

(** ** Everything one request does *)

(** The loop of the role update turns an own role object into an own role
    object. *)
Lemma update_loop_own a u entries : forall target s s' p,
  update_loop a u entries target s = (s', Next (Own p)) ->
  exists p0, target = Own p0.
Proof.
  induction entries as [|[k v] rest IH]; intros target s s' p.
  - cbn [update_loop]. munfold. intros [= _ ->]. by eexists.
  - cbn [update_loop]. munfold.
    destruct (userRoomPermissions a); [|done].
    destruct (negb _ && _ && _); [done|].
    destruct (includes k "__proto__"); [done|].
    destruct v; try done. intros H. apply IH in H as [p0 H].
    destruct target; [by eexists|done].
Qed.

Lemma js_lookup_own {A} (m : gmap string A) (k : string) (a : A) :
  js_lookup m k = Some (Own a) -> m !! k = Some a.
Proof.
  unfold js_lookup. destruct (m !! k); [congruence|].
  by destruct (inherited k).
Qed.

Lemma canViewRoom_return u id s s' x :
  canViewRoom u id s = (s', Return x) -> success x = false.
Proof.
  unfold canViewRoom. munfold.
  destruct (rooms s !! id); [|by intros [= <- <-]].
  destruct (js_lookup _ _); [|done]. cbn.
  destruct (negb _); by intros [= <- <-].
Qed.

(** A request that leaves the store as it was and does not succeed. *)
Lemma outcome_quiet e q s r :
  (waits_for_audit q = true -> success r = false) -> outcome e q s (s, r).
Proof.
  intros H. split; [|split]; [| |done].
  - exists None. split; [constructor|]. by left.
  - by left.
Qed.

Ltac committed_side :=
  first
    [ done
    | by apply String.eqb_neq
    | by apply has_key_true
    | by (apply has_key_true; apply negb_false_iff)
    | by apply has_key_false
    | by (intros ?; constructor) ].

Ltac committed_tac :=
  first
    [ apply committed_nothing
    | apply committed_delete
    | erewrite alter_present by eassumption;
      eapply committed_update; [eassumption|];
      first [ by econstructor | econstructor; committed_side ] ].

Ltac filed_tac :=
  cbn [filed filing_of fmap option_fmap option_map fst snd bucket];
  first
    [ by left
    | by eexists _, _, _, _
    | by (right; split; [reflexivity|eexists _, _]) ].

Ltac audited_tac :=
  cbn [fst snd room_audit];
  first
    [ by (left; split)
    | right; eexists _, _; split; [reflexivity|];
      apply and_comm; split; [reflexivity|];
      cbn [recorded type event];
      first
        [ reflexivity
        | match goal with
          | H : bool_decide _ = _ |- _ => by rewrite H
          end ] ].

Ltac walk :=
  cbn [fst snd rooms room_audit bucket images with_rooms].

Ltac outcome_tac :=
  unfold outcome, audited; walk; split; [|split];
  [ eexists; split; [committed_tac|filed_tac]
  | audited_tac
  | reflexivity ].

Ltac outcome_body :=
  munfold; walk; try solve [outcome_tac];
  repeat (case_match; simplify_eq; walk; try solve [outcome_tac]).

Ltac outcome_gate :=
  unfold guarded;
  lazymatch goal with
  | |- context [requiresRoomPermission ?p ?u ?id ?s] =>
      let G := fresh "G" in
      let a := fresh "a" in
      destruct (requiresRoomPermission p u id s) as [? [a|?|]] eqn:G;
      [ apply requiresRoomPermission_inv in G as [-> G];
        destruct (G a eq_refl) as (Hroom & Hpermitted & Hcontext); clear G
      | pose proof (requiresRoomPermission_return _ _ _ _ _ _ G);
        apply requiresRoomPermission_inv in G as [-> _];
        by apply outcome_quiet
      | apply requiresRoomPermission_inv in G as [-> _];
        by apply outcome_quiet ]
  | |- context [canViewRoom ?u ?id ?s] =>
      let G := fresh "G" in
      let a := fresh "a" in
      destruct (canViewRoom u id s) as [? [a|?|]] eqn:G;
      [ apply canViewRoom_inv in G as [-> G];
        destruct (G a eq_refl) as (Hroom & Hview); clear G
      | pose proof (canViewRoom_return _ _ _ _ _ G);
        apply canViewRoom_inv in G as [-> _];
        by apply outcome_quiet
      | apply canViewRoom_inv in G as [-> _];
        by apply outcome_quiet ]
  end.

Section OneOutcome.
Variables (e : env) (s : store).

Lemma room_info_outcome u room_id :
  outcome e (GetInfo u room_id) s (room_info u room_id s).
Proof. unfold room_info. outcome_body. Qed.

Lemma download_outcome u room_id subroom_id version_id :
  outcome e (GetDownload u room_id subroom_id version_id) s
    (download u room_id subroom_id version_id s).
Proof. unfold download. outcome_body. Qed.

Lemma version_new_outcome u id subroom_id body :
  outcome e (PutVersion u id subroom_id body) s
    (version_new e u id subroom_id body s).
Proof. unfold version_new. outcome_gate. outcome_body. Qed.

Lemma associate_data_outcome u id subroom_id version_id body :
  outcome e (PostAssociateData u id subroom_id version_id body) s
    (associate_data e u id subroom_id version_id body s).
Proof. unfold associate_data. outcome_gate. outcome_body. Qed.

Lemma set_public_version_outcome u id subroom_id body :
  outcome e (PostPublicVersion u id subroom_id body) s
    (set_public_version e u id subroom_id body s).
Proof. unfold set_public_version. outcome_gate. outcome_body. Qed.

Lemma set_room_tags_outcome u id body :
  outcome e (PostTags u id body) s (set_room_tags u id body s).
Proof. unfold set_room_tags. outcome_gate. outcome_body. Qed.

Lemma set_content_flags_outcome u id body :
  outcome e (PostContentFlags u id body) s (set_content_flags e u id body s).
Proof. unfold set_content_flags. outcome_gate. outcome_body. Qed.

Lemma moderation_suspend_outcome u id body :
  outcome e (PostSuspend u id body) s (moderation_suspend e u id body s).
Proof. unfold moderation_suspend. outcome_body. Qed.

Lemma moderation_terminate_outcome u id permanent body :
  outcome e (PostTerminate u id permanent body) s
    (moderation_terminate e u id permanent body s).
Proof. unfold moderation_terminate. outcome_body. Qed.

Lemma set_room_description_outcome u id body :
  outcome e (PostDescription u id body) s (set_room_description e u id body s).
Proof. unfold set_room_description. outcome_gate. outcome_body. Qed.

Lemma my_permissions_outcome u id :
  outcome e (GetMyPermissions u id) s (my_permissions u id s).
Proof. unfold my_permissions. outcome_gate. outcome_body. Qed.

End OneOutcome.

Section MoreOutcomes.
Variables (e : env) (s : store).

Lemma report_room_outcome u id body :
  outcome e (PostReport u id body) s (report_room e u id body s).
Proof.
  unfold report_room. munfold. walk.
  destruct (get body "reason") as [[]|]; try by apply outcome_quiet.
  destruct (get_opt body "illegal_content"); try by apply outcome_quiet.
  destruct (get_opt body "danger_of_harm"); try by apply outcome_quiet.
  walk.
  destruct (rooms s !! id) as [r|] eqn:Hr.
  - rewrite (alter_present _ _ _ _ Hr), lookup_insert_eq.
    unfold outcome, audited. walk. rewrite (alter_present _ _ _ _ Hr).
    split; [|split]; [|by left|done].
    exists (filing_of id None). split; [|by left].
    eapply committed_update; [done|constructor].
  - match goal with
    | |- context [alter ?f id (rooms s)] =>
        assert (alter f id (rooms s) = rooms s) as E
    end.
    { apply map_eq. intros j. rewrite lookup_alter.
      case_decide; subst; by rewrite ?Hr. }
    rewrite E, Hr. unfold outcome, audited. walk. rewrite E.
    split; [|split]; [|by left|done].
    exists None. split; [constructor|by left].
Qed.

Lemma create_room_outcome u body :
  outcome e (PostNew u body) s (create_room e u body s).
Proof.
  unfold create_room. outcome_body.
  all: unfold outcome, audited; walk; split; [|split];
    [ exists None; split; [by eapply committed_insert|by left]
    | audited_tac
    | reflexivity ].
Qed.

Lemma role_new_outcome u id body :
  outcome e (PutRole u id body) s (role_new e u id body s).
Proof. unfold role_new. outcome_gate. outcome_body. Qed.

Lemma role_update_outcome u id role_name body :
  outcome e (PostRoleUpdate u id role_name body) s
    (role_update e u id role_name body s).
Proof.
  unfold role_update. outcome_gate. munfold. walk.
  destruct (includes role_name "__proto__") eqn:Hproto;
    [by apply outcome_quiet|].
  destruct (get body "permissions") as [permissions|];
    [|by apply outcome_quiet].
  destruct (String.eqb role_name "owner") eqn:Howner;
    [by apply outcome_quiet|].
  rewrite Hroom.
  destruct (js_lookup _ role_name) as [target|] eqn:Htarget;
    [|by apply outcome_quiet].
  pose proof (update_loop_store a u (own_entries permissions) target s) as L.
  destruct (update_loop _ _ _ _ s) as [s' [edited|x|]] eqn:Hloop;
    cbn in L; subst s'.
  2: { apply outcome_quiet. intros _. by eapply update_loop_never_succeeds. }
  2: by apply outcome_quiet.
  outcome_body.
  all: unfold outcome, audited; walk; split; [|split];
    [ eexists; split;
      [ erewrite alter_present by eassumption;
        eapply committed_update; [eassumption|];
        first
          [ apply revision_role_untouched
          | apply revision_role_update; [by apply String.eqb_neq|];
            apply update_loop_own in Hloop as [p0 ->];
            apply js_lookup_own in Htarget; by rewrite Htarget ]
      | filed_tac ]
    | audited_tac
    | reflexivity ].
Qed.

Lemma role_delete_outcome u id role_name :
  outcome e (PostRoleDelete u id role_name) s (role_delete e u id role_name s).
Proof. unfold role_delete. outcome_gate. outcome_body. Qed.

Lemma set_user_role_outcome u id user_id role_name :
  outcome e (PostSetRole u id user_id role_name) s
    (set_user_role e u id user_id role_name s).
Proof.
  unfold set_user_role. outcome_gate. outcome_body.
  all: unfold outcome, audited; walk; split; [|split];
    [ eexists; split;
      [ erewrite alter_present by eassumption;
        eapply committed_update; [eassumption|];
        match goal with
        | H : (?role =? "everyone")%string = _ |- _ =>
            pose proof (revision_user_role (room a) user_id role) as R;
            rewrite H in R; apply R
        end;
        first
          [ by apply String.eqb_neq
          | intros Hup; unfold js_lookup in *; rewrite Hup in *;
            simplify_eq/=; done ]
      | filed_tac ]
    | audited_tac
    | reflexivity ].
Qed.

Lemma set_cover_image_outcome u id image_id :
  outcome e (PostCoverImage u id image_id) s (set_cover_image u id image_id s).
Proof. unfold set_cover_image. outcome_gate. outcome_body. Qed.

Lemma verify_subroom_link_outcome u id to :
  outcome e (GetVerifySubroomLink u id to) s (verify_subroom_link u id to s).
Proof. unfold verify_subroom_link. outcome_gate. outcome_body. Qed.

Lemma subroom_create_outcome u id name body :
  outcome e (PostSubroomCreate u id name body) s
    (subroom_create e u id name body s).
Proof. unfold subroom_create. outcome_gate. outcome_body. Qed.

Lemma subroom_delete_outcome u id name :
  outcome e (PostSubroomDelete u id name) s (subroom_delete e u id name s).
Proof. unfold subroom_delete. outcome_gate. outcome_body. Qed.

Lemma subroom_set_max_players_outcome u id name count :
  outcome e (PostSetMaxPlayers u id name count) s
    (subroom_set_max_players e u id name count s).
Proof. unfold subroom_set_max_players. outcome_gate. outcome_body. Qed.

Lemma set_home_subroom_outcome u id name :
  outcome e (PostSetHomeSubroom u id name) s (set_home_subroom e u id name s).
Proof. unfold set_home_subroom. outcome_gate. outcome_body. Qed.

Lemma upload_bundle_outcome u id :
  outcome e (PutUploadBundle u id) s (upload_bundle u id s).
Proof. unfold upload_bundle. outcome_gate. outcome_body. Qed.

Lemma download_bundle_outcome u id :
  outcome e (GetDownloadBundle u id) s (download_bundle u id s).
Proof. unfold download_bundle. outcome_gate. outcome_body. Qed.

End MoreOutcomes.

(** Every request, seen from the four collections. *)
Lemma serve_outcome e q s : outcome e q s (serve e q s).
Proof.
  destruct q; cbn [serve]; unfold authenticateDeveloperToken;
    try (destruct (developer u); [|by apply outcome_quiet]);
    auto using room_info_outcome, download_outcome, version_new_outcome,
      associate_data_outcome, set_public_version_outcome,
      set_room_tags_outcome, set_content_flags_outcome,
      moderation_suspend_outcome, moderation_terminate_outcome,
      set_room_description_outcome, my_permissions_outcome,
      report_room_outcome, create_room_outcome, role_new_outcome,
      role_update_outcome, role_delete_outcome, set_user_role_outcome,
      set_cover_image_outcome, verify_subroom_link_outcome,
      subroom_create_outcome, subroom_delete_outcome,
      subroom_set_max_players_outcome, set_home_subroom_outcome,
      upload_bundle_outcome, download_bundle_outcome.
Qed.

Lemma serve_committed e q s :
  exists filing, committed (minted e q) (rooms s) filing (rooms (serve e q s).1).
Proof.
  destruct (serve_outcome e q s) as ((filing & H & _) & _). eauto.
Qed.

(** ** Invariants that need the checks of the handlers *)
Section Committed.
Variable P : Room -> Prop.
Hypothesis P_revision : forall r mark r', revision r mark r' -> P r -> P r'.
Hypothesis P_new : forall e u name, P (new_room e u name).

Lemma committed_invariant fresh m filing m' :
  committed fresh m filing m' ->
  map_Forall (fun _ => P) m -> map_Forall (fun _ => P) m'.
Proof.
  intros [|id r r' mark Hr Hc|id|id e u name _ Hid _] Hm.
  - done.
  - apply map_Forall_insert_2; [|done].
    eapply P_revision; [done|]. by eapply Hm.
  - by apply map_Forall_delete.
  - apply map_Forall_insert_2; [apply P_new|done].
Qed.

Lemma run_checked_invariant requests : forall s,
  map_Forall (fun _ => P) (rooms s) ->
  map_Forall (fun _ => P) (rooms (run requests s)).
Proof.
  induction requests as [|[e q] rest IH]; intros s Hs; [done|].
  cbn [run]. destruct (serve_committed e q s) as [filing Hc].
  pose proof (committed_invariant _ _ _ _ Hc Hs) as H.
  destruct (serve e q s) as [s' []]; cbn in H; auto.
Qed.

End Committed.

(** ** What a room keeps as long as it is stored *)
Section Across.
Variable R : Room -> Room -> Prop.
Hypothesis R_refl : forall r, R r r.
Hypothesis R_trans : forall a b c, R a b -> R b c -> R a c.
Hypothesis R_revision : forall r mark r', revision r mark r' -> R r r'.

Lemma committed_related fresh m filing m' id r r' :
  committed fresh m filing m' ->
  m !! id = Some r -> m' !! id = Some r' -> R r r'.
Proof.
  intros [|id' r0 r1 mark Hr Hc|id'|id' e u name _ Hid _] Hm Hm'.
  - rewrite Hm in Hm'. by simplify_eq.
  - destruct (decide (id' = id)) as [->|Hne].
    + rewrite lookup_insert_eq in Hm'. simplify_eq. by eapply R_revision.
    + rewrite lookup_insert_ne in Hm' by done. rewrite Hm in Hm'.
      by simplify_eq.
  - rewrite lookup_delete in Hm'. case_decide; [done|].
    rewrite Hm in Hm'. by simplify_eq.
  - destruct (decide (id' = id)) as [->|Hne]; [by rewrite Hm in Hid|].
    rewrite lookup_insert_ne in Hm' by done. rewrite Hm in Hm'.
    by simplify_eq.
Qed.

Lemma run_related id requests : forall s r r',
  Forall (fun eq => minted eq.1 eq.2 <> Some id) requests ->
  rooms s !! id = Some r -> rooms (run requests s) !! id = Some r' ->
  R r r'.
Proof.
  induction requests as [|[e q] rest IH]; intros s r r' Hf Hs Hrun.
  { cbn in Hrun. rewrite Hs in Hrun. by simplify_eq. }
  apply Forall_cons in Hf as [Hq Hf]. cbn [run] in Hrun.
  destruct (serve_committed e q s) as [filing Hc].
  assert (forall s1, rooms (serve e q s).1 = rooms s1 ->
            rooms (run rest s1) !! id = Some r' -> R r r') as Hgo.
  { intros s1 E Hrest. rewrite E in Hc.
    destruct (rooms s1 !! id) as [r1|] eqn:H1.
    - eapply R_trans; [|by eapply IH].
      by eapply committed_related.
    - by rewrite (run_absent id rest s1 Hf H1) in Hrest. }
  destruct (serve e q s) as [s1 []]; cbn in Hgo; eauto.
  rewrite Hs in Hrun. by simplify_eq.
Qed.

End Across.

Lemma revision_same_identity r mark r' :
  revision r mark r' -> same_identity r r'.
Proof. by intros []. Qed.

Lemma revision_reports r mark r' :
  revision r mark r' -> reports r `prefix_of` reports r'.
Proof.
  intros []; cbn; try done. by apply prefix_app_r.
Qed.

Lemma reserved_owner role_name : reserved role_name = false -> role_name <> "owner".
Proof. intros H ->. by vm_compute in H. Qed.

Lemma revision_owner_role r mark r' :
  revision r mark r' -> owner_role_as_before r r'.
Proof.
  unfold owner_role_as_before.
  intros [ | | | | | | | | | | | |name Hres Hnew|role_name p Hne Hin|
          |role_name Hres|]; cbn; auto.
  - left. by rewrite lookup_insert_ne.
  - left. rewrite lookup_insert_ne; [done|].
    intros ->. by vm_compute in Hres.
  - left. by rewrite lookup_insert_ne.
  - left. rewrite lookup_delete_ne; [done|].
    intros ->. by vm_compute in Hres.
Qed.

Lemma reset_users_lookup users up account role :
  reset_users users up !! account = Some role ->
  role = "everyone" \/ up !! account = Some role.
Proof.
  induction users as [|k users IH]; cbn; [auto|].
  rewrite lookup_insert. case_decide; [|done]. intros [= <-]. by left.
Qed.

Lemma revision_only_creator_owns r mark r' :
  revision r mark r' -> only_creator_owns r -> only_creator_owns r'.
Proof.
  unfold only_creator_owns.
  intros [ | | | | | | | | | | | | | | |role_name Hres
          |user_id role_name Hrole Hcreator Hcurrent] Hown account; cbn;
    try apply Hown; try done.
  - intros [Hr|Hr]%reset_users_lookup; [done|by apply Hown].
  - destruct (String.eqb role_name "everyone").
    + rewrite lookup_delete. case_decide; [done|apply Hown].
    + rewrite lookup_insert. case_decide; [|apply Hown]. congruence.
Qed.

Lemma new_room_only_creator_owns e u name :
  only_creator_owns (new_room e u name).
Proof.
  unfold only_creator_owns, new_room. cbn [userPermissions creator_id].
  intros account H. apply lookup_singleton_Some in H. by destruct H.
Qed.

Lemma revision_never_empty r mark r' :
  revision r mark r' -> never_empty r -> never_empty r'.
Proof.
  unfold never_empty.
  intros [f subroom_id Hf|subroom_id n|name author Hname|name Hne Hin
          | | | | | | | | | | | | |]
    Hfull k sr; cbn; try apply Hfull.
  - rewrite lookup_alter. case_decide as Hk; [|apply Hfull]. subst k.
    destruct (subrooms r !! subroom_id) as [sr0|] eqn:E; [|done].
    cbn. intros [= <-]. pose proof (Hfull _ _ E) as Hsr0.
    destruct (Hf sr0); cbn; try done.
    by destruct (versions sr0).
  - rewrite lookup_alter. case_decide as Hk; [|apply Hfull]. subst k.
    destruct (subrooms r !! subroom_id) as [sr0|] eqn:E; [|done].
    cbn. intros [= <-]. pose proof (Hfull _ _ E) as Hsr0. cbn.
    intros Hnil. apply Hsr0.
    apply (f_equal length) in Hnil. rewrite length_alter in Hnil.
    by destruct (versions sr0).
  - rewrite lookup_insert. case_decide; [|apply Hfull]. by intros [= <-].
  - rewrite lookup_delete. case_decide; [done|apply Hfull].
Qed.

Lemma new_room_never_empty e u name : never_empty (new_room e u name).
Proof.
  unfold never_empty, new_room. cbn [subrooms].
  intros k sr H. apply lookup_singleton_Some in H as [_ <-]. done.
Qed.



(** X1: through every sequence of requests whose spliced names are single
    field names, each request is served and the role [owner] is held in a
    room by nobody but the creator of that room. *)
Theorem owner_stays_with_creator (requests : list (env * request)) (s : store) :
  Forall (fun eq => plainly eq.2 = true) requests ->
  map_Forall (fun _ => only_creator_owns) (rooms s) ->
  followed requests s
  /\ map_Forall (fun _ => only_creator_owns) (rooms (run requests s)).
Proof.
  intros Hplain Hs. split; [by apply run_followed|].
  revert Hs. apply run_checked_invariant;
    eauto using revision_only_creator_owns, new_room_only_creator_owns.
Qed.

Lemma owner_stays_with_creator_witness :
  Forall (fun eq => plainly eq.2 = true) role_session
  /\ map_Forall (fun _ => only_creator_owns) (rooms created)
  /\ followed role_session created
  /\ map_Forall (fun _ => only_creator_owns) (rooms (run role_session created)).
Proof.
  assert (Forall (fun eq => plainly eq.2 = true) role_session) as Hplain
    by (repeat constructor).
  assert (map_Forall (fun _ => only_creator_owns) (rooms created)) as H.
  { apply map_Forall_singleton, new_room_only_creator_owns. }
  split; [exact Hplain|]. split; [exact H|].
  apply (owner_stays_with_creator role_session created Hplain H).
Defined.




(** X3: a request whose spliced names are single field names is answered
    by its handler and never removes or reorders the versions of a subroom
    it leaves in place: the list is the same, or has one more version at the
    end (with no file yet), or has one version marked as having a file. *)
Theorem versions_kept e q s id r r' k sr sr' :
  plainly q = true ->
  rooms s !! id = Some r -> rooms (serve e q s).1 !! id = Some r' ->
  subrooms r !! k = Some sr -> subrooms r' !! k = Some sr' ->
  (serve e q s).2 <> OutsideModel
  /\ versions_extended (versions sr) (versions sr').
Proof.
  intros Hplain Hr Hr' Hsr Hsr'. split; [by apply serve_inside|].
  unfold versions_extended.
  destruct (serve_committed e q s) as [filing Hc].
  assert ((exists mark, revision r mark r') \/ r' = r) as [[mark Hrev]| ->].
  { destruct Hc as [|id' r0 r1 mark H0 Hrev|id'|id' e' u' name' _ Hid _].
    - right. congruence.
    - destruct (decide (id' = id)) as [->|Hne].
      + rewrite lookup_insert_eq in Hr'. left. simplify_eq. by eexists.
      + rewrite lookup_insert_ne in Hr' by done. right. congruence.
    - rewrite lookup_delete in Hr'. case_decide; [done|]. right. congruence.
    - destruct (decide (id' = id)) as [->|Hne]; [congruence|].
      rewrite lookup_insert_ne in Hr' by done. right. congruence. }
  2: { left. congruence. }
  destruct Hrev as [f subroom_id Hf|subroom_id n|name author Hname
                    |name Hne Hin| | | | | | | | | | | | |];
    cbn in Hsr'; try (left; congruence).
  - rewrite lookup_alter in Hsr'. case_decide as Hk; [|left; congruence].
    subst k. rewrite Hsr in Hsr'. cbn in Hsr'. simplify_eq.
    destruct (Hf sr); cbn; eauto.
  - rewrite lookup_alter in Hsr'. case_decide as Hk; [|left; congruence].
    subst k. rewrite Hsr in Hsr'. cbn in Hsr'. simplify_eq. cbn. eauto.
  - rewrite lookup_insert in Hsr'. case_decide; [congruence|left; congruence].
  - rewrite lookup_delete in Hsr'. case_decide; [done|left; congruence].
Qed.

Lemma versions_kept_witness :
  plainly (PutVersion A "room-1" "home" sample_metadata) = true
  /\ (serve world (PutVersion A "room-1" "home" sample_metadata) created).2
     <> OutsideModel
  /\ versions_extended (versions (initial_subroom "A"))
       (versions (push_version (decoupled_metadata A sample_metadata)
                    (initial_subroom "A"))).
Proof.
  split; [reflexivity|].
  apply (versions_kept world (PutVersion A "room-1" "home" sample_metadata)
           created "room-1" test_room
           (set_subrooms
              (insert "home"
                 (push_version (decoupled_metadata A sample_metadata)
                    (initial_subroom "A"))) test_room)
           "home"); reflexivity.
Defined.

(** X4: through every sequence of requests whose spliced names are single
    field names, each request is served and every subroom of every room has
    at least one version. *)
Theorem subrooms_never_empty (requests : list (env * request)) (s : store) :
  Forall (fun eq => plainly eq.2 = true) requests ->
  map_Forall (fun _ => never_empty) (rooms s) ->
  followed requests s
  /\ map_Forall (fun _ => never_empty) (rooms (run requests s)).
Proof.
  intros Hplain Hs. split; [by apply run_followed|].
  revert Hs. apply run_checked_invariant;
    eauto using revision_never_empty, new_room_never_empty.
Qed.

Lemma subrooms_never_empty_witness :
  Forall (fun eq => plainly eq.2 = true) home_session
  /\ followed home_session created
  /\ map_Forall (fun _ => never_empty) (rooms (run home_session created)).
Proof.
  assert (Forall (fun eq => plainly eq.2 = true) home_session) as Hplain
    by (repeat constructor).
  split; [exact Hplain|].
  apply (subrooms_never_empty home_session created Hplain).
  apply map_Forall_singleton, new_room_never_empty.
Defined.

(** X5: through every sequence of requests whose spliced names are single
    field names and none of which creates a room under the same identifier,
    each request is served and a stored room keeps its name, its creator,
    its creation time and its visit count. *)
Theorem room_identity_fixed id (requests : list (env * request)) s r r' :
  Forall (fun eq => plainly eq.2 = true) requests ->
  Forall (fun eq => minted eq.1 eq.2 <> Some id) requests ->
  rooms s !! id = Some r -> rooms (run requests s) !! id = Some r' ->
  followed requests s /\ same_identity r r'.
Proof.
  intros Hplain Hfresh Hr Hr'. split; [by apply run_followed|].
  revert Hfresh Hr Hr'. apply run_related.
  - by intros ?.
  - intros a b c (? & ? & ? & ?) (? & ? & ? & ?). unfold same_identity.
    repeat split; congruence.
  - apply revision_same_identity.
Qed.

Lemma room_identity_fixed_witness :
  followed [(world, PostSuspend staff "room-1" (JObj []))] created
  /\ same_identity test_room (suspension test_room).
Proof.
  apply (room_identity_fixed "room-1"
           [(world, PostSuspend staff "room-1" (JObj []))] created);
    [repeat constructor|repeat constructor; done|reflexivity|reflexivity].
Defined.

(** X6: through every sequence of requests whose spliced names are single
    field names and none of which creates a room under the same identifier,
    each request is served and the reports of a stored room are only added
    to. *)
Theorem reports_append_only id (requests : list (env * request)) s r r' :
  Forall (fun eq => plainly eq.2 = true) requests ->
  Forall (fun eq => minted eq.1 eq.2 <> Some id) requests ->
  rooms s !! id = Some r -> rooms (run requests s) !! id = Some r' ->
  followed requests s /\ reports r `prefix_of` reports r'.
Proof.
  intros Hplain Hfresh Hr Hr'. split; [by apply run_followed|].
  revert Hfresh Hr Hr'.
  apply (run_related (fun r r' => reports r `prefix_of` reports r')).
  - done.
  - intros a b c. apply transitivity.
  - apply revision_reports.
Qed.

Lemma reports_append_only_witness :
  followed [(world, PostReport B "room-1" sample_report)] created
  /\ reports test_room
     `prefix_of` reports (push_report
                            {| reason := "spam";
                               alleges_illegal_content := false;
                               alleges_danger_of_harm := true;
                               reporting_user_id := "B";
                               time := 1650000000000 |} test_room).
Proof.
  apply (reports_append_only "room-1"
           [(world, PostReport B "room-1" sample_report)] created);
    [repeat constructor|repeat constructor; done|reflexivity|reflexivity].
Defined.

(** X7: through every sequence of requests whose spliced names are single
    field names and none of which creates a room under the same identifier,
    each request is served and the permissions of the role [owner] are not
    edited: a stored room has them as they were, or has no role [owner] any
    more. *)
Theorem owner_permissions_fixed id (requests : list (env * request)) s r r' :
  Forall (fun eq => plainly eq.2 = true) requests ->
  Forall (fun eq => minted eq.1 eq.2 <> Some id) requests ->
  rooms s !! id = Some r -> rooms (run requests s) !! id = Some r' ->
  followed requests s /\ owner_role_as_before r r'.
Proof.
  intros Hplain Hfresh Hr Hr'. split; [by apply run_followed|].
  revert Hfresh Hr Hr'. apply run_related.
  - by left.
  - unfold owner_role_as_before. intros a b c [Hab|Hab] [Hbc|Hbc]; auto.
    + left. congruence.
    + right. congruence.
  - apply revision_owner_role.
Qed.

Lemma owner_permissions_fixed_witness :
  followed [(world, PostRoleDelete A "room-1" "owner");
            (world, PostTerminate staff "room-1" None (JObj []))] created
  /\ owner_role_as_before test_room (termination test_room).
Proof.
  apply (owner_permissions_fixed "room-1"
           [(world, PostRoleDelete A "room-1" "owner");
            (world, PostTerminate staff "room-1" None (JObj []))] created);
    [repeat constructor|repeat constructor; done|reflexivity|reflexivity].
Defined.

(** ** The bucket and the version ledger *)









(** X9: a request writes to the bucket only as [associate-data]: it stores
    the decoded body under the path of the version it marks; the images are
    never written. *)
Theorem bucket_written_with_mark e q s :
  (serve e q s).2 <> OutsideModel ->
  images (serve e q s).1 = images s
  /\ (bucket (serve e q s).1 = bucket s
      \/ exists u id k version_id body n data r,
           q = PostAssociateData u id k version_id body
           /\ Buffer_from e body = Some data
           /\ rooms s !! id = Some r
           /\ bucket (serve e q s).1
              = <[version_path id k n := data]> (bucket s)
           /\ rooms (serve e q s).1
              = <[id := set_subrooms (alter (associate_at n) k) r]> (rooms s)).
Proof.
  intros Hfollowed.
  destruct (serve_outcome e q s) as ((filing & Hc & Hf) & _ & Hi).
  split; [done|].
  destruct filing as [[[id k] n]|]; cbn in Hf.
  - right. destruct Hf as (u & version_id & body & data & -> & Hdata & ->).
    inversion Hc as [|id0 r0 r1 mark H0 Hrev Hfiling|id0|id0 e0 u0 name0].
    destruct mark as [[k0 n0]|]; [|done]. cbn in Hfiling. simplify_eq.
    inversion Hrev; subst.
    by exists u, id, k, version_id, body, n, data, r0.
  - destruct Hf as [->|(Hout & _)]; [by left|done].
Qed.

Lemma bucket_written_with_mark_witness :
  images (serve world (PostAssociateData A "room-1" "home" "0" sample_file)
            created).1 = images created.
Proof.
  apply (bucket_written_with_mark world
           (PostAssociateData A "room-1" "home" "0" sample_file) created).
  discriminate.
Defined.

(** ** The audit trail *)

Lemma run_audit_prefix requests : forall s,
  room_audit s `prefix_of` room_audit (run requests s).
Proof.
  induction requests as [|[e q] rest IH]; intros s; [done|].
  cbn [run].
  destruct (serve_outcome e q s) as (_ & Ha & _).
  assert (room_audit s `prefix_of` room_audit (serve e q s).1) as Hstep.
  { destruct Ha as [[-> _]|(u & ev & _ & _ & ->)]; [done|].
    by apply prefix_app_r. }
  destruct (serve e q s) as [s' []]; cbn in Hstep; try done;
    by (etrans; [exact Hstep|apply IH]).
Qed.

(** X10: a request whose spliced names are single field names is answered by
    its handler and leaves the audit trail as it was or adds one record at
    its end: the record names the room of the request, the caller and the
    time of the request, and its type is the one of the route; through a
    sequence of such requests each one is served and earlier records are
    never touched. *)
Theorem audit_trail_grows e q s (requests : list (env * request)) :
  plainly q = true ->
  Forall (fun eq => plainly eq.2 = true) requests ->
  (serve e q s).2 <> OutsideModel
  /\ (room_audit (serve e q s).1 = room_audit s
      \/ exists u ev,
           caller q = Some u /\ recorded q = Some (type ev)
           /\ room_audit (serve e q s).1
              = room_audit s ++ [audit_record e q u ev])
  /\ followed requests s
  /\ room_audit s `prefix_of` room_audit (run requests s).
Proof.
  intros Hq Hplain. split; [by apply serve_inside|].
  split; [|split; [by apply run_followed|apply run_audit_prefix]].
  destruct (serve_outcome e q s) as (_ & [[H _]|H] & _); auto.
Qed.

Lemma audit_trail_grows_witness :
  plainly (PostSubroomCreate staff "room-1" "lounge" (JObj [])) = true
  /\ Forall (fun eq => plainly eq.2 = true) home_session
  /\ followed home_session created
  /\ room_audit created `prefix_of` room_audit (run home_session created).
Proof.
  assert (Forall (fun eq => plainly eq.2 = true) home_session) as Hplain
    by (repeat constructor).
  split; [reflexivity|]. split; [exact Hplain|].
  apply (audit_trail_grows world
           (PostSubroomCreate staff "room-1" "lounge" (JObj [])) created
           home_session eq_refl Hplain).
Defined.

(** X11: on the routes that wait for the audit write, a request that is
    answered 200 has left its record in the audit trail. *)
Theorem success_is_audited e q s :
  waits_for_audit q = true -> success (serve e q s).2 = true ->
  exists u ev,
    caller q = Some u /\ recorded q = Some (type ev)
    /\ room_audit (serve e q s).1 = room_audit s ++ [audit_record e q u ev].
Proof.
  intros Hq Hok.
  destruct (serve_outcome e q s) as (_ & [[_ H]|H] & _); [|done].
  rewrite H in Hok; done.
Qed.

Lemma success_is_audited_witness :
  exists u ev,
    caller (PostSubroomCreate staff "room-1" "lounge" (JObj [])) = Some u
    /\ recorded (PostSubroomCreate staff "room-1" "lounge" (JObj []))
       = Some (type ev)
    /\ room_audit
         (serve world (PostSubroomCreate staff "room-1" "lounge" (JObj []))
            created).1
       = room_audit created
         ++ [audit_record world
               (PostSubroomCreate staff "room-1" "lounge" (JObj [])) u ev].
Proof.
  apply (success_is_audited world
           (PostSubroomCreate staff "room-1" "lounge" (JObj [])) created);
    reflexivity.
Defined.

(** ** Assigning a role *)

(** A caller whose role is in no dictionary of the room gets no answer from
    a route behind [canViewRoom] and a 500 from [info]; behind
    [requiresRoomPermission] they get no answer either, unless they are a
    developer, whom that gate lets through before it reads the role. *)
Lemma dangling_role_hangs (t : user) id s r :
  rooms s !! id = Some r ->
  js_lookup (rolePermissions r) (role_of r (uid t)) = None ->
  (developer t = false ->
   forall permission on_error h,
     guarded (requiresRoomPermission permission t id) on_error h s = (s, Hung))
  /\ (developer t = true ->
      forall permission,
        requiresRoomPermission permission t id s
        = (s, Next {| room := r; userRoomRole := userPermissions r;
                      userRoomPermissions := None |}))
  /\ (forall on_error h, guarded (canViewRoom t id) on_error h s = (s, Hung))
  /\ room_info (Some t) id s = (s, status_500).
Proof.
  intros Hr Hrole. split; [|split; [|split]]; intros.
  - unfold guarded, requiresRoomPermission. munfold.
    by rewrite Hr, H, Hrole.
  - unfold requiresRoomPermission. munfold. by rewrite Hr, H, Hrole.
  - unfold guarded, canViewRoom. munfold. by rewrite Hr, Hrole.
  - unfold room_info, try_catch. munfold. by rewrite Hr, Hrole.
Qed.

Section SetRole.
Variables (e : env) (u : user) (id user_id role_name : string).
Variables (s : store) (r : Room).
Hypothesis Hroom : rooms s !! id = Some r.
Hypothesis Hp : permitted "managePermissions" u r = true.

Lemma set_user_role_refused :
  assignable u r user_id role_name = false ->
  (set_user_role e u id user_id role_name s).1 = s
  /\ reply_status (set_user_role e u id user_id role_name s).2 = Some 403
  /\ reply_code (set_user_role e u id user_id role_name s).2
     = Some "access_denied".
Proof.
  unfold assignable. intros Ha. unfold set_user_role. entered Hroom Hp.
  destruct (String.eqb role_name "owner"); [done|].
  destruct (String.eqb user_id (uid u)); [done|]. rewrite Hroom. cbn.
  destruct (String.eqb user_id (creator_id r)); [done|]. cbn in Ha |- *.
  apply negb_false_iff, bool_decide_eq_true in Ha.
  unfold js_lookup. by rewrite Ha.
Qed.

Lemma set_user_role_done :
  assignable u r user_id role_name = true ->
  plain user_id = true -> audit_up e = true ->
  (set_user_role e u id user_id role_name s).2
  = Reply 200 operation_successful
  /\ rooms (set_user_role e u id user_id role_name s).1
     = <[id := set_userPermissions
                 (if String.eqb role_name "everyone" then delete user_id
                  else insert user_id role_name) r]> (rooms s).
Proof.
  unfold assignable. intros Ha Hplain Haudit.
  apply andb_true_iff in Ha as [Ha Hcurrent].
  apply andb_true_iff in Ha as [Ha Hcreator].
  apply andb_true_iff in Ha as [Hrole Hself].
  apply negb_true_iff in Hrole, Hself, Hcreator.
  apply negb_true_iff, bool_decide_eq_false in Hcurrent.
  unfold set_user_role. entered Hroom Hp.
  rewrite Hrole, Hself, Hroom. cbn. rewrite Hcreator. cbn.
  assert (match default (Own "everyone")
                  (js_lookup (userPermissions r) user_id) with
          | Own role => String.eqb role "owner"
          | Inherited => false
          end = false) as ->.
  { unfold js_lookup.
    destruct (userPermissions r !! user_id) as [role|] eqn:E.
    - cbn. apply String.eqb_neq. by intros ->.
    - by destruct (inherited user_id). }
  rewrite Hplain, Haudit. cbn [fst snd rooms with_rooms].
  by rewrite (alter_present _ _ _ _ Hroom).
Qed.

End SetRole.

(** X12: once the gate is passed, [set-role] on an account id that is a
    single field name refuses with 403 [access_denied], writing nothing,
    when the role is [owner] or the target is the caller, the creator of the
    room or a holder of [owner]; otherwise it answers 200 and the target's
    role is the one asked for from then on, whether or not the room has a
    role of that name; nobody else's role changes. *)
Theorem set_user_role_assigns e u id user_id role_name s r :
  rooms s !! id = Some r ->
  permitted "managePermissions" u r = true ->
  plain user_id = true -> audit_up e = true ->
  let out := set_user_role e u id user_id role_name s in
  if assignable u r user_id role_name then
    out.2 = Reply 200 operation_successful
    /\ exists r', rooms out.1 = <[id := r']> (rooms s)
         /\ role_of r' user_id = role_name
         /\ rolePermissions r' = rolePermissions r
         /\ forall other, other <> user_id -> role_of r' other = role_of r other
  else
    out.1 = s /\ reply_status out.2 = Some 403
    /\ reply_code out.2 = Some "access_denied".
Proof.
  intros Hroom Hp Hplain Haudit. cbv zeta.
  destruct (assignable u r user_id role_name) eqn:Ha;
    [|by apply (set_user_role_refused e u id user_id role_name s r)].
  destruct (set_user_role_done e u id user_id role_name s r Hroom Hp Ha
              Hplain Haudit) as [-> ->].
  split; [done|]. eexists. split; [done|]. unfold role_of. cbn.
  destruct (String.eqb role_name "everyone") eqn:Hev.
  - apply String.eqb_eq in Hev as ->. rewrite lookup_delete_eq.
    repeat split. intros other Hne. by rewrite lookup_delete_ne.
  - rewrite lookup_insert_eq.
    repeat split. intros other Hne. by rewrite lookup_insert_ne.
Qed.

Lemma set_user_role_assigns_witness :
  assignable A staffed_room "B" "helper" = true
  /\ (set_user_role world A "room-1" "B" "helper" staffed).2
     = Reply 200 operation_successful.
Proof.
  split; [reflexivity|].
  exact (proj1 (set_user_role_assigns world A "room-1" "B" "helper" staffed
                  staffed_room eq_refl eq_refl eq_refl eq_refl)).
Defined.

(** X13: [set-role] does not look the role up: when the room has no role
    of the name given, the assignment (to an account id that is a single
    field name) is stored all the same; from then on the target, developer
    or not, gets no answer from a route behind [canViewRoom] and a 500 from
    [info]; a target who is not a developer gets no answer from a route
    behind [requiresRoomPermission] either, while a developer passes that
    gate, with no permissions of a role attached to the request. *)
Theorem set_user_role_unknown_role e u id user_id role_name s r (t : user) :
  rooms s !! id = Some r ->
  permitted "managePermissions" u r = true ->
  plain user_id = true -> audit_up e = true ->
  assignable u r user_id role_name = true ->
  js_lookup (rolePermissions r) role_name = None ->
  uid t = user_id ->
  let out := set_user_role e u id user_id role_name s in
  out.2 = Reply 200 operation_successful
  /\ (developer t = false ->
      forall permission on_error h,
        guarded (requiresRoomPermission permission t id) on_error h out.1
        = (out.1, Hung))
  /\ (developer t = true ->
      forall permission,
        exists a,
          requiresRoomPermission permission t id out.1 = (out.1, Next a)
          /\ userRoomPermissions a = None)
  /\ (forall on_error h,
        guarded (canViewRoom t id) on_error h out.1 = (out.1, Hung))
  /\ room_info (Some t) id out.1 = (out.1, status_500).
Proof.
  intros Hroom Hp Hplain Haudit Ha Hunknown Ht. cbv zeta.
  destruct (set_user_role_done e u id user_id role_name s r Hroom Hp Ha
              Hplain Haudit) as [Hreply Hrooms].
  split; [done|].
  match goal with
  | |- context [guarded (canViewRoom t id) _ _ ?s1] =>
      destruct (dangling_role_hangs t id s1
                  (set_userPermissions
                     (if String.eqb role_name "everyone" then delete user_id
                      else insert user_id role_name) r))
        as (Hgate & Hdev & Hview & Hinfo)
  end.
  { by rewrite Hrooms, lookup_insert_eq. }
  { rewrite Ht. unfold role_of. cbn.
    destruct (String.eqb role_name "everyone") eqn:Hev.
    - apply String.eqb_eq in Hev as ->. by rewrite lookup_delete_eq.
    - by rewrite lookup_insert_eq. }
  split; [done|]. split; [|done].
  intros Hd permission. eexists. split; [by apply Hdev|done].
Qed.

Lemma set_user_role_unknown_role_witness :
  js_lookup (rolePermissions staffed_room) "ghost" = None
  /\ (set_user_role world A "room-1" "B" "ghost" staffed).2
     = Reply 200 operation_successful.
Proof.
  split; [reflexivity|].
  exact (proj1 (set_user_role_unknown_role world A "room-1" "B" "ghost"
                  staffed staffed_room B eq_refl eq_refl eq_refl eq_refl
                  eq_refl eq_refl eq_refl)).
Defined.

(** ** A new room *)

Lemma has_predecessor_true creator name (m : gmap string Room) :
  has_predecessor creator name m = true ->
  exists id r, m !! id = Some r /\ creator_id r = creator /\ Store.name r = name.
Proof.
  unfold has_predecessor. intros H. apply existsb_exists in H as ([id r] & Hin & H).
  apply andb_true_iff in H as [Hc%String.eqb_eq Hn%String.eqb_eq].
  exists id, r. split; [|done].
  by apply elem_of_map_to_list, list_elem_of_In.
Qed.

Lemma basic_permissions_flag granted permission :
  inherited permission = false ->
  flag (Own (basic_permissions granted)) permission = true ->
  granted = true.
Proof.
  intros Hi. unfold flag, basic_permissions.
  destruct (list_to_map _ !! permission) as [b|] eqn:E; [|congruence].
  intros ->. apply elem_of_list_to_map_2 in E.
  repeat (apply elem_of_cons in E as [E|E]; [congruence|]).
  by apply elem_of_nil in E.
Qed.

(** X14: [POST /new] with a name the caller has not used, under a fresh
    identifier, answers 200 and stores a room that is private to its
    creator: the creator passes the gate of every permission (as [owner]),
    and may view the room; an account that is neither the creator nor a
    developer passes no gate and may not view it.  With a name the caller
    has used already it answers 400 [room_already_exists] and writes
    nothing. *)
Theorem create_room_private e u body name s :
  get body "name" = Some (JStr name) ->
  rooms s !! uuid e = None -> audit_up e = true ->
  let out := create_room e u body s in
  if has_predecessor (uid u) name (rooms s) then
    out.1 = s /\ reply_status out.2 = Some 400
    /\ reply_code out.2 = Some "room_already_exists"
  else
    out.2 = Reply 200 operation_successful
    /\ rooms out.1 = <[uuid e := new_room e u name]> (rooms s)
    /\ (forall permission,
          permitted permission u (new_room e u name) = true)
    /\ may_view u (new_room e u name) = true
    /\ (forall v permission,
          uid v <> uid u -> developer v = false ->
          inherited permission = false ->
          permitted permission v (new_room e u name) = false
          /\ may_view v (new_room e u name) = false).
Proof.
  intros Hbody Hfresh Haudit. cbv zeta. unfold create_room, try_catch.
  munfold. rewrite Hbody. cbn beta iota.
  destruct (has_predecessor (uid u) name (rooms s)) eqn:Hpre; [done|].
  cbn beta iota. rewrite Hfresh, Haudit. cbn [fst snd rooms with_rooms].
  split; [done|]. split; [done|].
  assert (forall v, uid v <> uid u ->
            js_lookup (rolePermissions (new_room e u name))
              (role_of (new_room e u name) (uid v))
            = Some (Own (basic_permissions false))) as Hother.
  { intros v Hv. unfold role_of, new_room. cbn.
    rewrite lookup_singleton_ne by done. reflexivity. }
  assert (js_lookup (rolePermissions (new_room e u name))
            (role_of (new_room e u name) (uid u))
          = Some (Own (basic_permissions true))) as Hmine.
  { unfold role_of, new_room. cbn. rewrite lookup_singleton_eq. reflexivity. }
  assert (role_of (new_room e u name) (uid u) = "owner") as Howner.
  { unfold role_of, new_room. cbn. by rewrite lookup_singleton_eq. }
  repeat split.
  - intros permission. unfold permitted. rewrite Hmine, Howner.
    by rewrite !orb_true_r.
  - unfold may_view. by rewrite Hmine.
  - unfold permitted. rewrite (Hother v) by done. rewrite H0. cbn.
    apply orb_false_iff. split.
    + destruct (flag (Own (basic_permissions false)) permission) eqn:Hf;
        [|done].
      by apply basic_permissions_flag in Hf.
    + unfold role_of, new_room. cbn. by rewrite lookup_singleton_ne.
  - unfold may_view. rewrite (Hother v) by done. by rewrite H0.
Qed.

Lemma create_room_private_witness :
  has_predecessor (uid B) "Test" (rooms created) = false
  /\ (create_room later B (named "Test") created).2
     = Reply 200 operation_successful.
Proof.
  split; [reflexivity|].
  exact (proj1 (create_room_private later B (named "Test") "Test" created
                  eq_refl eq_refl eq_refl)).
Defined.

(** ** Subrooms *)

Lemma permitted_subrooms permission u f r :
  permitted permission u (set_subrooms f r) = permitted permission u r.
Proof. done. Qed.

(** X15: creating a subroom under a name that is a single field name and
    that the room does not have, and deleting it again, leaves the [rooms]
    collection as it was; in between, the subroom holds one version, by the
    caller who created it. *)
Theorem subroom_create_then_delete e e' u u' id name body note s r :
  rooms s !! id = Some r ->
  permitted "manageSubrooms" u r = true ->
  permitted "deleteSubrooms" u' r = true ->
  get body "note" = Some note ->
  typeof note = TUndefined \/ typeof note = TString ->
  subrooms r !! name = None -> name <> homeSubroomId r ->
  plain name = true -> audit_up e = true -> audit_up e' = true ->
  let made := subroom_create e u id name body s in
  let gone := subroom_delete e' u' id name made.1 in
  made.2 = Reply 200 operation_successful
  /\ (exists r1, rooms made.1 !! id = Some r1
        /\ subrooms r1 !! name = Some (initial_subroom (uid u)))
  /\ gone.2 = Reply 200 operation_successful
  /\ rooms gone.1 = rooms s.
Proof.
  intros Hroom Hp Hp' Hbody Hnote Hname Hhome Hplain Haudit Haudit'. cbv zeta.
  assert (subroom_create e u id name body s
          = ({| rooms := <[id := set_subrooms
                                  (insert name (initial_subroom (uid u))) r]>
                           (rooms s);
                room_audit := room_audit s ++
                  [ {| room_id := id; user_id := uid u; event_time := now e;
                       event_data :=
                         event SubroomCreate (Some (AVJs JNull))
                           (Some (AVJs JNull))
                           (Some (if truthy note then note else JNull)) |} ];
                bucket := bucket s; images := images s; outbox := outbox s |},
             Reply 200 operation_successful)) as ->.
  { unfold subroom_create. entered Hroom Hp. rewrite Hbody.
    assert (negb (jstype_eqb (typeof note) TUndefined) && negb (is_string note)
            = false) as ->.
    { unfold is_string. by destruct Hnote as [-> | ->]. }
    unfold has_key. rewrite Hname, Hplain, Haudit.
    cbn [fst snd rooms with_rooms room_audit bucket images outbox].
    by rewrite (alter_present _ _ _ _ Hroom). }
  cbn [fst snd rooms].
  split; [done|]. split.
  { eexists. rewrite lookup_insert_eq. split; [done|]. cbn.
    by rewrite lookup_insert_eq. }
  set (r1 := set_subrooms (insert name (initial_subroom (uid u))) r).
  match goal with
  | |- context [subroom_delete e' u' id name ?s1] =>
      assert (Hroom1 : rooms s1 !! id = Some r1)
        by (cbn; by rewrite lookup_insert_eq)
  end.
  unfold subroom_delete.
  match goal with
  | |- context [guarded (requiresRoomPermission ?p ?u0 ?i) ?err ?h ?s0] =>
      rewrite (guarded_entered p u0 i s0 r1 err h Hroom1
                 (eq_trans (permitted_subrooms _ _ _ _) Hp'))
  end.
  unfold try_catch. munfold. cbn [room context_of].
  unfold has_key. subst r1. cbn [subrooms set_subrooms homeSubroomId].
  rewrite lookup_insert_eq. cbn [negb].
  apply String.eqb_neq in Hhome. rewrite Hhome, Hplain, Haudit'.
  cbn [fst snd rooms with_rooms]. split; [done|].
  erewrite alter_present by apply lookup_insert_eq.
  rewrite insert_insert_eq. cbn. apply insert_id. rewrite Hroom. f_equal.
  unfold set_subrooms. cbn [subrooms Store.name description
    creator_id tags created_at visits homeSubroomId rolePermissions
    userPermissions cover_image_id contentFlags reports].
  rewrite delete_insert_id by done. by destruct r.
Qed.

Lemma subroom_create_then_delete_witness :
  rooms (subroom_delete later A "room-1" "lounge"
           (subroom_create world A "room-1" "lounge" (JObj []) created).1).1
  = rooms created.
Proof.
  apply (subroom_create_then_delete world later A A "room-1" "lounge" (JObj [])
           JUndefined created test_room);
    first [reflexivity | discriminate | by left].
Defined.

(** [set-max-players] stores whatever integer [parseInt] reads from
    the count, zero and negative numbers included, and refuses only a count
    that does not start with a number. *)
Lemma max_players_unchecked e u id name count s r sr :
  rooms s !! id = Some r ->
  permitted "manageSubrooms" u r = true ->
  subrooms r !! name = Some sr ->
  plain name = true -> audit_up e = true ->
  let out := subroom_set_max_players e u id name count s in
  match parseInt count with
  | Some n =>
      out.2 = Reply 200 operation_successful
      /\ rooms out.1
         = <[id := set_subrooms (insert name (set_maxPlayers n sr)) r]> (rooms s)
  | None =>
      out.1 = s /\ reply_status out.2 = Some 400
      /\ reply_code out.2 = Some "invalid_input"
  end.
Proof.
  intros Hroom Hp Hsr Hplain Haudit. cbv zeta.
  unfold subroom_set_max_players. entered Hroom Hp. rewrite Hsr.
  destruct (parseInt count) as [n|]; [|done].
  rewrite Hplain, Haudit. cbn [fst snd rooms with_rooms]. split; [done|].
  rewrite (alter_present _ _ _ _ Hroom). f_equal.
  unfold set_subrooms. by rewrite (alter_present _ _ _ _ Hsr).
Qed.

(** [verify-subroom-link] tells a caller who may view the room that a
    link is valid when the room has a subroom of that name, and also when
    the name is one every object inherits ([constructor], [toString],
    ...). *)
Lemma verify_subroom_link_inherited u id to s r :
  rooms s !! id = Some r -> may_view u r = true ->
  (verify_subroom_link u id to s).1 = s
  /\ link_valid (verify_subroom_link u id to s).2
     = Some (bool_decide (is_Some (subrooms r !! to)) || inherited to).
Proof.
  intros Hroom Hview. unfold verify_subroom_link, guarded, canViewRoom.
  unfold may_view in Hview. munfold. rewrite Hroom.
  destruct (js_lookup (rolePermissions r) _) as [mine|]; [|done].
  rewrite Hview. cbn [negb]. unfold try_catch. munfold. rewrite Hroom.
  unfold js_lookup. destruct (subrooms r !! to) as [sr|].
  - split; [done|]. by rewrite bool_decide_eq_true_2.
  - by destruct (inherited to).
Qed.

(** ** Reports *)

(** X16: [report] asks for no permission: for any caller, a body with a
    string [reason] and two boolean allegations adds one report to an
    existing room, in the caller's name and at the time of the request, and
    is answered 200; on a room that does not exist it is answered 500; any
    other body is refused and nothing is written. *)
Theorem report_open_to_all e u id body s :
  let out := report_room e u id body s in
  match report_of e u body, rooms s !! id with
  | Some p, Some r =>
      out.2 = Reply 200 (code_message "success" "Successfully reported room.")
      /\ rooms out.1 = <[id := push_report p r]> (rooms s)
  | Some p, None => rooms out.1 = rooms s /\ reply_status out.2 = Some 500
  | None, _ => out.1 = s /\ success out.2 = false
  end.
Proof.
  cbv zeta. unfold report_of, report_room, try_catch. munfold.
  assert (get_opt body "reason" = default JUndefined (get body "reason"))
    as -> by done.
  destruct (get body "reason") as [reason|]; [|done].
  change (default JUndefined (Some reason)) with reason.
  destruct reason; try done.
  destruct (get_opt body "illegal_content"); try done.
  destruct (get_opt body "danger_of_harm"); try done.
  cbn [fst snd rooms with_rooms].
  destruct (rooms s !! id) as [r|] eqn:Hr.
  - rewrite (alter_present _ _ _ _ Hr), lookup_insert_eq.
    cbn [fst snd rooms with_rooms]. by rewrite (alter_present _ _ _ _ Hr).
  - match goal with
    | |- context [alter ?f id (rooms s)] =>
        assert (alter f id (rooms s) = rooms s) as E
    end.
    { apply map_eq. intros j. rewrite lookup_alter.
      case_decide; subst; by rewrite ?Hr. }
    rewrite E, Hr. cbn [fst snd rooms with_rooms]. by rewrite E.
Qed.

(** ** The public version *)

Lemma set_public_version_success e u id k body s :
  success (set_public_version e u id k body s).2 = true ->
  exists raw r sr,
    get body "id" = Some (JStr raw) /\ rooms s !! id = Some r
    /\ subrooms r !! k = Some sr
    /\ rooms (set_public_version e u id k body s).1
       = <[id := set_subrooms (insert k (set_publicVersionId (JStr raw) sr)) r]>
           (rooms s)
    /\ bucket (set_public_version e u id k body s).1 = bucket s.
Proof.
  unfold set_public_version, guarded.
  destruct (requiresRoomPermission _ u id s) as [s' [a|x|]] eqn:G;
    [|cbn; by rewrite (requiresRoomPermission_return _ _ _ _ _ _ G)|done].
  apply requiresRoomPermission_inv in G as [-> G].
  destruct (G a eq_refl) as (Hr & Hp & _). clear G.
  unfold try_catch. munfold.
  destruct (get body "id") as [[]|]; try done. rewrite Hr.
  destruct (subrooms (room a) !! k) as [sr|] eqn:Hsr; [|done].
  destruct (le_num _ _); [done|].
  destruct (plain k); [|done]. cbn [fst snd rooms with_rooms].
  destruct (audit_up e); [|done]. cbn [fst snd rooms bucket with_rooms].
  intros _. exists s0, (room a), sr. repeat split; try done.
  rewrite (alter_present _ _ _ _ Hr). f_equal.
  unfold set_subrooms. by rewrite (alter_present _ _ _ _ Hsr).
Qed.

(** X17: after a successful [versions/public] with the id [raw], a download
    of [latest] answers exactly what a download of [raw] answers, for any
    caller. *)
Theorem latest_is_published e u v id k body raw s :
  get body "id" = Some (JStr raw) ->
  success (set_public_version e u id k body s).2 = true ->
  let s' := (set_public_version e u id k body s).1 in
  download v id k "latest" s' = download v id k raw s'.
Proof.
  intros Hbody Hok. cbv zeta.
  destruct (set_public_version_success _ _ _ _ _ _ Hok)
    as (raw' & r & sr & Hraw & Hr & Hsr & Hrooms & _).
  rewrite Hbody in Hraw. simplify_eq.
  unfold download, try_catch. munfold. rewrite Hrooms, lookup_insert_eq.
  cbn [subrooms set_subrooms]. rewrite lookup_insert_eq.
  cbn [publicVersionId set_publicVersionId versions].
  change (String.eqb "latest" "latest") with true. cbn iota.
  by destruct (String.eqb raw' "latest") eqn:E;
    [apply String.eqb_eq in E as ->|].
Qed.

Lemma latest_is_published_witness :
  download B "room-1" "home" "latest"
    (set_public_version world A "room-1" "home" (JObj [("id", JStr "0")])
       created).1
  = download B "room-1" "home" "0"
      (set_public_version world A "room-1" "home" (JObj [("id", JStr "0")])
         created).1.
Proof.
  apply (latest_is_published world A B "room-1" "home"
           (JObj [("id", JStr "0")]) "0" created); reflexivity.
Defined.

(** ** Moderation *)

Lemma flag_insert_false p key permission :
  flag (Own (<[key := false]> p)) permission
  = if String.eqb permission key then false else flag (Own p) permission.
Proof.
  unfold flag. destruct (String.eqb permission key) eqn:E.
  - apply String.eqb_eq in E as ->. by rewrite lookup_insert_eq.
  - apply String.eqb_neq in E. by rewrite lookup_insert_ne.
Qed.

(** X18: a suspension collapses every account to the role [everyone] and
    takes [viewAndJoin] and [managePermissions] from that role: afterwards
    an account that is not a developer, the creator included, may not view
    the room, and passes the gate of a permission exactly when [everyone]
    held that permission before and it is not one of the two; the creator
    alone still reads [info]: every other account, a developer included,
    and a visitor are answered 403 there. *)
Theorem suspension_locks_room e u id body note s r :
  developer u = true -> rooms s !! id = Some r ->
  get body "note" = Some note -> bad_note note = false ->
  let out := serve e (PostSuspend u id body) s in
  out.2 = Reply 200 operation_successful
  /\ rooms out.1 = <[id := suspension r]> (rooms s)
  /\ (forall v permission,
        developer v = false ->
        may_view v (suspension r) = false
        /\ permitted permission v (suspension r)
           = if suspended_permission permission then false
             else everyone_may r permission)
  /\ (forall c,
        uid c = creator_id r ->
        (room_info (Some c) id out.1).2
        = Reply 200 (room_visible id (Some (suspension r))))
  /\ (forall c,
        uid c <> creator_id r ->
        room_info (Some c) id out.1
        = (out.1, Reply 403 (message_only "invalid_permissions")))
  /\ room_info None id out.1
     = (out.1, Reply 403 (message_only "invalid_permissions")).
Proof.
  intros Hdev Hroom Hbody Hnote. cbv zeta. cbn [serve].
  unfold authenticateDeveloperToken. rewrite Hdev.
  assert (forall account, role_of (suspension r) account = "everyone") as Hrole.
  { intros account. unfold role_of, suspension. cbn. by rewrite lookup_empty. }
  assert (js_lookup (rolePermissions (suspension r)) "everyone"
          = Some (Own (<["managePermissions" := false]>
                         (<["viewAndJoin" := false]>
                            (default ∅ (rolePermissions r !! "everyone"))))))
    as Hevery.
  { unfold js_lookup, suspension. cbn. by rewrite lookup_insert_eq. }
  assert (rooms (moderation_suspend e u id body s).1
          = <[id := suspension r]> (rooms s)
          /\ (moderation_suspend e u id body s).2
             = Reply 200 operation_successful) as [Hrooms Hreply].
  { unfold moderation_suspend, try_catch. munfold.
    rewrite Hbody, Hnote, Hroom.
    destruct (audit_up e); cbn [fst snd rooms with_rooms];
      by rewrite (alter_present _ _ _ _ Hroom). }
  split; [done|]. split; [done|]. split; [|split; [|split]].
  - intros v permission Hv. unfold may_view, permitted.
    rewrite Hrole, Hevery, Hv, !flag_insert_false. split; [done|].
    unfold suspended_permission, everyone_may. cbn [orb].
    change (String.eqb "everyone" "owner") with false. rewrite orb_false_r.
    destruct (String.eqb permission "managePermissions") eqn:E;
      [by rewrite orb_true_r|].
    by rewrite orb_false_r.
  - intros c Hc. unfold room_info, try_catch. munfold.
    rewrite Hrooms, lookup_insert_eq, Hrole, Hevery, Hc.
    cbn [creator_id suspension set_description set_rolePermissions
         set_userPermissions].
    rewrite String.eqb_refl, andb_false_r. cbn [negb fst snd].
    by rewrite Hrooms, lookup_insert_eq.
  - intros c Hc%String.eqb_neq. unfold room_info, try_catch. munfold.
    rewrite Hrooms, lookup_insert_eq, Hrole, Hevery, !flag_insert_false.
    cbn [creator_id suspension set_description set_rolePermissions
         set_userPermissions].
    by rewrite Hc.
  - unfold room_info, try_catch. munfold.
    by rewrite Hrooms, lookup_insert_eq, Hevery, !flag_insert_false.
Qed.

Lemma suspension_locks_room_witness :
  rooms (serve world (PostSuspend staff "room-1" (JObj [])) created).1
  = <["room-1" := suspension test_room]> (rooms created).
Proof.
  apply (suspension_locks_room world staff "room-1" (JObj []) JUndefined
           created test_room); reflexivity.
Defined.

(** X19: a termination that keeps the room leaves it with the single role
    [everyone], holding nothing: afterwards no account but a developer may
    view the room or passes the gate of any permission, the creator
    included; the creator alone still reads [info]: every other account, a
    developer included, and a visitor are answered 403 there. *)
Theorem termination_locks_room e u id permanent body note s r :
  developer u = true -> rooms s !! id = Some r ->
  get body "note" = Some note -> bad_note note = false ->
  permanent <> Some "true" ->
  let out := serve e (PostTerminate u id permanent body) s in
  out.2 = Reply 200 operation_successful
  /\ rooms out.1 = <[id := termination r]> (rooms s)
  /\ (forall v permission,
        developer v = false -> inherited permission = false ->
        may_view v (termination r) = false
        /\ permitted permission v (termination r) = false)
  /\ (forall c,
        uid c = creator_id r ->
        (room_info (Some c) id out.1).2
        = Reply 200 (room_visible id (Some (termination r))))
  /\ (forall c,
        uid c <> creator_id r ->
        room_info (Some c) id out.1
        = (out.1, Reply 403 (message_only "invalid_permissions")))
  /\ room_info None id out.1
     = (out.1, Reply 403 (message_only "invalid_permissions")).
Proof.
  intros Hdev Hroom Hbody Hnote Hkept. cbv zeta. cbn [serve].
  unfold authenticateDeveloperToken. rewrite Hdev.
  assert (forall account, role_of (termination r) account = "everyone")
    as Hrole.
  { intros account. unfold role_of, termination. cbn. by rewrite lookup_empty. }
  assert (js_lookup (rolePermissions (termination r)) "everyone"
          = Some (Own ∅)) as Hevery.
  { unfold js_lookup, termination. cbn. by rewrite lookup_singleton_eq. }
  assert (rooms (moderation_terminate e u id permanent body s).1
          = <[id := termination r]> (rooms s)
          /\ (moderation_terminate e u id permanent body s).2
             = Reply 200 operation_successful) as [Hrooms Hreply].
  { unfold moderation_terminate, try_catch. munfold.
    rewrite Hbody, Hnote, Hroom. rewrite bool_decide_eq_false_2 by done.
    destruct (audit_up e); cbn [fst snd rooms with_rooms];
      by rewrite (alter_present _ _ _ _ Hroom). }
  split; [done|]. split; [done|]. split; [|split; [|split]].
  - intros v permission Hv Hi. unfold may_view, permitted.
    rewrite Hrole, Hevery, Hv. unfold flag. rewrite !lookup_empty.
    by rewrite Hi.
  - intros c Hc. unfold room_info, try_catch. munfold.
    rewrite Hrooms, lookup_insert_eq, Hrole, Hevery, Hc.
    cbn [creator_id termination set_description set_rolePermissions
         set_userPermissions].
    rewrite String.eqb_refl, andb_false_r. cbn [negb fst snd].
    by rewrite Hrooms, lookup_insert_eq.
  - intros c Hc%String.eqb_neq. unfold room_info, try_catch. munfold.
    rewrite Hrooms, lookup_insert_eq, Hrole, Hevery.
    cbn [creator_id termination set_description set_rolePermissions
         set_userPermissions].
    by rewrite Hc.
  - unfold room_info, try_catch. munfold.
    by rewrite Hrooms, lookup_insert_eq, Hevery.
Qed.

Lemma termination_locks_room_witness :
  rooms (serve world (PostTerminate staff "room-1" None (JObj [])) created).1
  = <["room-1" := termination test_room]> (rooms created).
Proof.
  apply (termination_locks_room world staff "room-1" None (JObj []) JUndefined
           created test_room); first [reflexivity | discriminate].
Defined.

(** ** Searching *)

Lemma insert_by_visits_perm x l : insert_by_visits x l ≡ₚ x :: l.
Proof.
  induction l as [|y l IH]; [done|]. cbn.
  destruct (visits x.2 <=? visits y.2)%Z; [done|].
  by rewrite IH, Permutation_swap.
Qed.

Lemma find_sorted_perm m : find_sorted m ≡ₚ map_to_list m.
Proof.
  unfold find_sorted. induction (map_to_list m) as [|x l IH]; [done|].
  cbn. by rewrite insert_by_visits_perm, IH.
Qed.

Lemma elem_of_find_sorted m id r :
  (id, r) ∈ find_sorted m <-> m !! id = Some r.
Proof. by rewrite find_sorted_perm, elem_of_map_to_list. Qed.

Lemma filter_rooms_Some u l kept :
  filter_rooms u l = Some kept ->
  forall x, x ∈ kept <-> x ∈ l /\ listed_for u x.2 = Some true.
Proof.
  revert kept. induction l as [|y l IH]; intros kept.
  - intros [= <-] x. rewrite !elem_of_nil. tauto.
  - cbn. destruct (listed_for u y.2) as [keep|] eqn:Hy; [|done].
    destruct (filter_rooms u l) as [kept'|]; [|done].
    intros [= <-] x. specialize (IH _ eq_refl x).
    destruct keep; rewrite ?elem_of_cons, IH; split.
    + intros [->|[? ?]]; auto.
    + intros [[->|?] ?]; auto.
    + intros [? ?]; auto.
    + intros [[->|?] ?]; [congruence|auto].
Qed.

Lemma filter_rooms_None u l x :
  x ∈ l -> listed_for u x.2 = None -> filter_rooms u l = None.
Proof.
  induction l as [|y l IH]; [by intros ?%elem_of_nil|].
  intros [->|Hx]%elem_of_cons Hnone; cbn.
  - by rewrite Hnone.
  - rewrite (IH Hx Hnone). by destruct (listed_for u y.2).
Qed.

Lemma summaries_shown u s l kept :
  filter_rooms u (find_sorted (rooms s)) = Some kept ->
  (forall x, x ∈ l -> x ∈ kept) ->
  Forall (shown u s) ((fun x => room_summary x.1 x.2) <$> l).
Proof.
  intros Hkept Hl. apply Forall_fmap, Forall_forall. intros [id r] Hx.
  apply Hl, (filter_rooms_Some _ _ _ Hkept) in Hx as [Hin Hv].
  apply elem_of_find_sorted in Hin. by exists id, r.
Qed.

(** X20: [/search] writes nothing, and whatever the mode and the query, an
    answer that lists rooms lists only stored rooms the caller may view
    (rooms whose role for the caller has [viewAndJoin], or any room for a
    developer; for a visitor, rooms that [everyone] may view); in the mode
    [most-visited] it lists every such room. *)
Theorem search_shows_only_viewable fuse u mode query s :
  (forall l q x, x ∈ fuse l q -> x ∈ l) ->
  (search fuse u mode query s).1 = s
  /\ (forall status items,
        (search fuse u mode query s).2 = Reply status (JArr items) ->
        Forall (shown u s) items)
  /\ (forall status items id r,
        mode = JStr "most-visited" ->
        (search fuse u mode query s).2 = Reply status (JArr items) ->
        rooms s !! id = Some r -> listed_for u r = Some true ->
        room_summary id r ∈ items).
Proof.
  intros Hfuse. unfold search.
  destruct (filter_rooms u (find_sorted (rooms s))) as [kept|] eqn:Hkept;
    [|done].
  pose proof (summaries_shown u s kept kept Hkept (fun _ H => H)) as Hall.
  split; [|split].
  - destruct mode; try done. repeat case_match; done.
  - intros status items.
    destruct mode as [| | | |m| |]; try done.
    destruct (String.eqb m "search").
    { destruct (negb (truthy query)); [by intros [= _ <-]|].
      destruct query as [| | | |q| |]; try done.
      destruct (blank q); intros [= _ <-]; [done|].
      apply Forall_forall. intros x Hx%Hfuse.
      by eapply Forall_forall in Hall. }
    destruct (String.eqb m "originals").
    { intros [= _ <-]. apply (summaries_shown u s _ kept Hkept).
      by intros x [_ ?]%list_elem_of_filter. }
    destruct (String.eqb m "most-visited"); [by intros [= _ <-]|].
    destruct (String.eqb m "mine"); [|done].
    destruct (mine u kept) as [own|] eqn:Hown; [|done].
    intros [= _ <-]. apply (summaries_shown u s _ kept Hkept).
    unfold mine in Hown. destruct u as [usr|].
    + simplify_eq. by intros x [_ ?]%list_elem_of_filter.
    + destruct kept; simplify_eq. by intros x ?%elem_of_nil.
  - intros status items id r -> Hreply Hr Hv. cbn in Hreply.
    simplify_eq. apply list_elem_of_fmap. exists (id, r). split; [done|].
    apply (filter_rooms_Some _ _ _ Hkept). split; [|done].
    by apply elem_of_find_sorted.
Qed.

Lemma search_shows_only_viewable_witness :
  (search (fun l _ => take 1 l) (Some A) (JStr "search") (JStr "Test")
     created).1 = created.
Proof.
  apply (search_shows_only_viewable (fun l _ => take 1 l) (Some A)
           (JStr "search") (JStr "Test") created).
  intros l q x Hx. apply elem_of_take in Hx as (i & Hi & _).
  by eapply list_elem_of_lookup_2.
Defined.

(** X21: one stored room in which the caller's role is in no dictionary
    leaves every search of that caller unanswered, whatever the mode. *)
Theorem search_hangs_on_dangling_role fuse u mode query s id r :
  rooms s !! id = Some r -> listed_for u r = None ->
  search fuse u mode query s = (s, Hung).
Proof.
  intros Hr Hnone. unfold search.
  rewrite (filter_rooms_None u _ (id, r)); [done| |done].
  by apply elem_of_find_sorted.
Qed.

Lemma search_hangs_on_dangling_role_witness :
  listed_for (Some B) haunted_room = None
  /\ search (fun l _ => l) (Some B) (JStr "most-visited") JUndefined haunted
     = (haunted, Hung).
Proof.
  split; [reflexivity|].
  apply (search_hangs_on_dangling_role (fun l _ => l) (Some B)
           (JStr "most-visited") JUndefined haunted "room-1" haunted_room);
    reflexivity.
Defined.

(** ** Listing versions *)

Lemma versions_list_found u id k s r sr :
  rooms s !! id = Some r -> permitted "createVersions" u r = true ->
  subrooms r !! k = Some sr ->
  versions_list u id k s
  = (s, Reply 200
          (JObj [ ("code", JStr "success");
                  ("message", JStr "Operation successful.");
                  ("versions", JArr (numbered (versions sr))) ])).
Proof.
  intros Hr Hp Hsr. unfold versions_list. entered Hr Hp.
  unfold has_key. by rewrite Hsr.
Qed.

Lemma numbered_lookup l n v :
  l !! n = Some v -> numbered l !! n = Some (version_json v (toString n)).
Proof. intros H. unfold numbered. by rewrite list_lookup_imap, H. Qed.

(** X22: the listing of versions gives each version the decimal spelling of
    its index as [id]; after a successful [versions/new], the version just
    created is the last one listed, under the id the creation answered
    with, and with the caller as its author. *)
Theorem new_version_is_listed e u viewer id k body s r sr :
  rooms s !! id = Some r ->
  permitted "createVersions" u r = true ->
  permitted "createVersions" viewer r = true ->
  subrooms r !! k = Some sr ->
  plain k = true ->
  valid_spawn body = true ->
  isArray (get_opt body "collaborators") = true ->
  audit_up e = true ->
  let out := version_new e u id k body s in
  let n := length (versions sr) in
  out.2 = Reply 200 (version_created n)
  /\ exists items,
       (versions_list viewer id k out.1).2
       = Reply 200 (JObj [ ("code", JStr "success");
                           ("message", JStr "Operation successful.");
                           ("versions", JArr items) ])
       /\ length items = S n
       /\ items !! n = Some (version_json (decoupled_metadata u body) (toString n))
       /\ (forall i item, items !! i = Some item ->
             get_opt item "id" = JStr (toString i))
       /\ (forall i v, versions sr !! i = Some v ->
             items !! i = Some (version_json v (toString i))).
Proof.
  intros Hr Hp Hpv Hsr Hplain Hspawn Hcoll Haudit. cbv zeta.
  assert (version_new e u id k body s
          = ({| rooms := <[id := set_subrooms
                     (insert k (push_version (decoupled_metadata u body) sr)) r]>
                   (rooms s);
                room_audit := room_audit s ++
                  [ {| room_id := id; user_id := uid u; event_time := now e;
                       event_data := event ChangesetCreation None None None |} ];
                bucket := bucket s; images := images s; outbox := outbox s |},
             Reply 200 (version_created (length (versions sr))))) as ->.
  { unfold version_new. entered Hr Hp.
    destruct (valid_spawn_body body "baseSceneIndex" Hspawn) as [b ->].
    rewrite Hspawn, Hcoll. cbn [negb]. rewrite Hr.
    unfold has_key. rewrite Hsr. cbn [negb]. rewrite Hplain, Haudit.
    cbn [fst snd rooms with_rooms room_audit bucket images outbox].
    rewrite (alter_present _ _ _ _ Hr). unfold set_subrooms at 1.
    by rewrite (alter_present _ _ _ _ Hsr). }
  split; [done|]. cbn [fst snd].
  erewrite versions_list_found;
    [|cbn; apply lookup_insert_eq|exact Hpv|cbn; apply lookup_insert_eq].
  eexists. split; [done|]. cbn [versions push_version].
  unfold numbered. rewrite length_imap, length_app. cbn [length].
  split; [lia|]. split; [|split].
  - rewrite list_lookup_imap, lookup_app_r, Nat.sub_diag by done. done.
  - intros i item. rewrite list_lookup_imap.
    destruct ((versions sr ++ _) !! i); cbn; [|done]. by intros [= <-].
  - intros i v Hv. rewrite list_lookup_imap, lookup_app_l, Hv; [done|].
    by eapply lookup_lt_Some.
Qed.

Lemma new_version_is_listed_witness :
  (version_new world A "room-1" "home" sample_metadata created).2
  = Reply 200 (version_created 1).
Proof.
  exact (proj1 (new_version_is_listed world A staff "room-1" "home"
                  sample_metadata created test_room (initial_subroom "A")
                  eq_refl eq_refl eq_refl eq_refl eq_refl eq_refl eq_refl
                  eq_refl)).
Defined.

(** ** Listing permissions *)

(** [permissions] shows a caller with [viewPermissions] every
    assignment of the room, an assignment to [owner] included, and every
    role with its flags except the role [owner], which is never shown. *)
Lemma permissions_list_hides_owner u id s r :
  rooms s !! id = Some r -> permitted "viewPermissions" u r = true ->
  let out := permissions_list u id s in
  out.1 = s /\ reply_status out.2 = Some 200
  /\ (forall account role,
        (account, JStr role) ∈ member "users" out.2
        <-> userPermissions r !! account = Some role)
  /\ (forall name v,
        (name, v) ∈ member "roles" out.2
        <-> name <> "owner"
            /\ exists p, rolePermissions r !! name = Some p /\ v = role_json p).
Proof.
  intros Hr Hp. cbv zeta. unfold permissions_list. entered Hr Hp.
  rewrite Hr. cbn [fst snd reply_status].
  split; [done|]. split; [done|]. split.
  - intros account role. cbn. rewrite list_elem_of_fmap. split.
    + intros [[k v] [[= <- <-] Hin]]. by apply elem_of_map_to_list in Hin.
    + intros H. exists (account, role). split; [done|].
      by apply elem_of_map_to_list.
  - intros name v. cbn. rewrite list_elem_of_fmap. split.
    + intros [[k p] [[= <- ->] Hin]]. apply elem_of_map_to_list in Hin.
      rewrite lookup_delete in Hin. case_decide; [done|]. split; [done|].
      by exists p.
    + intros [Hne (p & Hp' & ->)]. exists (name, p). split; [done|].
      apply elem_of_map_to_list. by rewrite lookup_delete_ne.
Qed.

(** ** The helpers and the routes that go through them *)

Import Helpers Counting Social Town.

(** ** The helpers *)

Ltac tunfold :=
  unfold must, reject, PullPlayerData, PushPlayerData, emit, mbind, Task_bind,
    mret, Task_ret in *.

(** *** Merging two lists *)

Lemma occurrences_absent x (l : list string) : x ∉ l -> occurrences x l = 0.
Proof.
  unfold occurrences. induction l as [|y l IH]; [done|].
  intros [Hne Hl]%not_elem_of_cons. rewrite filter_cons.
  destruct (decide (y = x)); [done|]. by apply IH.
Qed.

Lemma occurrences_kept x (a l : list string) :
  occurrences x (filter (fun item => item ∉ a) l)
  = if bool_decide (x ∈ a) then 0 else occurrences x l.
Proof.
  unfold occurrences. induction l as [|y l IH]; [by case_bool_decide|].
  rewrite (filter_cons (fun item => item ∉ a)).
  destruct (decide (y ∉ a)) as [Hy|Hy].
  - rewrite !filter_cons. destruct (decide (y = x)) as [->|Hne]; [|done].
    cbn. rewrite IH. by rewrite bool_decide_eq_false_2.
  - rewrite IH, filter_cons. destruct (decide (y = x)) as [->|Hne]; [|done].
    rewrite bool_decide_eq_true_2; [done|]. by apply dec_stable.
Qed.

(** X23: [MergeArraysWithoutDuplication(a, b)] starts with [a] and holds
    exactly the members of [a] and of [b]; a member of [a] occurs as often as
    in [a], any other as often as in [b]: the result is free of duplicates
    when (and only when) [a] is and [b] has none outside [a]. *)
Theorem merge_without_duplication (a b : list string) :
  a `prefix_of` MergeArraysWithoutDuplication a b
  /\ (forall x, x ∈ MergeArraysWithoutDuplication a b <-> x ∈ a \/ x ∈ b)
  /\ (forall x,
        occurrences x (MergeArraysWithoutDuplication a b)
        = if bool_decide (x ∈ a) then occurrences x a else occurrences x b)
  /\ (NoDup (MergeArraysWithoutDuplication a b)
      <-> NoDup a /\ NoDup (filter (fun item => item ∉ a) b)).
Proof.
  unfold MergeArraysWithoutDuplication.
  split; [by apply prefix_app_r|]. split; [|split; [|split]].
  - intros x. rewrite elem_of_app, list_elem_of_filter. split; [tauto|].
    intros [?|Hb]; [by left|].
    destruct (decide (x ∈ a)); [by left|by right].
  - intros x.
    assert (occurrences x (a ++ filter (fun item => item ∉ a) b)
            = occurrences x a
              + occurrences x (filter (fun item => item ∉ a) b)) as ->.
    { unfold occurrences. by rewrite filter_app, length_app. }
    rewrite occurrences_kept. case_bool_decide as Hx; [lia|].
    by rewrite occurrences_absent.
  - by intros (? & _ & ?)%NoDup_app.
  - intros [Ha Hb]. apply NoDup_app. split; [done|]. split; [|done].
    intros x Hx [Hn _]%list_elem_of_filter. done.
Qed.

(** *** Cutting a list at a player *)

Lemma cut_from_absent x (l : list string) : x ∉ l -> cut_from x l = l.
Proof.
  intros Hx. unfold cut_from.
  destruct (list_find _ l) as [[i y]|] eqn:E; [|done].
  apply list_find_Some in E as (Hy%list_elem_of_lookup_2 & -> & _). done.
Qed.

Lemma cut_from_found x (l1 l2 : list string) : x ∉ l1 -> cut_from x (l1 ++ x :: l2) = l1.
Proof.
  intros Hx. unfold cut_from.
  assert (list_find (fun item => item = x) (l1 ++ x :: l2)
          = Some (length l1, x)) as ->.
  { apply list_find_Some. split; [|split; [done|]].
    - by rewrite lookup_app_r, Nat.sub_diag.
    - intros j y Hy Hj ->. rewrite lookup_app_l in Hy by done.
      by apply list_elem_of_lookup_2 in Hy. }
  by rewrite take_app_length.
Qed.

Lemma cut_from_without x (l : list string) : x ∉ cut_from x l.
Proof.
  unfold cut_from. destruct (list_find _ l) as [[i y]|] eqn:E.
  - apply list_find_Some in E as (_ & -> & Hfirst).
    intros (j & Hj & Hlt)%elem_of_take. by eapply Hfirst.
  - apply list_find_None in E. intros Hx.
    by eapply Forall_forall in E.
Qed.

Lemma cut_from_prefix x (l : list string) : cut_from x l `prefix_of` l.
Proof.
  unfold cut_from. destruct (list_find _ l) as [[i y]|]; [|done].
  apply prefix_take.
Qed.

Lemma has_true (l : list string) x : has l x = true <-> x ∈ l.
Proof. unfold has. apply bool_decide_eq_true. Qed.

Lemma has_false (l : list string) x : has l x = false <-> x ∉ l.
Proof. unfold has. apply bool_decide_eq_false. Qed.

Lemma members_with_members c f a :
  members c (with_members c f a) = f (members c a).
Proof. by destruct c. Qed.

Lemma members_with_members_ne c c' f a :
  c <> c' -> members c' (with_members c f a) = members c' a.
Proof. by destruct c, c'. Qed.

Section TwoPlayers.
Variables (c : circle) (player1 player2 : string) (w : world).
Variables (data1 data2 : Account).
Hypothesis H1 : accounts w !! player1 = Some data1.
Hypothesis H2 : accounts w !! player2 = Some data2.

Lemma remove_done both :
  remove c player1 player2 both w
  = ({| accounts :=
          <[player2 := if both then with_members c (cut_from player1) data2
                       else data2]>
            (<[player1 := with_members c (cut_from player2) data1]>
               (accounts w));
        wire := wire w |}, Some tt).
Proof. unfold remove. tunfold. by rewrite H1, H2. Qed.

Lemma add_done both :
  add c player1 player2 both w
  = ({| accounts :=
          (if negb (has (members c data2) player1) && both
           then <[player2 := with_members c (fun l => l ++ [player1]) data2]>
           else fun m => m)
            ((if negb (has (members c data1) player2)
              then <[player1 := with_members c (fun l => l ++ [player2]) data1]>
              else fun m => m) (accounts w));
        wire := wire w |}, Some tt).
Proof.
  unfold add. tunfold. rewrite H1, H2.
  destruct (has (members c data1) player2), (has (members c data2) player1),
    both; cbn; try done; by destruct w.
Qed.

End TwoPlayers.

(** X24: [RemoveAcquaintance], [RemoveFriend] and [RemoveFavoriteFriend]
    cut the list of the first player at the second: the second player and
    everyone listed after them are removed, the players listed before stay;
    with [both], the list of the second player is cut at the first in the
    same way, and without it that list is left as it is. *)
Theorem remove_cuts_the_list c player1 player2 both w data1 data2 :
  accounts w !! player1 = Some data1 ->
  accounts w !! player2 = Some data2 ->
  player1 <> player2 ->
  let out := remove c player1 player2 both w in
  out.2 = Some tt
  /\ exists after1 after2,
       accounts out.1 !! player1 = Some after1
       /\ accounts out.1 !! player2 = Some after2
       /\ members c after1 = cut_from player2 (members c data1)
       /\ (player2 ∉ members c after1)
       /\ (forall before rest,
             members c data1 = before ++ player2 :: rest ->
             player2 ∉ before -> members c after1 = before)
       /\ members c after2
          = (if both then cut_from player1 (members c data2)
             else members c data2)
       /\ (forall other,
             other <> player1 -> other <> player2 ->
             accounts out.1 !! other = accounts w !! other).
Proof.
  intros H1 H2 Hne. cbv zeta. rewrite (remove_done c _ _ w _ _ H1 H2).
  split; [done|]. cbn [fst accounts].
  exists (with_members c (cut_from player2) data1),
    (if both then with_members c (cut_from player1) data2 else data2).
  rewrite lookup_insert_ne, !lookup_insert_eq by done.
  rewrite members_with_members. repeat split.
  - apply cut_from_without.
  - intros before rest -> Hbefore. by apply cut_from_found.
  - destruct both; [apply members_with_members|done].
  - intros other Ho1 Ho2. by rewrite !lookup_insert_ne.
Qed.

Lemma remove_cuts_the_list_witness :
  (RemoveFriend "ann" "bob" false town).2 = Some tt
  /\ exists after1 after2,
       accounts (RemoveFriend "ann" "bob" false town).1 !! "ann" = Some after1
       /\ accounts (RemoveFriend "ann" "bob" false town).1 !! "bob"
          = Some after2
       /\ friends after1 = ["cy"] /\ friends after2 = [].
Proof.
  destruct (remove_cuts_the_list Friends "ann" "bob" false town ann bob
              eq_refl eq_refl ltac:(discriminate))
    as (Hout & after1 & after2 & H1 & H2 & Hcut & _ & _ & Hkept & _).
  split; [exact Hout|]. exists after1, after2.
  split; [exact H1|]. split; [exact H2|]. split; [exact Hcut|].
  exact Hkept.
Defined.

Lemma cut_from_put x (l : list string) : cut_from x (put x l) = cut_from x l.
Proof.
  unfold put. destruct (has l x) eqn:Hin; [done|]. apply has_false in Hin.
  by rewrite cut_from_found, cut_from_absent.
Qed.

Lemma elem_of_put x (l : list string) : x ∈ put x l.
Proof.
  unfold put. destruct (has l x) eqn:Hin; [by apply has_true|].
  apply elem_of_app. right. by apply list_elem_of_here.
Qed.

Lemma put_prefix x (l : list string) : l `prefix_of` put x l.
Proof. unfold put. destruct (has l x); [done|by apply prefix_app_r]. Qed.

Lemma put_present x (l : list string) : x ∈ l -> put x l = l.
Proof. intros Hin%has_true. unfold put. by rewrite Hin. Qed.

Lemma with_members_id c f (a : Account) :
  f (members c a) = members c a -> with_members c f a = a.
Proof. destruct a, c; unfold with_members; cbn; by intros ->. Qed.

Lemma with_members_compose c f g (a : Account) :
  with_members c f (with_members c g a) = with_members c (fun l => f (g l)) a.
Proof. by destruct c. Qed.

(** One of the two conditional writes of [add]. *)
Lemma put_written c x k (d : Account) (m : gmap string Account) :
  m !! k = Some d ->
  (if negb (has (members c d) x)
   then <[k := with_members c (fun l => l ++ [x]) d]>
   else fun m => m) m
  = <[k := with_members c (put x) d]> m.
Proof.
  intros Hm. destruct (has (members c d) x) eqn:Hin; cbn [negb].
  - rewrite with_members_id by (unfold put; by rewrite Hin).
    by rewrite insert_id.
  - f_equal. destruct d, c; unfold with_members, put; cbn in Hin |- *;
      by rewrite Hin.
Qed.

Section AddThenRemove.
Variables (c : circle) (player1 player2 : string) (both : bool) (w : world).
Variables (data1 data2 : Account).
Hypothesis H1 : accounts w !! player1 = Some data1.
Hypothesis H2 : accounts w !! player2 = Some data2.
Hypothesis Hne : player1 <> player2.

Lemma add_both_done :
  add c player1 player2 both w
  = ({| accounts :=
          <[player2 := if both then with_members c (put player1) data2
                       else data2]>
            (<[player1 := with_members c (put player2) data1]> (accounts w));
        wire := wire w |}, Some tt).
Proof.
  rewrite (add_done c _ _ w _ _ H1 H2). do 2 f_equal.
  rewrite (put_written c player2 player1 data1 _ H1).
  destruct both.
  - rewrite andb_true_r. apply put_written. by rewrite lookup_insert_ne.
  - rewrite andb_false_r.
    by rewrite (insert_id _ player2 data2) by by rewrite lookup_insert_ne.
Qed.

Lemma add_then_remove_done :
  remove c player1 player2 both (add c player1 player2 both w).1
  = ({| accounts :=
          <[player2 := if both
                       then with_members c (cut_from player1)
                              (with_members c (put player1) data2)
                       else data2]>
            (<[player1 := with_members c (cut_from player2)
                            (with_members c (put player2) data1)]>
               (accounts w));
        wire := wire w |}, Some tt).
Proof.
  rewrite add_both_done. cbn [fst].
  erewrite remove_done;
    [|cbn; by rewrite lookup_insert_ne, lookup_insert_eq
     |cbn; by rewrite lookup_insert_eq].
  cbn [accounts wire]. do 2 f_equal.
  apply map_eq. intros k. rewrite !lookup_insert.
  destruct both; by repeat case_decide.
Qed.

End AddThenRemove.

(** X25: [AddAcquaintance], [AddFriend] and [AddFavoriteFriend] put the
    second player at the end of the first player's list unless they are on
    it, and with [both] the first at the end of the second's; what was
    listed stays, and a call that has nothing to add leaves the accounts as
    they were.  Removing with the same [both] afterwards leaves each list
    cut at the other player: the accounts are as they were when neither was
    listed before. *)
Theorem add_then_remove c player1 player2 both w data1 data2 :
  accounts w !! player1 = Some data1 ->
  accounts w !! player2 = Some data2 ->
  player1 <> player2 ->
  let added := add c player1 player2 both w in
  let removed := remove c player1 player2 both added.1 in
  added.2 = Some tt /\ removed.2 = Some tt
  /\ ((player2 ∈ members c data1) ->
      (both = true -> player1 ∈ members c data2) -> added.1 = w)
  /\ (exists after1 after2,
        accounts added.1 !! player1 = Some after1
        /\ accounts added.1 !! player2 = Some after2
        /\ (player2 ∈ members c after1)
        /\ members c data1 `prefix_of` members c after1
        /\ (if both then player1 ∈ members c after2 else after2 = data2)
        /\ members c data2 `prefix_of` members c after2)
  /\ (exists after1 after2,
        accounts removed.1 !! player1 = Some after1
        /\ accounts removed.1 !! player2 = Some after2
        /\ members c after1 = cut_from player2 (members c data1)
        /\ members c after2
           = if both then cut_from player1 (members c data2)
             else members c data2)
  /\ ((player2 ∉ members c data1) ->
      (both = true -> player1 ∉ members c data2) ->
      accounts removed.1 = accounts w).
Proof.
  intros H1 H2 Hne. cbv zeta.
  rewrite (add_then_remove_done c _ _ both w _ _ H1 H2 Hne).
  rewrite (add_both_done c _ _ both w _ _ H1 H2 Hne).
  cbn [fst snd accounts].
  split; [done|]. split; [done|]. split; [|split; [|split]].
  - intros Hin1 Hin2.
    rewrite (with_members_id c (put player2) data1) by by apply put_present.
    assert ((if both then with_members c (put player1) data2 else data2)
            = data2) as ->.
    { destruct both; [|done]. apply with_members_id, put_present. by apply Hin2. }
    rewrite (insert_id _ player1) by done.
    rewrite insert_id by done. by destruct w.
  - eexists _, _. rewrite lookup_insert_ne, !lookup_insert_eq by done.
    split; [done|]. split; [done|]. rewrite members_with_members.
    split; [apply elem_of_put|]. split; [apply put_prefix|].
    destruct both; [|done]. rewrite members_with_members.
    split; [apply elem_of_put|apply put_prefix].
  - eexists _, _. rewrite lookup_insert_ne, !lookup_insert_eq by done.
    split; [done|]. split; [done|]. rewrite !members_with_members.
    split; [apply cut_from_put|].
    destruct both; [|done]. rewrite !members_with_members. apply cut_from_put.
  - intros Hin1 Hin2.
    assert (with_members c (cut_from player2)
              (with_members c (put player2) data1) = data1) as ->.
    { rewrite with_members_compose. apply with_members_id.
      rewrite cut_from_put. by apply cut_from_absent. }
    assert ((if both
             then with_members c (cut_from player1)
                    (with_members c (put player1) data2)
             else data2) = data2) as ->.
    { destruct both; [|done]. rewrite with_members_compose.
      apply with_members_id. rewrite cut_from_put.
      apply cut_from_absent. by apply Hin2. }
    rewrite (insert_id _ player1) by done. by apply insert_id.
Qed.

Lemma add_then_remove_witness :
  accounts (remove FavoriteFriends "ann" "cy" true
              (add FavoriteFriends "ann" "cy" true town).1).1
  = accounts town.
Proof.
  destruct (add_then_remove FavoriteFriends "ann" "cy" true town ann cy
              eq_refl eq_refl ltac:(discriminate))
    as (_ & _ & _ & _ & _ & Hback).
  apply Hback; [by apply has_false|intros _; by apply has_false].
Defined.

(** For two players who both have an account, the four tests
    [ArePlayers...] do not depend on the order in which the players are
    given; when the account of the first is missing, the promise is
    rejected. *)
Lemma friendship_is_symmetric c player1 player2 w data1 data2 :
  accounts w !! player1 = Some data1 ->
  accounts w !! player2 = Some data2 ->
  related c player1 player2 w = related c player2 player1 w
  /\ ArePlayersAnyFriendType player1 player2 w
     = ArePlayersAnyFriendType player2 player1 w
  /\ (forall stranger,
        accounts w !! stranger = None ->
        related c stranger player1 w = (w, None)
        /\ ArePlayersAnyFriendType stranger player1 w = (w, None)).
Proof.
  intros H1 H2. unfold related, ArePlayersAnyFriendType. tunfold.
  rewrite H1, H2. repeat split.
  - by destruct (has (members c data1) player2),
       (has (members c data2) player1).
  - destruct (has (acquaintances data1) player2),
      (has (friends data1) player2), (has (favoriteFriends data1) player2),
      (has (acquaintances data2) player1), (has (friends data2) player1),
      (has (favoriteFriends data2) player1); done.
  - by rewrite H.
  - by rewrite H.
Qed.

(** *** Bans *)

Lemma standing_ban_app now l b :
  standing_ban now (l ++ [b])
  = match standing_ban now l with
    | Some found => Some found
    | None => if bool_decide (now < endTS b)%Z then Some b else None
    end.
Proof.
  unfold standing_ban.
  destruct (list_find _ l) as [[i x]|] eqn:E.
  - by rewrite (list_find_app_l _ _ _ _ _ E).
  - rewrite list_find_app_r by done. cbn.
    case_decide; by case_bool_decide.
Qed.

(** X26: [BanPlayer] adds a ban that ends [duration * 60] milliseconds
    after the call, [duration] being the hours asked for: unless an older
    ban still stands, a token refresh is refused with 403 before that
    moment and answered 200 from that moment on. *)
Theorem ban_ends_after_sixty_per_hour h id reason duration moderator w data :
  accounts w !! id = Some data ->
  let out := BanPlayer h id reason duration moderator w in
  out.2 = Some tt
  /\ exists data',
       accounts out.1 !! id = Some data'
       /\ bans data'
          = bans data ++ [ {| Helpers.reason := reason;
                              endTS := clock h + duration * 60;
                              moderator := moderator |} ]
       /\ forall later sign,
            standing_ban (clock later) (bans data) = None ->
            reply_status (refresh later sign id out.1).2
            = Some (if bool_decide (clock later < clock h + duration * 60)%Z
                    then 403 else 200).
Proof.
  intros Hdata. cbv zeta. unfold BanPlayer. tunfold. rewrite Hdata.
  assert (forall w' : world,
            accounts w'
            = <[id := with_bans
                        (fun l => l ++ [ {| Helpers.reason := reason;
                                            endTS := clock h + duration * 60;
                                            moderator := moderator |} ]) data]>
                (accounts w) ->
            exists data',
              accounts w' !! id = Some data'
              /\ bans data'
                 = bans data ++ [ {| Helpers.reason := reason;
                                     endTS := clock h + duration * 60;
                                     moderator := moderator |} ]
              /\ forall later sign,
                   standing_ban (clock later) (bans data) = None ->
                   reply_status (refresh later sign id w').2
                   = Some (if bool_decide
                                (clock later < clock h + duration * 60)%Z
                           then 403 else 200)) as Hafter.
  { intros w' Hw'. eexists. rewrite Hw', lookup_insert_eq.
    split; [done|]. split; [done|]. intros later sign Hnone.
    unfold refresh, route. tunfold. rewrite Hw', lookup_insert_eq.
    cbn [bans with_bans]. rewrite standing_ban_app, Hnone. cbn [endTS].
    by case_bool_decide. }
  destruct (has (connected h) id); cbn [negb fst snd];
    (split; [done|]); by apply Hafter.
Qed.

Lemma ban_ends_after_sixty_per_hour_witness :
  reply_status
    (refresh {| clock := 1650000000119; connected := [] |} (fun _ => "token")
       "bob" (BanPlayer noon "bob" "spam" 2 "7" town).1).2 = Some 403
  /\ reply_status
       (refresh {| clock := 1650000000120; connected := [] |}
          (fun _ => "token") "bob"
          (BanPlayer noon "bob" "spam" 2 "7" town).1).2 = Some 200.
Proof.
  destruct (ban_ends_after_sixty_per_hour noon "bob" "spam" 2 "7" town bob
              eq_refl) as (_ & data' & _ & _ & Hrefresh).
  split.
  - apply (Hrefresh {| clock := 1650000000119; connected := [] |}
             (fun _ => "token") eq_refl).
  - apply (Hrefresh {| clock := 1650000000120; connected := [] |}
             (fun _ => "token") eq_refl).
Defined.

(** *** Profanity *)

Lemma lower_lower c : lower (lower c) = lower c.
Proof. by destruct c as [[] [] [] [] [] [] [] []]. Qed.

Lemma toLowerCase_idempotent s : toLowerCase (toLowerCase s) = toLowerCase s.
Proof. induction s as [|c s IH]; [done|]. cbn. by rewrite lower_lower, IH. Qed.

Lemma toLowerCase_app a b :
  toLowerCase (a +:+ b) = toLowerCase a +:+ toLowerCase b.
Proof.
  induction a as [|c a IH]; [done|].
  change (String c a +:+ b) with (String c (a +:+ b)).
  cbn [toLowerCase]. by rewrite IH.
Qed.

Lemma prefix_of_app p s b : prefix_of p s = true -> prefix_of p (s +:+ b) = true.
Proof.
  revert s. induction p as [|c p IH]; intros s; [done|].
  destruct s as [|d s]; [done|].
  change (String d s +:+ b) with (String d (s +:+ b)). cbn [prefix_of].
  destruct (Ascii.eqb c d); [apply IH|done].
Qed.

Lemma includes_app_r s b word :
  includes s word = true -> includes (s +:+ b) word = true.
Proof.
  induction s as [|c s IH].
  - cbn. rewrite orb_false_r. destruct word; [|done]. intros _.
    by destruct b.
  - cbn [includes]. intros [H|H]%orb_true_iff.
    + apply (prefix_of_app _ _ b) in H.
      change (String c s +:+ b) with (String c (s +:+ b)) in H |- *.
      cbn [includes]. by rewrite H.
    + change (String c s +:+ b) with (String c (s +:+ b)).
      cbn [includes]. rewrite (IH H). by rewrite orb_true_r.
Qed.

Lemma includes_app_l a s word :
  includes s word = true -> includes (a +:+ s) word = true.
Proof.
  induction a as [|c a IH]; [done|]. intros H.
  change (String c a +:+ s) with (String c (a +:+ s)).
  cbn [includes]. rewrite (IH H). by rewrite orb_true_r.
Qed.

Lemma prefix_of_lower word s :
  prefix_of word (toLowerCase s) = true -> toLowerCase word = word.
Proof.
  revert s. induction word as [|c word IH]; intros s; [done|].
  destruct s as [|d s]; [done|]. cbn.
  destruct (Ascii.eqb c (lower d)) eqn:E; [|done].
  apply Ascii.eqb_eq in E as ->. intros H. by rewrite lower_lower, (IH s).
Qed.

Lemma includes_lower word s :
  includes (toLowerCase s) word = true -> toLowerCase word = word.
Proof.
  induction s as [|d s IH].
  - cbn. rewrite orb_false_r. by destruct word.
  - cbn [toLowerCase includes]. intros [H|H]%orb_true_iff; [|by apply IH].
    by apply (prefix_of_lower word (String d s)).
Qed.

(** X27: [check] is a test for substrings that ignores the case of the
    text: a text that contains a flagged text is flagged; the case of the
    letters of the text does not matter; the word that flags a text is in
    lower case, so that a word of the list written with a capital letter
    flags nothing; and the empty word flags every text. *)
Theorem check_is_a_substring_test (words : list string) :
  (forall s before after,
     check words s = true -> check words (before +:+ s +:+ after) = true)
  /\ (forall s, check words (toLowerCase s) = check words s)
  /\ (forall s,
        check words s = true ->
        exists word,
          In word words /\ toLowerCase word = word
          /\ includes (toLowerCase s) word = true)
  /\ (In EmptyString words -> forall s, check words s = true).
Proof.
  unfold check. split; [|split; [|split]].
  - intros s before after (word & Hin & H)%existsb_exists.
    apply existsb_exists. exists word. split; [done|].
    rewrite !toLowerCase_app. by apply includes_app_l, includes_app_r.
  - intros s. by rewrite toLowerCase_idempotent.
  - intros s (word & Hin & H)%existsb_exists. exists word.
    split; [done|]. split; [|done]. by eapply includes_lower.
  - intros Hin s. apply existsb_exists. exists EmptyString. split; [done|].
    by destruct (toLowerCase s).
Qed.

(** *** Looking an account up by its user name *)

(** X28: [getUserID] writes nothing and ignores the case of the name it is
    given and of the names it compares with: it answers with the id of an
    account whose user name is the one given up to case, and with [null]
    exactly when there is no such account. *)
Theorem getUserID_ignores_case name w :
  (getUserID name w).1 = w
  /\ getUserID (toLowerCase name) w = getUserID name w
  /\ exists found,
       (getUserID name w).2 = Some found
       /\ match found with
          | Some id =>
              exists a, accounts w !! id = Some a
                        /\ toLowerCase (username a) = toLowerCase name
          | None =>
              forall id a, accounts w !! id = Some a ->
                           toLowerCase (username a) <> toLowerCase name
          end.
Proof.
  unfold getUserID. cbn [fst snd]. split; [done|]. split.
  { by rewrite !toLowerCase_idempotent. }
  eexists. split; [done|]. rewrite toLowerCase_idempotent.
  destruct (list_find _ _) as [[i [id a]]|] eqn:E.
  - apply list_find_Some in E as (Hin%list_elem_of_lookup_2 & Hname & _).
    apply elem_of_map_to_list in Hin. by exists a.
  - apply list_find_None in E. intros id a Hin.
    apply elem_of_map_to_list in Hin.
    rewrite Forall_forall in E. by apply (E (id, a)).
Qed.

(** *** The routes that edit the lists of friends *)

Section Friends.
Variables (sender target : string) (w : world) (ds dt : Account).
Hypothesis Hs : accounts w !! sender = Some ds.
Hypothesis Ht : accounts w !! target = Some dt.
Hypothesis Hne : sender <> target.

(** With [both = false] only the document of the first player changes. *)
Lemma remove_one_sided c :
  remove c sender target false w
  = ({| accounts := <[sender := with_members c (cut_from target) ds]>
                      (accounts w);
        wire := wire w |}, Some tt).
Proof.
  rewrite (remove_done c _ _ w _ _ Hs Ht). do 2 f_equal.
  apply insert_id. by rewrite lookup_insert_ne.
Qed.

Lemma add_one_sided c :
  add c sender target false w
  = ({| accounts :=
          <[sender := if has (members c ds) target then ds
                      else with_members c (fun l => l ++ [target]) ds]>
            (accounts w);
        wire := wire w |}, Some tt).
Proof.
  rewrite (add_done c _ _ w _ _ Hs Ht). rewrite andb_false_r.
  destruct (has (members c ds) target); cbn [negb]; [|done].
  by rewrite insert_id.
Qed.

Lemma any_friend_type :
  ArePlayersAnyFriendType sender target w
  = (w, Some (on_a_list ds target || on_a_list dt sender)).
Proof.
  unfold ArePlayersAnyFriendType, on_a_list. tunfold. rewrite Hs, Ht.
  by destruct (has (acquaintances ds) target), (has (friends ds) target),
    (has (favoriteFriends ds) target).
Qed.

End Friends.

Lemma on_a_list_false a x :
  on_a_list a x = false
  <-> (x ∉ acquaintances a) /\ (x ∉ friends a) /\ (x ∉ favoriteFriends a).
Proof.
  unfold on_a_list. rewrite !orb_false_iff, !has_false. tauto.
Qed.

Lemma on_a_list_forgetting x a : on_a_list (forgetting x a) x = false.
Proof.
  apply on_a_list_false. unfold forgetting. cbn.
  repeat split; apply cut_from_without.
Qed.

Section FriendRoutes.
Variables (sender target : string) (body : jsval) (w : world).
Variables (ds dt : Account).
Hypothesis Hbody : names body target.
Hypothesis Hs : accounts w !! sender = Some ds.
Hypothesis Ht : accounts w !! target = Some dt.
Hypothesis Hne : sender <> target.

Lemma truthy_target : truthy (JStr target) = true.
Proof.
  destruct Hbody as [_ Hname]. cbn. by apply negb_true_iff, String.eqb_neq.
Qed.

Lemma remove_friend_done :
  remove_friend sender body w
  = if on_a_list ds target || on_a_list dt sender
    then ({| accounts := <[target := forgetting sender dt]>
                           (<[sender := forgetting target ds]> (accounts w));
             wire := wire w |}, text 200 "OK")
    else (w, not_related).
Proof.
  unfold remove_friend, route.
  unfold mbind at 1, Task_bind at 1. unfold must.
  rewrite (proj1 Hbody). unfold mret at 1, Task_ret at 1.
  rewrite truthy_target. cbn [negb]. unfold mbind at 1, Task_bind at 1.
  rewrite (any_friend_type _ _ w _ _ Hs Ht).
  destruct (on_a_list ds target || on_a_list dt sender); cbn [negb]; [|done].
  unfold RemoveAcquaintance, RemoveFriend, RemoveFavoriteFriend.
  unfold mbind, Task_bind.
  rewrite (remove_done Acquaintances _ _ w _ _ Hs Ht).
  erewrite (remove_done Friends);
    [|cbn; by rewrite lookup_insert_ne, lookup_insert_eq
     |cbn; by rewrite lookup_insert_eq].
  erewrite (remove_done FavoriteFriends);
    [|cbn; by rewrite lookup_insert_ne, lookup_insert_eq
     |cbn; by rewrite lookup_insert_eq].
  unfold mret, Task_ret. cbn [accounts wire]. do 2 f_equal.
  unfold forgetting. apply map_eq. intros k. rewrite !lookup_insert.
  by repeat case_decide.
Qed.

Lemma make_done c :
  on_a_list ds target || on_a_list dt sender = true ->
  make c sender body w
  = (let cut := with_members (others c).2 (cut_from target)
                  (with_members (others c).1 (cut_from target) ds) in
     {| accounts :=
          <[sender := if has (members c cut) target then cut
                      else with_members c (fun l => l ++ [target]) cut]>
            (accounts w);
        wire := wire w |}, text 200 "OK").
Proof.
  intros Hrel. unfold make, route.
  unfold mbind at 1, Task_bind at 1. unfold must.
  rewrite (proj1 Hbody). unfold mret at 1, Task_ret at 1.
  rewrite truthy_target. cbn [negb]. unfold mbind at 1, Task_bind at 1.
  rewrite (any_friend_type _ _ w _ _ Hs Ht), Hrel. cbn [negb].
  unfold mbind, Task_bind.
  rewrite (remove_one_sided _ _ w _ _ Hs Ht Hne).
  erewrite remove_one_sided;
    [|first [done | cbn; by rewrite ?lookup_insert_eq, ?lookup_insert_ne] ..].
  erewrite add_one_sided;
    [|first [done | cbn; by rewrite ?lookup_insert_eq, ?lookup_insert_ne] ..].
  unfold mret, Task_ret. cbn [accounts wire]. cbv zeta.
  by rewrite !insert_insert_eq.
Qed.

End FriendRoutes.

(** X29: [remove-friend] answers 400 and writes nothing when neither
    player has the other on a list; otherwise it answers 200 and cuts the
    three lists of each player at the other: afterwards neither has the other
    on any list, and [ArePlayersAnyFriendType] says so. *)
Theorem remove_friend_unfriends sender target body w ds dt :
  names body target ->
  accounts w !! sender = Some ds -> accounts w !! target = Some dt ->
  sender <> target ->
  let out := remove_friend sender body w in
  if on_a_list ds target || on_a_list dt sender then
    out.2 = text 200 "OK"
    /\ accounts out.1 !! sender = Some (forgetting target ds)
    /\ accounts out.1 !! target = Some (forgetting sender dt)
    /\ (forall c, members c (forgetting target ds)
                  = cut_from target (members c ds))
    /\ on_a_list (forgetting target ds) target = false
    /\ on_a_list (forgetting sender dt) sender = false
    /\ ArePlayersAnyFriendType sender target out.1 = (out.1, Some false)
  else out = (w, not_related).
Proof.
  intros Hbody Hs Ht Hne. cbv zeta.
  rewrite (remove_friend_done _ _ _ w _ _ Hbody Hs Ht Hne).
  destruct (on_a_list ds target || on_a_list dt sender); [|done].
  cbn [fst snd accounts].
  rewrite lookup_insert_ne, !lookup_insert_eq by done.
  split; [done|]. split; [done|]. split; [done|]. split; [by intros []|].
  split; [apply on_a_list_forgetting|]. split; [apply on_a_list_forgetting|].
  erewrite any_friend_type;
    [|cbn; by rewrite lookup_insert_ne, lookup_insert_eq
     |cbn; by rewrite lookup_insert_eq].
  by rewrite !on_a_list_forgetting.
Qed.

Lemma remove_friend_unfriends_witness :
  names (targeting "bob") "bob"
  /\ on_a_list ann "bob" || on_a_list bob "ann" = true
  /\ (remove_friend "ann" (targeting "bob") town).2 = text 200 "OK"
  /\ accounts (remove_friend "ann" (targeting "bob") town).1 !! "ann"
     = Some (resident "Ann" [] ["cy"] [])
  /\ accounts (remove_friend "ann" (targeting "bob") town).1 !! "bob"
     = Some (resident "Bob" [] [] []).
Proof.
  assert (names (targeting "bob") "bob") as Hbody by (by split).
  split; [exact Hbody|]. split; [reflexivity|].
  destruct (remove_friend_unfriends "ann" "bob" (targeting "bob") town ann bob
              Hbody eq_refl eq_refl ltac:(discriminate))
    as (Hout & H1 & H2 & _).
  split; [exact Hout|]. split; [exact H1|exact H2].
Defined.

(** X30: [make-acquaintance], [make-friend] and [make-favorite-friend]
    leave the target on the list asked for and on neither of the two other
    lists of the sender (each of them cut at the target), and leave the
    target's own document as it is. *)
Theorem make_moves_to_one_list c sender target body w ds dt :
  names body target ->
  accounts w !! sender = Some ds -> accounts w !! target = Some dt ->
  sender <> target ->
  on_a_list ds target || on_a_list dt sender = true ->
  let out := make c sender body w in
  out.2 = text 200 "OK"
  /\ accounts out.1 !! target = Some dt
  /\ exists ds',
       accounts out.1 !! sender = Some ds'
       /\ (target ∈ members c ds')
       /\ members c ds `prefix_of` members c ds'
       /\ (forall c', c' <> c ->
             members c' ds' = cut_from target (members c' ds)
             /\ (target ∉ members c' ds')).
Proof.
  intros Hbody Hs Ht Hne Hrel. cbv zeta.
  rewrite (make_done _ _ _ w _ _ Hbody Hs Ht Hne c Hrel).
  cbn [fst snd accounts]. cbv zeta.
  rewrite lookup_insert_ne, lookup_insert_eq by done.
  split; [done|]. split; [done|]. eexists. split; [done|].
  destruct c; cbn [others fst snd members with_members];
    destruct (has _ target) eqn:Hhas;
    cbn [members with_members acquaintances friends favoriteFriends];
    (split; [first [by apply has_true
                   | apply elem_of_app; right; apply list_elem_of_here]|]);
    (split; [first [done | by apply prefix_app_r]|]);
    intros [] Hc'; try done; (split; [done|apply cut_from_without]).
Qed.

Lemma make_moves_to_one_list_witness :
  (make_favorite_friend "ann" (targeting "bob") town).2 = text 200 "OK"
  /\ accounts (make_favorite_friend "ann" (targeting "bob") town).1 !! "bob"
     = Some bob.
Proof.
  destruct (make_moves_to_one_list FavoriteFriends "ann" "bob"
              (targeting "bob") town ann bob
              ltac:(by split) eq_refl eq_refl ltac:(discriminate) eq_refl)
    as (Hout & Hbob & _).
  split; [exact Hout|exact Hbob].
Defined.
